(** * Dronacharya: the data-access layer, its two SQLite backends and the
      JSON encoding of nested payloads.

    The development embeds
      - [src/server.ts]: the schema script and the four HTTP handlers;
      - [src/src/services/dataService.ts]: [DataService] with its
        [isMobile] branch in every method;
      - [src/src/services/geminiService.ts]: the two [JSON.parse] calls on
        the text of the generation service;
      - [src/src/types.ts]: the [Question] and [Test] interfaces;
      - [src/src/App.tsx]: [getProfileStats];
    over a model of the primitives they call: [JSON.stringify] /
    [JSON.parse] and the SQLite statements written in the source.

    Conventions.
      - A JavaScript number is an integer [Z]: identifiers, ages and scores
        are integers.  Fractions, exponents, NaN and the infinities are
        outside the fragment, and so are integers that do not fit the 64
        bits of the store.
      - A JavaScript string is a [string], one [ascii] per code unit, so
        code units range over 0..255.
      - A JavaScript object is the list of its properties in enumeration
        order.  The objects the data layer builds have no array index for a
        key, so that order is the order of insertion; the answers of a
        student, keyed by question number, are listed in ascending order
        of the keys.
      - A promise is its settled state: resolved with a value or rejected
        with an error. *)

From Stdlib Require Import ZArith NArith List String Ascii Bool Lia.
From Stdlib Require Import Decimal DecimalFacts DecimalString DecimalN.
From Stdlib Require Import Sorted.
Import ListNotations.

Local Open Scope string_scope.
Local Open Scope Z_scope.

(** ** Strings *)

(** [strip_prefix p s] removes the literal [p] from the front of [s]. *)
Fixpoint strip_prefix (p s : string) : option string :=
  match p, s with
  | EmptyString, _ => Some s
  | String a p', String b s' => if Ascii.eqb a b then strip_prefix p' s' else None
  | String _ _, EmptyString => None
  end.

(** ** JavaScript values and JSON *)

Module JSON.

(** The values that flow through the data layer: what [JSON.parse] returns,
    plus [undefined], which [JSON.stringify] meets in its input. *)
Unset Elimination Schemes.
Inductive value : Type :=
| VUndef
| VNull
| VBool (b : bool)
| VNum (z : Z)
| VStr (s : string)
| VArr (l : list value)
| VObj (m : list (string * value)).
Set Elimination Schemes.

Section ValueInduction.
Variable P : value -> Prop.
Hypothesis Hundef : P VUndef.
Hypothesis Hnull : P VNull.
Hypothesis Hbool : forall b, P (VBool b).
Hypothesis Hnum : forall z, P (VNum z).
Hypothesis Hstr : forall s, P (VStr s).
Hypothesis Harr : forall l, Forall P l -> P (VArr l).
Hypothesis Hobj : forall m, Forall (fun kv => P (snd kv)) m -> P (VObj m).

Fixpoint value_ind (v : value) : P v :=
  match v with
  | VUndef => Hundef
  | VNull => Hnull
  | VBool b => Hbool b
  | VNum z => Hnum z
  | VStr s => Hstr s
  | VArr l =>
      Harr l ((fix go (l : list value) : Forall P l :=
                 match l with
                 | [] => Forall_nil _
                 | x :: l' => Forall_cons x (value_ind x) (go l')
                 end) l)
  | VObj m =>
      Hobj m ((fix go (m : list (string * value))
                 : Forall (fun kv => P (snd kv)) m :=
                 match m with
                 | [] => Forall_nil _
                 | kv :: m' =>
                     Forall_cons (P := fun kv => P (snd kv)) kv
                                 (value_ind (snd kv)) (go m')
                 end) m)
  end.
End ValueInduction.

(** *** Property access *)

(** [o.k]: the value of own property [k], [undefined] when absent or when
    [o] is not an object. *)
Fixpoint lookup (k : string) (m : list (string * value)) : value :=
  match m with
  | [] => VUndef
  | (k', v) :: m' => if String.eqb k k' then v else lookup k m'
  end.

Definition get_field (k : string) (o : value) : value :=
  match o with
  | VObj m => lookup k m
  | _ => VUndef
  end.

(** [o[k] = v] on the property list: an existing key keeps its place, a new
    key goes last. *)
Fixpoint obj_set (k : string) (v : value) (m : list (string * value))
  : list (string * value) :=
  match m with
  | [] => [(k, v)]
  | (k', v') :: m' =>
      if String.eqb k k' then (k', v) :: m' else (k', v') :: obj_set k v m'
  end.

(** *** Coercions *)

(** ToBoolean. *)
Definition truthy (v : value) : bool :=
  match v with
  | VUndef | VNull => false
  | VBool b => b
  | VNum z => negb (z =? 0)
  | VStr s => negb (String.eqb s "")
  | VArr _ | VObj _ => true
  end.

(** *** JSON.stringify *)

Definition dquote : ascii := ascii_of_N 34.

Definition hex_digit (n : N) : ascii :=
  if (n <? 10)%N then ascii_of_N (48 + n) else ascii_of_N (87 + n).

(** QuoteJSONString on one code unit. *)
Definition escape_char (c : ascii) : string :=
  let n := N_of_ascii c in
  if (n =? 8)%N then "\b"
  else if (n =? 9)%N then "\t"
  else if (n =? 10)%N then "\n"
  else if (n =? 12)%N then "\f"
  else if (n =? 13)%N then "\r"
  else if (n =? 34)%N then String "\" (String dquote "")
  else if (n =? 92)%N then "\\"
  else if (n <? 32)%N then
    String "\" (String "u" (String "0" (String "0"
      (String (hex_digit (n / 16)) (String (hex_digit (n mod 16)) "")))))
  else String c "".

Fixpoint escape (s : string) : string :=
  match s with
  | EmptyString => ""
  | String c s' => escape_char c ++ escape s'
  end.

Definition quote (s : string) : string :=
  String dquote (escape s ++ String dquote "").

(** Number::toString on an integer. *)
Definition print_nat (n : N) : string := NilEmpty.string_of_uint (N.to_uint n).

Definition print_int (z : Z) : string :=
  if z <? 0 then String "-" (print_nat (Z.abs_N z)) else print_nat (Z.to_N z).

Fixpoint sep_by (sep : string) (ts : list string) : string :=
  match ts with
  | [] => ""
  | [t] => t
  | t :: ts' => t ++ sep ++ sep_by sep ts'
  end.

(** SerializeJSONProperty: [None] is the [undefined] result.  An
    [undefined] array element is written [null]; a property whose value is
    [undefined] is left out. *)
Fixpoint serialize (v : value) : option string :=
  match v with
  | VUndef => None
  | VNull => Some "null"
  | VBool true => Some "true"
  | VBool false => Some "false"
  | VNum z => Some (print_int z)
  | VStr s => Some (quote s)
  | VArr l =>
      Some ("[" ++ sep_by ","
              (map (fun x => match serialize x with
                             | Some t => t
                             | None => "null"
                             end) l) ++ "]")
  | VObj m =>
      Some ("{" ++ sep_by ","
              (flat_map (fun kv => match serialize (snd kv) with
                                   | Some t => [quote (fst kv) ++ ":" ++ t]
                                   | None => []
                                   end) m) ++ "}")
  end.

Definition stringify : value -> option string := serialize.

(** *** JSON.parse *)

Definition is_ws (c : ascii) : bool :=
  let n := N_of_ascii c in
  ((n =? 32) || (n =? 9) || (n =? 10) || (n =? 13))%N.

Fixpoint skip_ws (s : string) : string :=
  match s with
  | String c s' => if is_ws c then skip_ws s' else s
  | EmptyString => s
  end.

Definition is_digit (c : ascii) : bool :=
  let n := N_of_ascii c in ((48 <=? n) && (n <=? 57))%N.

Fixpoint span_digits (s : string) : string * string :=
  match s with
  | String c s' =>
      if is_digit c then let (d, r) := span_digits s' in (String c d, r)
      else ("", s)
  | EmptyString => ("", "")
  end.

Definition hex_value (c : ascii) : option N :=
  let n := N_of_ascii c in
  if ((48 <=? n) && (n <=? 57))%N then Some (n - 48)%N
  else if ((97 <=? n) && (n <=? 102))%N then Some (n - 87)%N
  else if ((65 <=? n) && (n <=? 70))%N then Some (n - 55)%N
  else None.

(** The code unit of [\uXXXX]; units above 255 are outside the fragment. *)
Definition unit_of_hex (a b c d : ascii) : option ascii :=
  match hex_value a, hex_value b, hex_value c, hex_value d with
  | Some x, Some y, Some z, Some w =>
      let n := (((x * 16 + y) * 16 + z) * 16 + w)%N in
      if (n <? 256)%N then Some (ascii_of_N n) else None
  | _, _, _, _ => None
  end.

(** The characters of a string literal after its opening quote, up to and
    including the closing quote. *)
Fixpoint parse_chars (s : string) : option (string * string) :=
  let cons (c : ascii) (r : option (string * string)) :=
    match r with
    | Some (t, rest) => Some (String c t, rest)
    | None => None
    end in
  match s with
  | EmptyString => None
  | String c s1 =>
      let n := N_of_ascii c in
      if (n =? 34)%N then Some ("", s1)
      else if (n =? 92)%N then
        match s1 with
        | EmptyString => None
        | String e s2 =>
            let m := N_of_ascii e in
            if (m =? 34)%N then cons e (parse_chars s2)
            else if (m =? 92)%N then cons e (parse_chars s2)
            else if (m =? 47)%N then cons e (parse_chars s2)
            else if (m =? 98)%N then cons (ascii_of_N 8) (parse_chars s2)
            else if (m =? 102)%N then cons (ascii_of_N 12) (parse_chars s2)
            else if (m =? 110)%N then cons (ascii_of_N 10) (parse_chars s2)
            else if (m =? 114)%N then cons (ascii_of_N 13) (parse_chars s2)
            else if (m =? 116)%N then cons (ascii_of_N 9) (parse_chars s2)
            else if (m =? 117)%N then
              match s2 with
              | String h1 (String h2 (String h3 (String h4 s3))) =>
                  match unit_of_hex h1 h2 h3 h4 with
                  | Some u => cons u (parse_chars s3)
                  | None => None
                  end
              | _ => None
              end
            else None
        end
      else if (n <? 32)%N then None
      else cons c (parse_chars s1)
  end.

Definition leading_zero (ds : string) : bool :=
  match ds with
  | String c (String _ _) => (N_of_ascii c =? 48)%N
  | _ => false
  end.

Definition is_frac_or_exp (s : string) : bool :=
  match s with
  | String c _ =>
      let n := N_of_ascii c in ((n =? 46) || (n =? 101) || (n =? 69))%N
  | EmptyString => false
  end.

(** An unsigned integer literal: digits, no leading zero.  A literal that
    goes on with a fraction or an exponent is outside the fragment and is
    not read. *)
Definition parse_nat (s : string) : option (N * string) :=
  let (ds, rest) := span_digits s in
  match ds with
  | EmptyString => None
  | _ =>
      if leading_zero ds || is_frac_or_exp rest then None
      else match NilEmpty.uint_of_string ds with
           | Some d => Some (N.of_uint d, rest)
           | None => None
           end
  end.

Definition parse_int (s : string) : option (Z * string) :=
  match s with
  | String c s' =>
      if (N_of_ascii c =? 45)%N then
        match parse_nat s' with
        | Some (n, rest) => Some (- Z.of_N n, rest)
        | None => None
        end
      else
        match parse_nat s with
        | Some (n, rest) => Some (Z.of_N n, rest)
        | None => None
        end
  | EmptyString => None
  end.

Definition parse_literal (s : string) : option (value * string) :=
  match strip_prefix "null" s with
  | Some r => Some (VNull, r)
  | None =>
  match strip_prefix "true" s with
  | Some r => Some (VBool true, r)
  | None =>
  match strip_prefix "false" s with
  | Some r => Some (VBool false, r)
  | None =>
  match parse_int s with
  | Some (z, r) => Some (VNum z, r)
  | None => None
  end end end end.

(** The object a member list builds: a repeated key overwrites. *)
Definition build_obj (kvs : list (string * value)) : list (string * value) :=
  fold_left (fun m kv => obj_set (fst kv) (snd kv) m) kvs [].

(** Recursive descent; the fuel bounds the nesting and is set from the
    length of the text by [parse]. *)
Fixpoint parse_value (fuel : nat) (s : string) : option (value * string) :=
  match fuel with
  | O => None
  | S f =>
      match skip_ws s with
      | EmptyString => None
      | String c r =>
          let n := N_of_ascii c in
          if (n =? 91)%N then
            match skip_ws r with
            | EmptyString => None
            | String c' r' =>
                if (N_of_ascii c' =? 93)%N then Some (VArr [], r')
                else match parse_elems f r with
                     | Some (l, r'') => Some (VArr l, r'')
                     | None => None
                     end
            end
          else if (n =? 123)%N then
            match skip_ws r with
            | EmptyString => None
            | String c' r' =>
                if (N_of_ascii c' =? 125)%N then Some (VObj [], r')
                else match parse_members f r with
                     | Some (m, r'') => Some (VObj (build_obj m), r'')
                     | None => None
                     end
            end
          else if (n =? 34)%N then
            match parse_chars r with
            | Some (t, r') => Some (VStr t, r')
            | None => None
            end
          else parse_literal (String c r)
      end
  end
with parse_elems (fuel : nat) (s : string) : option (list value * string) :=
  match fuel with
  | O => None
  | S f =>
      match parse_value f s with
      | None => None
      | Some (v, r) =>
          match skip_ws r with
          | EmptyString => None
          | String c r' =>
              let n := N_of_ascii c in
              if (n =? 44)%N then
                match parse_elems f r' with
                | Some (l, r'') => Some (v :: l, r'')
                | None => None
                end
              else if (n =? 93)%N then Some ([v], r')
              else None
          end
      end
  end
with parse_members (fuel : nat) (s : string)
  : option (list (string * value) * string) :=
  match fuel with
  | O => None
  | S f =>
      match skip_ws s with
      | EmptyString => None
      | String q r0 =>
          if negb (N_of_ascii q =? 34)%N then None
          else
          match parse_chars r0 with
          | None => None
          | Some (k, r1) =>
              match skip_ws r1 with
              | EmptyString => None
              | String c r2 =>
                  if negb (N_of_ascii c =? 58)%N then None
                  else
                  match parse_value f r2 with
                  | None => None
                  | Some (v, r3) =>
                      match skip_ws r3 with
                      | EmptyString => None
                      | String d r4 =>
                          let n := N_of_ascii d in
                          if (n =? 44)%N then
                            match parse_members f r4 with
                            | Some (m, r5) => Some ((k, v) :: m, r5)
                            | None => None
                            end
                          else if (n =? 125)%N then Some ([(k, v)], r4)
                          else None
                      end
                  end
              end
          end
      end
  end.

(** ToString on the primitive values; [None] on arrays and objects, which
    no caller of [JSON.parse] in this program passes. *)
Definition to_string (v : value) : option string :=
  match v with
  | VUndef => Some "undefined"
  | VNull => Some "null"
  | VBool true => Some "true"
  | VBool false => Some "false"
  | VNum z => Some (print_int z)
  | VStr s => Some s
  | VArr _ | VObj _ => None
  end.

(** [JSON.parse]: [None] is the thrown [SyntaxError].  A text whose value
    the conventions leave out (a number with a fraction or an exponent, an
    escape above [\u00ff]) is not read either. *)
Definition parse (s : string) : option value :=
  match parse_value (S (String.length s)) s with
  | Some (v, r) =>
      match skip_ws r with
      | EmptyString => Some v
      | String _ _ => None
      end
  | None => None
  end.

(** *** Values that JSON represents *)

Fixpoint distinct (ks : list string) : bool :=
  match ks with
  | [] => true
  | k :: ks' => negb (existsb (String.eqb k) ks') && distinct ks'
  end.

(** No [undefined] inside, and no object lists a key twice. *)
Fixpoint jsonable (v : value) : bool :=
  match v with
  | VUndef => false
  | VNull | VBool _ | VNum _ | VStr _ => true
  | VArr l => forallb jsonable l
  | VObj m =>
      distinct (map fst m) && forallb (fun kv => jsonable (snd kv)) m
  end.

(** What may follow a number in a text: not a digit, a point or an
    exponent mark. *)
Definition ends_number (rest : string) : bool :=
  match rest with
  | EmptyString => true
  | String c _ => negb (is_digit c) && negb (is_frac_or_exp rest)
  end.

(** The first character of a serialized value. *)
Definition starts_value (c : ascii) : bool :=
  let n := N_of_ascii c in
  (is_digit c || (n =? 45) || (n =? 110) || (n =? 116) || (n =? 102)
   || (n =? 34) || (n =? 91) || (n =? 123))%N.

(** [JSON.parse(x)] on a value: the argument is converted to a string
    first. *)
Definition parse_js (v : value) : option value :=
  match to_string v with
  | Some s => parse s
  | None => None
  end.

End JSON.

Import JSON.

(** ** The SQLite statements of the source *)

Module SQL.

(** Storage classes; REAL and BLOB values never occur in this program. *)
Inductive cell : Type :=
| SNull
| SInt (z : Z)
| SText (s : string).

Inductive error : Type :=
| NoSuchTable
| NoSuchColumn
| NotNullViolation
| UniqueViolation
| ForeignKeyViolation.

Inductive res (A : Type) : Type :=
| Ok (a : A)
| Err (e : error).
Arguments Ok {A} a.
Arguments Err {A} e.

Definition bind {A B : Type} (r : res A) (k : A -> res B) : res B :=
  match r with
  | Ok a => k a
  | Err e => Err e
  end.

Notation "'do' x <- r ; k" := (bind r (fun x => k))
  (at level 10, x name, r at level 100, k at level 200).

(** *** Data definition *)

Record column : Type := {
  c_name : string;
  c_type : string;          (* the declared type, as written *)
  c_notnull : bool;         (* NOT NULL *)
  c_rowid : bool;           (* INTEGER PRIMARY KEY AUTOINCREMENT *)
  c_now : bool              (* DEFAULT CURRENT_TIMESTAMP *)
}.

Inductive constraint : Type :=
| Unique (cols : list string)
| ForeignKey (col ref_table ref_col : string).

Record table_def : Type := {
  td_name : string;
  td_columns : list column;
  td_constraints : list constraint
}.

Definition col (n ty : string) (notnull : bool) : column :=
  {| c_name := n; c_type := ty; c_notnull := notnull;
     c_rowid := false; c_now := false |}.

Definition rowid_col (n : string) : column :=
  {| c_name := n; c_type := "INTEGER"; c_notnull := false;
     c_rowid := true; c_now := false |}.

Definition now_col (n ty : string) : column :=
  {| c_name := n; c_type := ty; c_notnull := false;
     c_rowid := false; c_now := true |}.

(** Column affinity from the declared type (rules 1, 2, 3 and 5 of the
    engine; no column of either schema is declared REAL). *)
Inductive affinity : Type := AffInteger | AffText | AffBlob | AffNumeric.

Fixpoint contains (p s : string) : bool :=
  match strip_prefix p s with
  | Some _ => true
  | None =>
      match s with
      | String _ s' => contains p s'
      | EmptyString => false
      end
  end.

Definition affinity_of (ty : string) : affinity :=
  if contains "INT" ty then AffInteger
  else if contains "CHAR" ty || contains "CLOB" ty || contains "TEXT" ty
       then AffText
  else if contains "BLOB" ty || String.eqb ty "" then AffBlob
  else AffNumeric.

(** A text that is a decimal integer, with an optional minus sign
    (surrounding blanks, a plus sign, fractions and exponents are outside
    the fragment). *)
Definition digits_to_N (s : string) : option N :=
  match s with
  | EmptyString => None
  | String _ _ =>
      match NilEmpty.uint_of_string s with
      | Some d => Some (N.of_uint d)
      | None => None
      end
  end.

Definition text_to_int (s : string) : option Z :=
  match s with
  | EmptyString => None
  | String c s' =>
      if (N_of_ascii c =? 45)%N then
        match digits_to_N s' with
        | Some n => Some (- Z.of_N n)
        | None => None
        end
      else
        match digits_to_N s with
        | Some n => Some (Z.of_N n)
        | None => None
        end
  end.

Definition apply_affinity (a : affinity) (v : cell) : cell :=
  match a, v with
  | AffText, SInt z => SText (print_int z)
  | AffInteger, SText s | AffNumeric, SText s =>
      match text_to_int s with
      | Some z => SInt z
      | None => v
      end
  | _, _ => v
  end.

(** *** Values, comparison and order *)

Definition is_null (v : cell) : bool :=
  match v with SNull => true | _ => false end.

(** [a = b] on stored values; a comparison with NULL is not true. *)
Definition cell_eqb (a b : cell) : bool :=
  match a, b with
  | SInt x, SInt y => x =? y
  | SText x, SText y => String.eqb x y
  | _, _ => false
  end.

(** [column = ?]: the affinity of the column is applied to the parameter
    before the values are compared. *)
Definition col_eqb (a : affinity) (stored param : cell) : bool :=
  cell_eqb stored (apply_affinity a param).

(** The order of ORDER BY: NULL, then numbers, then text bytewise. *)
Definition cell_compare (a b : cell) : comparison :=
  match a, b with
  | SNull, SNull => Eq
  | SNull, _ => Lt
  | _, SNull => Gt
  | SInt x, SInt y => x ?= y
  | SInt _, SText _ => Lt
  | SText _, SInt _ => Gt
  | SText x, SText y => String.compare x y
  end.

Definition cell_leb (a b : cell) : bool :=
  match cell_compare a b with
  | Gt => false
  | _ => true
  end.

(** *** Rows and tables *)

Record student : Type := {
  s_id : Z; s_name : cell; s_age : cell; s_class : cell
}.

Record test : Type := {
  t_id : Z; t_student_id : cell; t_topic : cell; t_complexity : cell;
  t_concepts : cell; t_questions : cell; t_created_at : cell
}.

Record result : Type := {
  r_id : Z; r_test_id : cell; r_answers : cell; r_score : cell;
  r_feedback : cell; r_analysis : cell; r_completed_at : cell
}.

(** A table: its definition, its rows in rowid order and the counter that
    AUTOINCREMENT keeps in sqlite_sequence. *)
Record table (R : Type) : Type := {
  def : table_def;
  rows : list R;
  seq : Z
}.
Arguments def {R} t.
Arguments rows {R} t.
Arguments seq {R} t.

Record database : Type := {
  students : option (table student);
  tests : option (table test);
  results : option (table result);
  foreign_keys : bool       (* PRAGMA foreign_keys of the connection *)
}.

Definition empty_database (fk : bool) : database :=
  {| students := None; tests := None; results := None; foreign_keys := fk |}.

Definition student_get (c : string) (r : student) : cell :=
  if String.eqb c "id" then SInt (s_id r)
  else if String.eqb c "name" then s_name r
  else if String.eqb c "age" then s_age r
  else if String.eqb c "class" then s_class r
  else SNull.

Definition test_get (c : string) (r : test) : cell :=
  if String.eqb c "id" then SInt (t_id r)
  else if String.eqb c "student_id" then t_student_id r
  else if String.eqb c "topic" then t_topic r
  else if String.eqb c "complexity" then t_complexity r
  else if String.eqb c "concepts" then t_concepts r
  else if String.eqb c "questions" then t_questions r
  else if String.eqb c "created_at" then t_created_at r
  else SNull.

Definition result_get (c : string) (r : result) : cell :=
  if String.eqb c "id" then SInt (r_id r)
  else if String.eqb c "test_id" then r_test_id r
  else if String.eqb c "answers" then r_answers r
  else if String.eqb c "score" then r_score r
  else if String.eqb c "feedback" then r_feedback r
  else if String.eqb c "analysis" then r_analysis r
  else if String.eqb c "completed_at" then r_completed_at r
  else SNull.

(** The values of one column of a table, [None] when the table is absent. *)
Definition column_values (db : database) (t c : string) : option (list cell) :=
  if String.eqb t "students" then
    option_map (fun tb => map (student_get c) (rows tb)) (students db)
  else if String.eqb t "tests" then
    option_map (fun tb => map (test_get c) (rows tb)) (tests db)
  else if String.eqb t "results" then
    option_map (fun tb => map (result_get c) (rows tb)) (results db)
  else None.

(** *** CREATE TABLE IF NOT EXISTS *)

Definition fresh_table {R : Type} (d : table_def) : table R :=
  {| def := d; rows := []; seq := 0 |}.

Definition keep_or_create {R : Type} (d : table_def) (t : option (table R))
  : option (table R) :=
  match t with
  | Some tb => Some tb
  | None => Some (fresh_table d)
  end.

Definition create_table_if_not_exists (d : table_def) (db : database)
  : database :=
  if String.eqb (td_name d) "students" then
    {| students := keep_or_create d (students db); tests := tests db;
       results := results db; foreign_keys := foreign_keys db |}
  else if String.eqb (td_name d) "tests" then
    {| students := students db; tests := keep_or_create d (tests db);
       results := results db; foreign_keys := foreign_keys db |}
  else if String.eqb (td_name d) "results" then
    {| students := students db; tests := tests db;
       results := keep_or_create d (results db);
       foreign_keys := foreign_keys db |}
  else db.

(** A script of CREATE TABLE IF NOT EXISTS statements, run in order. *)
Definition exec (script : list table_def) (db : database) : res database :=
  Ok (fold_left (fun d t => create_table_if_not_exists t d) script db).

(** *** INSERT *)

Definition find_column (d : table_def) (c : string) : option column :=
  find (fun x => String.eqb (c_name x) c) (td_columns d).

(** The value stored in column [c] for the bound value [v]. *)
Definition store (d : table_def) (c : string) (v : cell) : res cell :=
  match find_column d c with
  | None => Err NoSuchColumn
  | Some x =>
      let v' := apply_affinity (affinity_of (c_type x)) v in
      if c_notnull x && is_null v' then Err NotNullViolation else Ok v'
  end.

(** A column the statement does not list: its default. *)
Definition default (d : table_def) (c : string) (now : string) : res cell :=
  match find_column d c with
  | None => Err NoSuchColumn
  | Some x =>
      if c_now x
      then Ok (apply_affinity (affinity_of (c_type x)) (SText now))
      else if c_notnull x then Err NotNullViolation else Ok SNull
  end.

Definition next_rowid {R : Type} (id : R -> Z) (t : table R) : Z :=
  fold_right Z.max (seq t) (map id (rows t)) + 1.

(** UNIQUE(cols): no stored row agrees with the new one on every listed
    column (NULLs never agree). *)
Definition unique_ok {R : Type} (get : string -> R -> cell)
  (d : table_def) (old : list R) (new : R) : bool :=
  forallb (fun k =>
    match k with
    | Unique cols =>
        negb (existsb (fun r =>
          forallb (fun c => cell_eqb (get c r) (get c new)) cols) old)
    | ForeignKey _ _ _ => true
    end) (td_constraints d).

(** FOREIGN KEY(col) REFERENCES t(c), checked when the connection enforces
    foreign keys: a non-NULL value must occur in the parent column. *)
Definition fk_check {R : Type} (get : string -> R -> cell)
  (db : database) (d : table_def) (new : R) : res unit :=
  fold_right (fun k acc =>
    match k with
    | ForeignKey c rt rc =>
        if negb (foreign_keys db) || is_null (get c new) then acc
        else match column_values db rt rc with
             | None => Err NoSuchTable
             | Some vs =>
                 if existsb (cell_eqb (get c new)) vs then acc
                 else Err ForeignKeyViolation
             end
    | Unique _ => acc
    end) (Ok tt) (td_constraints d).

Definition check_row {R : Type} (get : string -> R -> cell)
  (db : database) (t : table R) (new : R) : res unit :=
  if unique_ok get (def t) (rows t) new then fk_check get db (def t) new
  else Err UniqueViolation.

Definition append_row {R : Type} (id : R -> Z) (t : table R) (new : R)
  : table R :=
  {| def := def t; rows := rows t ++ [new]; seq := id new |}.

(** INSERT INTO students (name, age, class) VALUES (?, ?, ?) *)
Definition insert_student (db : database) (name age class : cell)
  : res (Z * database) :=
  match students db with
  | None => Err NoSuchTable
  | Some t =>
      do n <- store (def t) "name" name;
      do a <- store (def t) "age" age;
      do c <- store (def t) "class" class;
      let new := {| s_id := next_rowid s_id t; s_name := n; s_age := a;
                    s_class := c |} in
      do _ <- check_row student_get db t new;
      Ok (s_id new,
          {| students := Some (append_row s_id t new); tests := tests db;
             results := results db; foreign_keys := foreign_keys db |})
  end.

(** INSERT INTO tests (student_id, topic, complexity, concepts, questions)
    VALUES (?, ?, ?, ?, ?) *)
Definition insert_test (db : database) (now : string)
  (student_id topic complexity concepts questions : cell)
  : res (Z * database) :=
  match tests db with
  | None => Err NoSuchTable
  | Some t =>
      do s <- store (def t) "student_id" student_id;
      do tp <- store (def t) "topic" topic;
      do cx <- store (def t) "complexity" complexity;
      do cc <- store (def t) "concepts" concepts;
      do q <- store (def t) "questions" questions;
      do at_ <- default (def t) "created_at" now;
      let new := {| t_id := next_rowid t_id t; t_student_id := s;
                    t_topic := tp; t_complexity := cx; t_concepts := cc;
                    t_questions := q; t_created_at := at_ |} in
      do _ <- check_row test_get db t new;
      Ok (t_id new,
          {| students := students db; tests := Some (append_row t_id t new);
             results := results db; foreign_keys := foreign_keys db |})
  end.

(** INSERT INTO results (test_id, answers, score, feedback, analysis)
    VALUES (?, ?, ?, ?, ?) *)
Definition insert_result (db : database) (now : string)
  (test_id answers score feedback analysis : cell)
  : res (Z * database) :=
  match results db with
  | None => Err NoSuchTable
  | Some t =>
      do ti <- store (def t) "test_id" test_id;
      do an <- store (def t) "answers" answers;
      do sc <- store (def t) "score" score;
      do fb <- store (def t) "feedback" feedback;
      do al <- store (def t) "analysis" analysis;
      do at_ <- default (def t) "completed_at" now;
      let new := {| r_id := next_rowid r_id t; r_test_id := ti;
                    r_answers := an; r_score := sc; r_feedback := fb;
                    r_analysis := al; r_completed_at := at_ |} in
      do _ <- check_row result_get db t new;
      Ok (r_id new,
          {| students := students db; tests := tests db;
             results := Some (append_row r_id t new);
             foreign_keys := foreign_keys db |})
  end.

(** *** SELECT *)

Definition column_affinity (d : table_def) (c : string) : res affinity :=
  match find_column d c with
  | None => Err NoSuchColumn
  | Some x => Ok (affinity_of (c_type x))
  end.

(** SELECT * FROM students WHERE name = ? AND age = ? AND class = ? *)
Definition select_students (db : database) (name age class : cell)
  : res (list student) :=
  match students db with
  | None => Err NoSuchTable
  | Some t =>
      do an <- column_affinity (def t) "name";
      do aa <- column_affinity (def t) "age";
      do ac <- column_affinity (def t) "class";
      Ok (filter (fun r => col_eqb an (s_name r) name
                           && col_eqb aa (s_age r) age
                           && col_eqb ac (s_class r) class) (rows t))
  end.

(** tests t LEFT JOIN results r ON t.id = r.test_id: every test row, paired
    with each matching result, or with no result when none matches. *)
Definition left_join (ts : list test) (rs : list result)
  : list (test * option result) :=
  flat_map (fun t =>
    match filter (fun r => cell_eqb (SInt (t_id t)) (r_test_id r)) rs with
    | [] => [(t, None)]
    | m => map (fun r => (t, Some r)) m
    end) ts.

(** ORDER BY t.created_at DESC; rows with equal keys keep their order. *)
Fixpoint insert_desc (x : test * option result)
  (l : list (test * option result)) : list (test * option result) :=
  match l with
  | [] => [x]
  | y :: l' =>
      if cell_leb (t_created_at (fst y)) (t_created_at (fst x))
      then x :: l
      else y :: insert_desc x l'
  end.

Definition order_by_created_at_desc (l : list (test * option result))
  : list (test * option result) :=
  fold_right insert_desc [] l.

(** SELECT t.*, r.score, r.feedback, r.analysis, r.completed_at
    FROM tests t LEFT JOIN results r ON t.id = r.test_id
    WHERE t.student_id = ? ORDER BY t.created_at DESC *)
Definition select_history (db : database) (student_id : cell)
  : res (list (test * option result)) :=
  match tests db, results db with
  | Some t, Some r =>
      do a <- column_affinity (def t) "student_id";
      Ok (order_by_created_at_desc
            (filter (fun tr => col_eqb a (t_student_id (fst tr)) student_id)
                    (left_join (rows t) (rows r))))
  | _, _ => Err NoSuchTable
  end.

(** *** Rows as JavaScript objects *)

Definition to_js (v : cell) : value :=
  match v with
  | SNull => VNull
  | SInt z => VNum z
  | SText s => VStr s
  end.

Definition student_object (r : student) : value :=
  VObj [("id", VNum (s_id r)); ("name", to_js (s_name r));
        ("age", to_js (s_age r)); ("class", to_js (s_class r))].

Definition history_object (tr : test * option result) : value :=
  let t := fst tr in
  let opt (f : result -> cell) : value :=
    match snd tr with
    | Some r => to_js (f r)
    | None => VNull
    end in
  VObj [("id", VNum (t_id t)); ("student_id", to_js (t_student_id t));
        ("topic", to_js (t_topic t)); ("complexity", to_js (t_complexity t));
        ("concepts", to_js (t_concepts t));
        ("questions", to_js (t_questions t));
        ("created_at", to_js (t_created_at t));
        ("score", opt r_score); ("feedback", opt r_feedback);
        ("analysis", opt r_analysis); ("completed_at", opt r_completed_at)].

End SQL.

Import SQL.

(** ** server.ts *)

Module Server.

(** The script of [db.exec] at lines 12-42. *)
Definition students_def : table_def :=
  {| td_name := "students";
     td_columns := [ rowid_col "id";
                     col "name" "TEXT" true;
                     col "age" "INTEGER" true;
                     col "class" "TEXT" true ];
     td_constraints := [ Unique ["name"; "age"; "class"] ] |}.

Definition tests_def : table_def :=
  {| td_name := "tests";
     td_columns := [ rowid_col "id";
                     col "student_id" "INTEGER" true;
                     col "topic" "TEXT" true;
                     col "complexity" "TEXT" true;
                     col "concepts" "TEXT" true;
                     col "questions" "JSON" true;
                     now_col "created_at" "DATETIME" ];
     td_constraints := [ ForeignKey "student_id" "students" "id" ] |}.

Definition results_def : table_def :=
  {| td_name := "results";
     td_columns := [ rowid_col "id";
                     col "test_id" "INTEGER" true;
                     col "answers" "JSON" true;
                     col "score" "INTEGER" false;
                     col "feedback" "TEXT" false;
                     col "analysis" "JSON" false;
                     now_col "completed_at" "DATETIME" ];
     td_constraints := [ ForeignKey "test_id" "tests" "id" ] |}.

Definition schema : list table_def := [students_def; tests_def; results_def].

(** [new Database(...)] followed by [db.exec(...)]: what the process does
    to the database file when it starts.  The driver opens its connections
    with foreign keys enforced. *)
Definition start (file : database) : res database :=
  exec schema
    {| students := students file; tests := tests file;
       results := results file; foreign_keys := true |}.

Record response : Type := {
  status : Z;
  body : string
}.

(** [res.json(v)] and [res.status(500).json(...)]. *)
Definition json (st : Z) (v : value) : response :=
  {| status := st;
     body := match stringify v with Some t => t | None => "" end |}.

Definition failure (msg : string) : response :=
  json 500 (VObj [("error", VStr msg)]).

(** A parameter handed to a prepared statement: numbers, strings and null
    are bound ([undefined] as NULL); any other value makes the driver throw
    a TypeError, [None] here. *)
Definition bind_param (v : value) : option cell :=
  match v with
  | VUndef | VNull => Some SNull
  | VNum z => Some (SInt z)
  | VStr s => Some (SText s)
  | VBool _ | VArr _ | VObj _ => None
  end.

(** The result of [JSON.stringify] handed to a statement. *)
Definition text_param (t : option string) : cell :=
  match t with
  | Some s => SText s
  | None => SNull
  end.

(** [express.json()]: the body must parse to an object or an array;
    otherwise the request is answered 400 with a page that is not JSON and
    the handler does not run. *)
Definition bad_request : response :=
  {| status := 400; body := "<!DOCTYPE html>" |}.

Definition with_body (text : string) (db : database)
  (handler : value -> database -> response * database)
  : response * database :=
  match parse text with
  | Some (VObj m) => handler (VObj m) db
  | Some (VArr l) => handler (VArr l) db
  | _ => (bad_request, db)
  end.

(** POST /api/login, lines 57-74. *)
Definition post_login (req : value) (db : database) : response * database :=
  let name := get_field "name" req in
  let age := get_field "age" req in
  let className := get_field "className" req in
  match bind_param name, bind_param age, bind_param className with
  | Some n, Some a, Some c =>
      match select_students db n a c with
      | Err _ => (failure "Failed to login", db)
      | Ok (student :: _) => (json 200 (student_object student), db)
      | Ok [] =>
          match insert_student db n a c with
          | Err _ => (failure "Failed to login", db)
          | Ok (lastInsertRowid, db') =>
              (json 200 (VObj [("id", VNum lastInsertRowid); ("name", name);
                               ("age", age); ("class", className)]), db')
          end
      end
  | _, _, _ => (failure "Failed to login", db)
  end.

(** POST /api/tests, lines 76-86. *)
Definition post_tests (now : string) (req : value) (db : database)
  : response * database :=
  let studentId := get_field "studentId" req in
  let topic := get_field "topic" req in
  let complexity := get_field "complexity" req in
  let concepts := get_field "concepts" req in
  let questions := get_field "questions" req in
  match bind_param studentId, bind_param topic, bind_param complexity,
        bind_param concepts with
  | Some s, Some t, Some cx, Some cc =>
      match insert_test db now s t cx cc (text_param (stringify questions)) with
      | Err _ => (failure "Failed to save test", db)
      | Ok (lastInsertRowid, db') =>
          (json 200 (VObj [("id", VNum lastInsertRowid)]), db')
      end
  | _, _, _, _ => (failure "Failed to save test", db)
  end.

(** The body of the [map] over the row objects, the same text in
    server.ts and dataService.ts:
    [{...h, questions: JSON.parse(h.questions),
      analysis: h.analysis ? JSON.parse(h.analysis) : null}];
    [None] when a [JSON.parse] throws. *)
Definition parse_row (h : value) : option value :=
  match parse_js (get_field "questions" h) with
  | None => None
  | Some q =>
      match (if truthy (get_field "analysis" h)
             then parse_js (get_field "analysis" h) else Some VNull) with
      | None => None
      | Some an =>
          match h with
          | VObj m => Some (VObj (obj_set "analysis" an (obj_set "questions" q m)))
          | _ => Some (VObj [("questions", q); ("analysis", an)])
          end
      end
  end.

Fixpoint parse_rows (hs : list value) : option (list value) :=
  match hs with
  | [] => Some []
  | h :: hs' =>
      match parse_row h, parse_rows hs' with
      | Some o, Some os => Some (o :: os)
      | _, _ => None
      end
  end.

(** GET /api/students/:id/history, lines 88-108; [id] is the path segment,
    a string. *)
Definition get_history (id : string) (db : database) : response * database :=
  match select_history db (SText id) with
  | Err _ => (failure "Failed to fetch history", db)
  | Ok history =>
      match parse_rows (map history_object history) with
      | Some parsedHistory => (json 200 (VArr parsedHistory), db)
      | None => (failure "Failed to fetch history", db)
      end
  end.

(** POST /api/results, lines 110-120. *)
Definition post_results (now : string) (req : value) (db : database)
  : response * database :=
  let testId := get_field "testId" req in
  let answers := get_field "answers" req in
  let score := get_field "score" req in
  let feedback := get_field "feedback" req in
  let analysis := get_field "analysis" req in
  match bind_param testId, bind_param score, bind_param feedback with
  | Some t, Some sc, Some fb =>
      match insert_result db now t (text_param (stringify answers)) sc fb
                          (text_param (stringify analysis)) with
      | Err _ => (failure "Failed to save results", db)
      | Ok (lastInsertRowid, db') =>
          (json 200 (VObj [("id", VNum lastInsertRowid)]), db')
      end
  | _, _, _ => (failure "Failed to save results", db)
  end.

End Server.

(** ** dataService.ts *)

Module DataService.

(** A settled promise. *)
Inductive failure : Type :=
| TypeError               (* a method called on [null] *)
| SyntaxError             (* thrown by [JSON.parse] *)
| PluginError             (* raised by the SQLite plugin itself *)
| SqlError (e : SQL.error).

Inductive outcome : Type :=
| Resolved (v : value)
| Rejected (e : failure).

(** The script of [this.db.execute] at lines 24-49. *)
Definition students_def : table_def :=
  {| td_name := "students";
     td_columns := [ rowid_col "id";
                     col "name" "TEXT" true;
                     col "age" "INTEGER" true;
                     col "class" "TEXT" true ];
     td_constraints := [] |}.

Definition tests_def : table_def :=
  {| td_name := "tests";
     td_columns := [ rowid_col "id";
                     col "student_id" "INTEGER" true;
                     col "topic" "TEXT" true;
                     col "complexity" "TEXT" true;
                     col "concepts" "TEXT" true;
                     col "questions" "TEXT" true;
                     now_col "created_at" "DATETIME" ];
     td_constraints := [] |}.

Definition results_def : table_def :=
  {| td_name := "results";
     td_columns := [ rowid_col "id";
                     col "test_id" "INTEGER" true;
                     col "answers" "TEXT" true;
                     col "score" "INTEGER" false;
                     col "feedback" "TEXT" false;
                     col "analysis" "TEXT" false;
                     now_col "completed_at" "DATETIME" ];
     td_constraints := [] |}.

Definition schema : list table_def := [students_def; tests_def; results_def].

(** *** The SQLite plugin

    The plugin is not part of the repository.  Its declarations make every
    field of a response optional, and the source reads them through [&&],
    [||] and [?.]; what the plugin puts in a response is a parameter. *)

Record changes : Type := {
  changes_count : option Z;   (* changes?: number *)
  lastId : option Z           (* lastId?: number *)
}.

Record plugin : Type := {
  (* [values] of the response to [query], from the rows the statement selects *)
  values_of : list value -> option (list value);
  (* [changes] of the response to [run], from the rowid the statement inserted *)
  changes_of : Z -> option changes
}.

(** [insert.changes?.lastId] *)
Definition last_id (c : option changes) : value :=
  match c with
  | None => VUndef
  | Some ch =>
      match lastId ch with
      | Some i => VNum i
      | None => VUndef
      end
  end.

(** A plugin that reports the selected rows and the inserted rowid. *)
Definition reports (p : plugin) : Prop :=
  (forall rows, values_of p rows = Some rows \/
                (rows = [] /\ values_of p rows = None)) /\
  (forall id, last_id (changes_of p id) = VNum id).

Definition reporting_plugin : plugin :=
  {| values_of := fun rows => Some rows;
     changes_of := fun id => Some {| changes_count := Some 1; lastId := Some id |} |}.

(** A plugin that leaves [changes] out of its responses. *)
Definition silent_plugin : plugin :=
  {| values_of := fun rows => Some rows;
     changes_of := fun _ => None |}.

(** What can go wrong inside the [try] of [init]. *)
Inductive fault : Type :=
| NoFault
| CreateConnectionFails
| OpenFails
| ExecuteFails.

(** [this.db]: null, a connection that was created but is not open, or an
    open connection. *)
Inductive connection : Type := Null | Created | Open.

(** The service object with the two stores it can be bound to: the file of
    the device and the database behind the server routes. *)
Record state : Type := {
  isMobile : bool;
  db : connection;
  device : database;
  server : database
}.

Definition set_db (st : state) (c : connection) : state :=
  {| isMobile := isMobile st; db := c; device := device st;
     server := server st |}.

Definition set_device (st : state) (d : database) : state :=
  {| isMobile := isMobile st; db := db st; device := d; server := server st |}.

Definition set_server (st : state) (d : database) : state :=
  {| isMobile := isMobile st; db := db st; device := device st; server := d |}.

(** The statements inside the [try] of [init], lines 20-50. *)
Definition init_try (f : fault) (st : state) : outcome * state :=
  match f with
  | CreateConnectionFails => (Rejected PluginError, st)
  | OpenFails => (Rejected PluginError, set_db st Created)
  | ExecuteFails => (Rejected PluginError, set_db st Open)
  | NoFault =>
      match exec schema (device st) with
      | Ok d => (Resolved VUndef, set_device (set_db st Open) d)
      | Err e => (Rejected (SqlError e), set_db st Open)
      end
  end.

(** [init], lines 16-54: the [catch] logs the error and the method
    returns. *)
Definition init (f : fault) (st : state) : outcome * state :=
  if negb (isMobile st) then (Resolved VUndef, st)
  else
    match init_try f st with
    | (Resolved _, st') => (Resolved VUndef, st')
    | (Rejected _, st') => (Resolved VUndef, st')
    end.

(** [res.json()] on the response of [fetch]. *)
Definition res_json (r : Server.response) : outcome :=
  match parse (Server.body r) with
  | Some v => Resolved v
  | None => Rejected SyntaxError
  end.

(** [fetch(url, { method: 'POST', body: JSON.stringify(o) })] followed by
    [res.json()]; the transport delivers every request and response. *)
Definition post (st : state) (o : value)
  (route : value -> database -> Server.response * database)
  : outcome * state :=
  let text := match stringify o with Some t => t | None => "" end in
  let (r, d) := Server.with_body text (server st) route in
  (res_json r, set_server st d).

(** A statement run on [this.db!]. *)
Definition on_device (st : state) (k : database -> outcome * state)
  : outcome * state :=
  match db st with
  | Null => (Rejected TypeError, st)
  | Created => (Rejected PluginError, st)
  | Open => k (device st)
  end.

(** [login], lines 57-75. *)
Definition login (p : plugin) (st : state)
  (name : string) (age : Z) (className : string) : outcome * state :=
  if negb (isMobile st) then
    post st (VObj [("name", VStr name); ("age", VNum age);
                   ("className", VStr className)]) Server.post_login
  else
    on_device st (fun d =>
      match select_students d (SText name) (SInt age) (SText className) with
      | Err e => (Rejected (SqlError e), st)
      | Ok rows =>
          match values_of p (map student_object rows) with
          | Some (first :: _) => (Resolved first, st)
          | _ =>
              match insert_student d (SText name) (SInt age) (SText className) with
              | Err e => (Rejected (SqlError e), st)
              | Ok (id, d') =>
                  (Resolved (VObj [("id", last_id (changes_of p id));
                                   ("name", VStr name); ("age", VNum age);
                                   ("class", VStr className)]),
                   set_device st d')
              end
          end
      end).

(** [saveTest], lines 77-92; [now] is the clock of the store when the
    statement runs. *)
Definition saveTest (p : plugin) (st : state) (now : string)
  (studentId : Z) (topic complexity concepts : string) (questions : value)
  : outcome * state :=
  if negb (isMobile st) then
    post st (VObj [("studentId", VNum studentId); ("topic", VStr topic);
                   ("complexity", VStr complexity);
                   ("concepts", VStr concepts); ("questions", questions)])
         (Server.post_tests now)
  else
    on_device st (fun d =>
      match insert_test d now (SInt studentId) (SText topic)
              (SText complexity) (SText concepts)
              (Server.text_param (stringify questions)) with
      | Err e => (Rejected (SqlError e), st)
      | Ok (id, d') =>
          (Resolved (VObj [("id", last_id (changes_of p id))]),
           set_device st d')
      end).

(** [getHistory], lines 94-113. *)
Definition getHistory (p : plugin) (st : state) (studentId : Z)
  : outcome * state :=
  if negb (isMobile st) then
    let (r, d) := Server.get_history (print_int studentId) (server st) in
    (res_json r, set_server st d)
  else
    on_device st (fun d =>
      match select_history d (SInt studentId) with
      | Err e => (Rejected (SqlError e), st)
      | Ok rows =>
          let values := match values_of p (map history_object rows) with
                        | Some vs => vs
                        | None => []
                        end in
          match Server.parse_rows values with
          | Some hs => (Resolved (VArr hs), st)
          | None => (Rejected SyntaxError, st)
          end
      end).

(** [saveResult], lines 115-130. *)
Definition saveResult (p : plugin) (st : state) (now : string)
  (testId : Z) (answers : value) (score : Z) (feedback : string)
  (analysis : value) : outcome * state :=
  if negb (isMobile st) then
    post st (VObj [("testId", VNum testId); ("answers", answers);
                   ("score", VNum score); ("feedback", VStr feedback);
                   ("analysis", analysis)])
         (Server.post_results now)
  else
    on_device st (fun d =>
      match insert_result d now (SInt testId)
              (Server.text_param (stringify answers)) (SInt score)
              (SText feedback) (Server.text_param (stringify analysis)) with
      | Err e => (Rejected (SqlError e), st)
      | Ok (id, d') =>
          (Resolved (VObj [("id", last_id (changes_of p id))]),
           set_device st d')
      end).

(** The store the service is bound to. *)
Definition store_of (st : state) : database :=
  if isMobile st then device st else server st.

End DataService.

(** ** geminiService.ts *)

Module Gemini.

Import DataService.





End Gemini.

(** ** types.ts *)

Record Question : Type := {
  id : Z;
  question : string;
  options : option (list string);
  correctAnswer : string;
  explanation : string
}.

(** A [Question] as a JavaScript object; the property [options] is present
    exactly when the field is. *)
Definition question_value (q : Question) : value :=
  VObj ([("id", VNum (id q)); ("question", VStr (question q))]
        ++ match options q with
           | Some os => [("options", VArr (map VStr os))]
           | None => []
           end
        ++ [("correctAnswer", VStr (correctAnswer q));
            ("explanation", VStr (explanation q))]).

Definition questions_value (qs : list Question) : value :=
  VArr (map question_value qs).





(** ** The two schemas *)

Module Schema.

Definition column_set (d : table_def) : list string :=
  map c_name (td_columns d).

(** Two scripts that define the same tables, with the same column sets and
    the same constraints. *)
Definition parity (a b : list table_def) : Prop :=
  Forall2 (fun x y => td_name x = td_name y /\
                      column_set x = column_set y /\
                      td_constraints x = td_constraints y) a b.

(** The dialect of the device: a column declared JSON on the server is
    declared TEXT. *)
Definition dialect_type (ty : string) : string :=
  if String.eqb ty "JSON" then "TEXT" else ty.

Definition in_dialect (c : column) : column :=
  {| c_name := c_name c; c_type := dialect_type (c_type c);
     c_notnull := c_notnull c; c_rowid := c_rowid c; c_now := c_now c |}.

(** [n] runs of a script, one after the other. *)
Fixpoint provision (script : list table_def) (n : nat) (db : database)
  : res database :=
  match n with
  | O => Ok db
  | S n' => do d <- exec script db; provision script n' d
  end.

(** Every table of [db] is in [d] as it was: definition, rows and
    counter. *)
Definition keeps (db d : database) : Prop :=
  (forall t, students db = Some t -> students d = Some t) /\
  (forall t, tests db = Some t -> tests d = Some t) /\
  (forall t, results db = Some t -> results d = Some t).

(** The three tables exist. *)
Definition provisioned (d : database) : Prop :=
  students d <> None /\ tests d <> None /\ results d <> None.

End Schema.

(** ** Runs of the service *)

Module Run.

Import DataService.

(** What the controller passes for a parameter typed [any]: the result of
    a [JSON.parse], or [undefined] for a property the parsed object lacks. *)
Definition payload (v : value) : bool :=
  match v with
  | VUndef => true
  | _ => jsonable v
  end.

(** The server process started on a new database file. *)
Definition server_start : database :=
  match Server.start (empty_database false) with
  | Ok d => d
  | Err _ => empty_database true
  end.

(** The service object as constructed, lines 9-14. *)
Definition constructed (mobile fk : bool) : state :=
  {| isMobile := mobile; db := Null;
     device := empty_database fk;
     server := if mobile then empty_database true else server_start |}.

(** The states of a run: the service is constructed, [init] completes, and
    the four operations are called one after the other. *)
Inductive reachable (p : plugin) : state -> Prop :=
| reach_init (mobile fk : bool) :
    reachable p (snd (init NoFault (constructed mobile fk)))
| reach_login st name age className :
    reachable p st ->
    reachable p (snd (login p st name age className))
| reach_saveTest st now studentId topic complexity concepts questions :
    reachable p st ->
    payload questions = true ->
    reachable p (snd (saveTest p st now studentId topic complexity concepts
                               questions))
| reach_getHistory st studentId :
    reachable p st ->
    reachable p (snd (getHistory p st studentId))
| reach_saveResult st now testId answers score feedback analysis :
    reachable p st ->
    payload answers = true ->
    payload analysis = true ->
    reachable p (snd (saveResult p st now testId answers score feedback
                                 analysis)).

Definition student_rows (d : database) : list student :=
  match students d with
  | Some t => rows t
  | None => []
  end.

Definition test_rows (d : database) : list test :=
  match tests d with
  | Some t => rows t
  | None => []
  end.

Definition result_rows (d : database) : list result :=
  match results d with
  | Some t => rows t
  | None => []
  end.




(** Every result row names a test row. *)
Definition results_reference_tests (d : database) : Prop :=
  forall r, In r (result_rows d) ->
            exists t, In t (test_rows d) /\ r_test_id r = SInt (t_id t).

End Run.


(** ** Calls of the service, one after the other *)

Module Session.

Import DataService Run.

(** A call of one of the four operations with its arguments; [now] is the
    clock of the store when the statement of a write runs. *)
Inductive call : Type :=
| Login (name : string) (age : Z) (className : string)
| SaveTest (now : string) (studentId : Z) (topic complexity concepts : string)
    (questions : value)
| GetHistory (studentId : Z)
| SaveResult (now : string) (testId : Z) (answers : value) (score : Z)
    (feedback : string) (analysis : value).

Definition perform (p : plugin) (st : state) (c : call) : outcome * state :=
  match c with
  | Login name age className => login p st name age className
  | SaveTest now studentId topic complexity concepts questions =>
      saveTest p st now studentId topic complexity concepts questions
  | GetHistory studentId => getHistory p st studentId
  | SaveResult now testId answers score feedback analysis =>
      saveResult p st now testId answers score feedback analysis
  end.

(** The outcomes of a sequence of calls, each awaited before the next. *)
Fixpoint run (p : plugin) (st : state) (cs : list call) : list outcome :=
  match cs with
  | [] => []
  | c :: cs' => let (o, st') := perform p st c in o :: run p st' cs'
  end.

(** The service constructed on a new store, after [init]. *)
Definition started (mobile fk : bool) : state :=
  snd (init NoFault (constructed mobile fk)).

(** The arguments typed [any] are what the controller passes. *)
Definition well_typed (c : call) : bool :=
  match c with
  | SaveTest _ _ _ _ _ questions => payload questions
  | SaveResult _ _ answers _ _ analysis => payload answers && payload analysis
  | _ => true
  end.

(** An outcome that reports a failure: a rejection, or the object with the
    property [error] that the server answers with status 400 or 500. *)
Definition failed (o : outcome) : bool :=
  match o with
  | Rejected _ => true
  | Resolved v =>
      match get_field "error" v with
      | VUndef => false
      | _ => true
      end
  end.

(** The calls on which the backends are compared: the arguments typed
    [any] are what the controller passes, and no analysis is the number 0. *)
Definition comparable (c : call) : bool :=
  well_typed c &&
  match c with
  | SaveResult _ _ _ _ _ (VNum 0) => false
  | _ => true
  end.

End Session.

(** ** App.tsx: the profile statistics *)

Module App.

(** The [analysis] of a [Test], types.ts lines 26-30. *)
Record Analysis : Type := {
  strengths : list string;
  weaknesses : list string;
  suggestions : list string
}.

(** The interface [Test] of types.ts, lines 16-32.  The history holds
    [null] in the four columns of the result when a test has none; [None]
    stands for it. *)
Record Test : Type := {
  id : Z;
  student_id : Z;
  topic : string;
  complexity : string;
  concepts : string;
  questions : list Question;
  created_at : string;
  score : option Z;
  feedback : option string;
  analysis : option Analysis;
  completed_at : option string
}.

(** What [getProfileStats] returns when it does not return [null]. *)
Record Stats : Type := {
  avgScore : Z;
  totalTests : Z;
  completedTests : Z;
  top_strengths : list string;
  top_weaknesses : list string
}.

(** [set.add(s)] on a [Set<string>], kept in insertion order. *)
Definition add (s : string) (set : list string) : list string :=
  if existsb (String.eqb s) set then set else (set ++ [s])%list.

(** [h.score !== null] *)
Definition is_completed (h : Test) : bool :=
  match score h with
  | Some _ => true
  | None => false
  end.

(** [curr.score || 0] *)
Definition score_or_0 (h : Test) : Z :=
  match score h with
  | Some z => z
  | None => 0
  end.

(** [h.analysis?.strengths.forEach(s => set.add(s))] *)
Definition add_all (field : Analysis -> list string) (set : list string)
  (h : Test) : list string :=
  match analysis h with
  | Some a => fold_left (fun acc s => add s acc) (field a) set
  | None => set
  end.

Section ProfileStats.

(** [Math.round(sum / count)]: the quotient and its rounding are
    floating-point operations of the runtime. *)
Variable round_quotient : Z -> Z -> Z.

(** [getProfileStats], App.tsx lines 258-281, on the [history] of the
    component. *)
Definition getProfileStats (history : list Test) : option Stats :=
  if (List.length history =? 0)%nat then None
  else
    let completed := filter is_completed history in
    if (List.length completed =? 0)%nat then None
    else
      let sum := fold_left (fun acc curr => acc + score_or_0 curr) completed 0 in
      let strengths := fold_left (add_all strengths) completed [] in
      let weaknesses := fold_left (add_all weaknesses) completed [] in
      Some {| avgScore := round_quotient sum (Z.of_nat (List.length completed));
              totalTests := Z.of_nat (List.length history);
              completedTests := Z.of_nat (List.length completed);
              top_strengths := firstn 3 strengths;
              top_weaknesses := firstn 3 weaknesses |}.

End ProfileStats.

End App.
(** * Proofs *)

(** A case for each of the 256 code units. *)
Ltac ascii_cases c := destruct c as [[] [] [] [] [] [] [] []].

(** ** Strings *)

Lemma append_assoc (a b c : string) : (a ++ b) ++ c = a ++ b ++ c.
Proof. induction a as [|x a IH]; simpl; [reflexivity | now rewrite IH]. Qed.

Lemma append_length (a b : string) :
  String.length (a ++ b) = (String.length a + String.length b)%nat.
Proof. induction a as [|x a IH]; simpl; [reflexivity | now rewrite IH]. Qed.

Lemma append_nil_r (a : string) : a ++ "" = a.
Proof. induction a as [|x a IH]; simpl; [reflexivity | now rewrite IH]. Qed.

Lemma strip_prefix_app (p s : string) : strip_prefix p (p ++ s) = Some s.
Proof.
  induction p as [|a p IH]; simpl; [reflexivity|].
  now rewrite Ascii.eqb_refl.
Qed.

(** ** JSON: parsing a serialized value gives the value back *)

Module JSONFacts.

(** *** String literals *)

Lemma parse_chars_escape_char (c : ascii) (r : string) :
  parse_chars (escape_char c ++ r) =
  match parse_chars r with
  | Some (t, rest) => Some (String c t, rest)
  | None => None
  end.
Proof.
  ascii_cases c; reflexivity.
Qed.

Lemma parse_chars_escape (s rest : string) :
  parse_chars (escape s ++ String dquote rest) = Some (s, rest).
Proof.
  induction s as [|c s IH]; [reflexivity|].
  cbn [escape]. rewrite append_assoc, parse_chars_escape_char, IH. reflexivity.
Qed.

Lemma escape_char_length (c : ascii) : (1 <= String.length (escape_char c))%nat.
Proof. ascii_cases c; cbn; lia. Qed.

(** *** Numbers *)

Lemma head_of_uint (d : uint) :
  d = Nil \/ exists c t, NilEmpty.string_of_uint d = String c t /\ is_digit c = true.
Proof. destruct d; [now left | right; eexists; eexists; split; reflexivity ..]. Qed.

Lemma span_digits_uint (d : uint) (rest : string) :
  ends_number rest = true ->
  span_digits (NilEmpty.string_of_uint d ++ rest)
  = (NilEmpty.string_of_uint d, rest).
Proof.
  intros Hrest.
  induction d; cbn [NilEmpty.string_of_uint append span_digits];
    try (change (is_digit _) with true; cbv iota; rewrite IHd; reflexivity).
  destruct rest as [|c r]; [reflexivity|].
  cbn in Hrest. apply andb_prop in Hrest as [Hd _].
  cbn [span_digits]. now destruct (is_digit c).
Qed.

Lemma to_uint_normal (n : N) : unorm (N.to_uint n) = N.to_uint n.
Proof.
  rewrite <- (DecimalN.Unsigned.of_to n) at 2.
  now rewrite DecimalN.Unsigned.to_of.
Qed.

Lemma to_uint_not_nil (n : N) : N.to_uint n <> Nil.
Proof.
  rewrite <- to_uint_normal. unfold unorm.
  destruct (nzhead (N.to_uint n)); discriminate.
Qed.

Lemma to_uint_no_leading_zero (n : N) (u : uint) :
  N.to_uint n = D0 u -> u = Nil.
Proof.
  intros E. pose proof (to_uint_normal n) as Hn. rewrite E in Hn.
  rewrite unorm_D0 in Hn.
  destruct u; [reflexivity | exfalso ..];
    (match type of Hn with unorm ?x = _ =>
       assert (Hx : x <> Nil) by discriminate;
       pose proof (nb_digits_unorm x Hx) as Hlen;
       rewrite Hn in Hlen; cbn [nb_digits] in Hlen; lia
     end).
Qed.

Lemma leading_zero_print_nat (n : N) : leading_zero (print_nat n) = false.
Proof.
  unfold print_nat.
  destruct (N.to_uint n) as [|u|u|u|u|u|u|u|u|u|u] eqn:E; try reflexivity;
    try (destruct u; reflexivity).
  apply to_uint_no_leading_zero in E. subst u. reflexivity.
Qed.

Lemma print_nat_head (n : N) :
  exists c t, print_nat n = String c t /\ is_digit c = true.
Proof.
  destruct (head_of_uint (N.to_uint n)) as [E | H]; [|exact H].
  now apply to_uint_not_nil in E.
Qed.

Lemma parse_nat_print (n : N) (rest : string) :
  ends_number rest = true ->
  parse_nat (print_nat n ++ rest) = Some (n, rest).
Proof.
  intros Hrest. unfold parse_nat.
  unfold print_nat at 1. rewrite (span_digits_uint _ _ Hrest).
  fold (print_nat n).
  assert (Hfe : is_frac_or_exp rest = false).
  { destruct rest as [|x r]; [reflexivity|].
    cbn in Hrest. apply andb_prop in Hrest as [_ H].
    now apply negb_true_iff in H. }
  pose proof (leading_zero_print_nat n) as Hl.
  assert (Hu : NilEmpty.uint_of_string (print_nat n) = Some (N.to_uint n))
    by apply NilEmpty.usu.
  destruct (print_nat_head n) as (c & t & E & _).
  rewrite E in *. rewrite Hl, Hfe, Hu. cbn [orb].
  now rewrite DecimalN.Unsigned.of_to.
Qed.

Lemma print_int_head (z : Z) :
  exists c t, print_int z = String c t /\
              (is_digit c = true \/ c = "-"%char).
Proof.
  unfold print_int. destruct (z <? 0).
  - eexists; eexists; split; [reflexivity | now right].
  - destruct (print_nat_head (Z.to_N z)) as (c & t & E & Hc).
    exists c, t. split; [exact E | now left].
Qed.

Lemma parse_int_print (z : Z) (rest : string) :
  ends_number rest = true ->
  parse_int (print_int z ++ rest) = Some (z, rest).
Proof.
  intros Hrest. unfold print_int.
  destruct (z <? 0) eqn:Hz.
  - cbn [append parse_int]. change (N_of_ascii "-" =? 45)%N with true. cbv iota.
    rewrite (parse_nat_print _ _ Hrest). f_equal. f_equal.
    apply Z.ltb_lt in Hz. rewrite N2Z.inj_abs_N. lia.
  - destruct (print_nat_head (Z.to_N z)) as (c & t & E & Hc).
    pose proof (parse_nat_print (Z.to_N z) rest Hrest) as Hp.
    rewrite E in *. cbn [append parse_int].
    assert (Hm : (N_of_ascii c =? 45)%N = false).
    { ascii_cases c; try reflexivity; discriminate Hc. }
    rewrite Hm. cbn [append] in Hp. rewrite Hp. f_equal. f_equal.
    apply Z.ltb_ge in Hz. now rewrite Z2N.id.
Qed.


(** *** Values *)

Definition text_of (v : value) : string :=
  match serialize v with
  | Some t => t
  | None => "null"
  end.

Definition member_text (kv : string * value) : string :=
  quote (fst kv) ++ ":" ++ text_of (snd kv).

Lemma serialize_arr (l : list value) :
  serialize (VArr l) = Some ("[" ++ sep_by "," (map text_of l) ++ "]").
Proof. reflexivity. Qed.

Lemma jsonable_defined (v : value) :
  jsonable v = true -> serialize v = Some (text_of v).
Proof. unfold text_of. destruct v as [| |[]| | | |]; try reflexivity; discriminate. Qed.

Lemma serialize_obj (m : list (string * value)) :
  forallb (fun kv => jsonable (snd kv)) m = true ->
  serialize (VObj m) = Some ("{" ++ sep_by "," (map member_text m) ++ "}").
Proof.
  intros H. cbn [serialize].
  assert (E : flat_map (fun kv => match serialize (snd kv) with
                                  | Some t => [quote (fst kv) ++ ":" ++ t]
                                  | None => []
                                  end) m = map member_text m).
  { induction m as [|kv m IH]; [reflexivity|].
    cbn [forallb] in H. apply andb_prop in H as [Hkv Hm].
    cbn [flat_map map]. rewrite (IH Hm).
    unfold member_text at 2. rewrite (jsonable_defined _ Hkv). reflexivity. }
  now rewrite E.
Qed.

Lemma starts_value_facts (c : ascii) :
  starts_value c = true ->
  is_ws c = false /\ (N_of_ascii c =? 93)%N = false /\
  (N_of_ascii c =? 125)%N = false.
Proof.
  ascii_cases c; try discriminate; now repeat split.
Qed.

Lemma serialize_head (v : value) (t : string) :
  serialize v = Some t ->
  exists c t', t = String c t' /\ starts_value c = true.
Proof.
  destruct v as [| |[]|z|s|l|m]; cbn [serialize]; intros E;
    try discriminate; injection E as <-;
    try (eexists; eexists; split; reflexivity).
  destruct (print_int_head z) as (c & t & E & [Hd | ->]).
  - exists c, t. split; [exact E|]. unfold starts_value. now rewrite Hd.
  - exists "-"%char, t. split; [exact E | reflexivity].
Qed.

Lemma text_of_head (v : value) :
  exists c t', text_of v = String c t' /\ starts_value c = true.
Proof.
  unfold text_of. destruct (serialize v) as [t|] eqn:E.
  - exact (serialize_head v t E).
  - eexists; eexists; split; reflexivity.
Qed.

Lemma parse_value_S (f : nat) (s : string) :
  parse_value (S f) s =
  match skip_ws s with
  | EmptyString => None
  | String c r =>
      let n := N_of_ascii c in
      if (n =? 91)%N then
        match skip_ws r with
        | EmptyString => None
        | String c' r' =>
            if (N_of_ascii c' =? 93)%N then Some (VArr [], r')
            else match parse_elems f r with
                 | Some (l, r'') => Some (VArr l, r'')
                 | None => None
                 end
        end
      else if (n =? 123)%N then
        match skip_ws r with
        | EmptyString => None
        | String c' r' =>
            if (N_of_ascii c' =? 125)%N then Some (VObj [], r')
            else match parse_members f r with
                 | Some (m, r'') => Some (VObj (build_obj m), r'')
                 | None => None
                 end
        end
      else if (n =? 34)%N then
        match parse_chars r with
        | Some (t, r') => Some (VStr t, r')
        | None => None
        end
      else parse_literal (String c r)
  end.
Proof. reflexivity. Qed.

Lemma parse_elems_S (f : nat) (s : string) :
  parse_elems (S f) s =
  match parse_value f s with
  | None => None
  | Some (v, r) =>
      match skip_ws r with
      | EmptyString => None
      | String c r' =>
          let n := N_of_ascii c in
          if (n =? 44)%N then
            match parse_elems f r' with
            | Some (l, r'') => Some (v :: l, r'')
            | None => None
            end
          else if (n =? 93)%N then Some ([v], r')
          else None
      end
  end.
Proof. reflexivity. Qed.

Lemma parse_members_S (f : nat) (s : string) :
  parse_members (S f) s =
  match skip_ws s with
  | EmptyString => None
  | String q r0 =>
      if negb (N_of_ascii q =? 34)%N then None
      else
      match parse_chars r0 with
      | None => None
      | Some (k, r1) =>
          match skip_ws r1 with
          | EmptyString => None
          | String c r2 =>
              if negb (N_of_ascii c =? 58)%N then None
              else
              match parse_value f r2 with
              | None => None
              | Some (v, r3) =>
                  match skip_ws r3 with
                  | EmptyString => None
                  | String d r4 =>
                      let n := N_of_ascii d in
                      if (n =? 44)%N then
                        match parse_members f r4 with
                        | Some (m, r5) => Some ((k, v) :: m, r5)
                        | None => None
                        end
                      else if (n =? 125)%N then Some ([(k, v)], r4)
                      else None
                  end
              end
          end
      end
  end.
Proof. reflexivity. Qed.

(** The statement proved by induction on the value. *)
Definition reads_back (v : value) : Prop :=
  jsonable v = true ->
  forall (n : nat) (rest : string),
    (String.length (text_of v) <= n)%nat ->
    ends_number rest = true ->
    parse_value n (text_of v ++ rest) = Some (v, rest).

Lemma parse_literal_number (z : Z) (rest : string) :
  ends_number rest = true ->
  parse_literal (print_int z ++ rest) = Some (VNum z, rest).
Proof.
  intros Hrest. unfold parse_literal.
  rewrite (parse_int_print z rest Hrest).
  destruct (print_int_head z) as (c & t & E & Hc). rewrite E.
  cbn [append strip_prefix].
  assert (H : Ascii.eqb "n" c = false /\ Ascii.eqb "t" c = false /\
              Ascii.eqb "f" c = false).
  { destruct Hc as [Hc | ->]; [|now repeat split].
    ascii_cases c; try discriminate Hc;
      now repeat split. }
  destruct H as (-> & -> & ->). reflexivity.
Qed.

Lemma reads_back_number (z : Z) : reads_back (VNum z).
Proof.
  intros _ n rest Hn Hrest.
  change (text_of (VNum z)) with (print_int z) in *.
  destruct (print_int_head z) as (c & t & E & Hc).
  destruct n as [|f]; [rewrite E in Hn; cbn in Hn; lia|].
  rewrite parse_value_S.
  pose proof (parse_literal_number z rest Hrest) as Hp.
  rewrite E in *. cbn [append] in *. cbn [skip_ws].
  assert (H : is_ws c = false /\ (N_of_ascii c =? 91)%N = false /\
              (N_of_ascii c =? 123)%N = false /\
              (N_of_ascii c =? 34)%N = false).
  { destruct Hc as [Hc | ->]; [|now repeat split].
    ascii_cases c; try discriminate Hc;
      now repeat split. }
  destruct H as (-> & H1 & H2 & H3). cbv zeta. rewrite H1, H2, H3.
  exact Hp.
Qed.

Lemma reads_back_string (s : string) : reads_back (VStr s).
Proof.
  intros _ n rest Hn _.
  change (text_of (VStr s)) with (quote s) in *. unfold quote in *.
  destruct n as [|f]; [cbn in Hn; lia|].
  rewrite parse_value_S. cbn [append skip_ws].
  change (is_ws dquote) with false. cbv iota zeta.
  change (N_of_ascii dquote =? 91)%N with false.
  change (N_of_ascii dquote =? 123)%N with false.
  change (N_of_ascii dquote =? 34)%N with true. cbv iota.
  rewrite append_assoc. cbn [append].
  now rewrite parse_chars_escape.
Qed.

Lemma skip_ws_value (v : value) (r : string) :
  skip_ws (text_of v ++ r) = text_of v ++ r.
Proof.
  destruct (text_of_head v) as (c & t & E & Hc). rewrite E.
  apply starts_value_facts in Hc as (Hw & _). cbn [append skip_ws].
  now rewrite Hw.
Qed.

Lemma text_of_length (v : value) : (1 <= String.length (text_of v))%nat.
Proof.
  destruct (text_of_head v) as (c & t & E & _). rewrite E. cbn. lia.
Qed.

Lemma parse_elems_texts (l : list value) :
  Forall reads_back l ->
  forallb jsonable l = true ->
  l <> [] ->
  forall (f : nat) (rest : string),
    (String.length (sep_by "," (map text_of l)) < f)%nat ->
    parse_elems f (sep_by "," (map text_of l) ++ String "]" rest)
    = Some (l, rest).
Proof.
  induction 1 as [|x l Hx Hl IH]; intros Hj Hne f rest Hf; [congruence|].
  cbn [forallb] in Hj. apply andb_prop in Hj as [Hjx Hjl].
  destruct f as [|f]; [lia|]. rewrite parse_elems_S.
  destruct l as [|y l'].
  - cbn [map sep_by] in *.
    rewrite (Hx Hjx f (String "]" rest)); [|lia|reflexivity].
    reflexivity.
  - change (sep_by "," (map text_of (x :: y :: l')))
      with (text_of x ++ "," ++ sep_by "," (map text_of (y :: l'))) in *.
    rewrite append_length in Hf. cbn [append String.length] in Hf.
    rewrite append_assoc. cbn [append].
    rewrite (Hx Hjx f); [|lia|reflexivity].
    cbn [skip_ws]. change (is_ws ",") with false. cbv iota zeta.
    change (N_of_ascii "," =? 44)%N with true. cbv iota.
    pose proof (text_of_length x).
    rewrite (IH Hjl ltac:(discriminate) f rest); [reflexivity|lia].
Qed.

Lemma sep_by_head (ts : list string) (r : string) :
  ts <> [] ->
  (forall t, In t ts -> exists c t', t = String c t' /\ starts_value c = true) ->
  exists c t', sep_by "," ts ++ r = String c t' /\ starts_value c = true.
Proof.
  intros Hne H. destruct ts as [|t ts]; [congruence|].
  destruct (H t (or_introl eq_refl)) as (c & t' & -> & Hc).
  exists c. destruct ts; cbn [sep_by append]; eexists; split;
    try reflexivity; exact Hc.
Qed.

Lemma reads_back_array (l : list value) :
  Forall reads_back l -> reads_back (VArr l).
Proof.
  intros Hl Hj n rest Hn _.
  cbn [jsonable] in Hj.
  change (text_of (VArr l)) with ("[" ++ sep_by "," (map text_of l) ++ "]") in *.
  cbn [append String.length] in Hn.
  destruct n as [|f]; [lia|].
  rewrite parse_value_S. rewrite append_length in Hn. cbn [String.length] in Hn.
  cbn [append skip_ws]. change (is_ws "[") with false. cbv iota zeta.
  change (N_of_ascii "[" =? 91)%N with true. cbv iota.
  rewrite append_assoc. cbn [append].
  destruct l as [|x l'].
  - reflexivity.
  - pose proof (parse_elems_texts (x :: l') Hl Hj ltac:(discriminate) f rest
                  ltac:(lia)) as Hp.
    rewrite Hp.
    destruct (sep_by_head (map text_of (x :: l')) (String "]" rest))
      as (c & t' & E & Hc); [discriminate | |].
    { intros t Ht. apply in_map_iff in Ht as (v & <- & _). apply text_of_head. }
    rewrite E. apply starts_value_facts in Hc as (Hw & H93 & _).
    cbn [skip_ws]. rewrite Hw, H93. reflexivity.
Qed.

Lemma member_text_app (k : string) (v : value) (r : string) :
  member_text (k, v) ++ r
  = String dquote (escape k ++ String dquote (String ":" (text_of v ++ r))).
Proof.
  unfold member_text, quote. cbn [fst snd append].
  now rewrite !append_assoc.
Qed.

Lemma member_text_length (k : string) (v : value) :
  (String.length (text_of v) + 3 <= String.length (member_text (k, v)))%nat.
Proof.
  unfold member_text, quote. cbn [fst snd append String.length].
  rewrite !append_length. cbn [append String.length]. lia.
Qed.

Lemma parse_members_texts (m : list (string * value)) :
  Forall (fun kv => reads_back (snd kv)) m ->
  forallb (fun kv => jsonable (snd kv)) m = true ->
  m <> [] ->
  forall (f : nat) (rest : string),
    (String.length (sep_by "," (map member_text m)) < f)%nat ->
    parse_members f (sep_by "," (map member_text m) ++ String "}" rest)
    = Some (m, rest).
Proof.
  induction 1 as [|[k x] m Hx Hm IH]; intros Hj Hne f rest Hf; [congruence|].
  cbn [forallb snd] in Hj, Hx. apply andb_prop in Hj as [Hjx Hjm].
  destruct f as [|f]; [lia|]. rewrite parse_members_S.
  pose proof (member_text_length k x) as Hlen.
  destruct m as [|y m'].
  - cbn [map sep_by] in *. rewrite member_text_app.
    cbn [skip_ws]. change (is_ws dquote) with false. cbv iota.
    change (negb (N_of_ascii dquote =? 34)%N) with false. cbv iota.
    rewrite parse_chars_escape. cbn [skip_ws].
    change (is_ws ":") with false. cbv iota.
    change (negb (N_of_ascii ":" =? 58)%N) with false. cbv iota.
    rewrite (Hx Hjx f (String "}" rest)); [|lia|reflexivity].
    reflexivity.
  - change (sep_by "," (map member_text ((k, x) :: y :: m')))
      with (member_text (k, x) ++ "," ++ sep_by "," (map member_text (y :: m')))
      in *.
    rewrite append_length in Hf. cbn [append String.length] in Hf.
    rewrite append_assoc. rewrite member_text_app.
    cbn [skip_ws]. change (is_ws dquote) with false. cbv iota.
    change (negb (N_of_ascii dquote =? 34)%N) with false. cbv iota.
    rewrite parse_chars_escape. cbn [skip_ws].
    change (is_ws ":") with false. cbv iota.
    change (negb (N_of_ascii ":" =? 58)%N) with false. cbv iota.
    cbn [append].
    rewrite (Hx Hjx f); [|lia|reflexivity].
    cbn [skip_ws]. change (is_ws ",") with false. cbv iota zeta.
    change (N_of_ascii "," =? 44)%N with true. cbv iota.
    rewrite (IH Hjm ltac:(discriminate) f rest); [reflexivity|lia].
Qed.

Lemma obj_set_fresh (k : string) (v : value) (m : list (string * value)) :
  existsb (String.eqb k) (map fst m) = false ->
  obj_set k v m = (m ++ [(k, v)])%list.
Proof.
  induction m as [|[k' v'] m IH]; [reflexivity|].
  cbn [map fst existsb obj_set]. intros H.
  apply orb_false_iff in H as [Hk Hm].
  rewrite Hk, (IH Hm). reflexivity.
Qed.

Lemma existsb_app_keys (k : string) (a b : list string) :
  existsb (String.eqb k) (a ++ b)%list
  = existsb (String.eqb k) a || existsb (String.eqb k) b.
Proof. apply existsb_app. Qed.

Lemma distinct_app_l (a b : list string) :
  distinct (a ++ b)%list = true -> distinct a = true.
Proof.
  induction a as [|x a IH]; [reflexivity|].
  cbn [app distinct]. intros H. apply andb_prop in H as [Hx Ha].
  rewrite existsb_app, negb_orb in Hx. apply andb_prop in Hx as [Hx _].
  now rewrite Hx, (IH Ha).
Qed.

Lemma distinct_snoc (a : list string) (k : string) :
  distinct (a ++ [k])%list = true -> existsb (String.eqb k) a = false.
Proof.
  induction a as [|x a IH]; [reflexivity|].
  cbn [app distinct existsb]. intros H. apply andb_prop in H as [Hx Ha].
  rewrite existsb_app, negb_orb in Hx. apply andb_prop in Hx as [_ Hx].
  cbn [existsb] in Hx. rewrite orb_false_r in Hx.
  apply negb_true_iff in Hx. rewrite String.eqb_sym, Hx, (IH Ha). reflexivity.
Qed.

Lemma fold_obj_set (kvs acc : list (string * value)) :
  distinct (map fst (acc ++ kvs)%list) = true ->
  fold_left (fun m kv => obj_set (fst kv) (snd kv) m) kvs acc
  = (acc ++ kvs)%list.
Proof.
  revert acc. induction kvs as [|[k v] kvs IH]; intros acc H.
  - now rewrite List.app_nil_r.
  - cbn [fold_left fst snd].
    assert (E : (acc ++ (k, v) :: kvs = (acc ++ [(k, v)]) ++ kvs)%list)
      by now rewrite <- List.app_assoc.
    rewrite E in H |- *.
    rewrite obj_set_fresh.
    + now apply IH.
    + rewrite map_app in H. apply distinct_app_l in H.
      rewrite map_app in H. now apply distinct_snoc in H.
Qed.

Lemma build_obj_distinct (m : list (string * value)) :
  distinct (map fst m) = true -> build_obj m = m.
Proof. intros H. unfold build_obj. now rewrite fold_obj_set. Qed.

Lemma reads_back_object (m : list (string * value)) :
  Forall (fun kv => reads_back (snd kv)) m -> reads_back (VObj m).
Proof.
  intros Hm Hj n rest Hn _.
  cbn [jsonable] in Hj. apply andb_prop in Hj as [Hd Hj].
  unfold text_of in *. rewrite (serialize_obj m Hj) in *.
  cbn [append String.length] in Hn.
  destruct n as [|f]; [lia|].
  rewrite parse_value_S. rewrite append_length in Hn. cbn [String.length] in Hn.
  cbn [append skip_ws]. change (is_ws "{") with false. cbv iota zeta.
  change (N_of_ascii "{" =? 91)%N with false.
  change (N_of_ascii "{" =? 123)%N with true. cbv iota.
  rewrite append_assoc. cbn [append].
  destruct m as [|kv m'].
  - reflexivity.
  - pose proof (parse_members_texts (kv :: m') Hm Hj ltac:(discriminate) f rest
                  ltac:(lia)) as Hp.
    rewrite Hp, (build_obj_distinct _ Hd).
    destruct (sep_by_head (map member_text (kv :: m')) (String "}" rest))
      as (c & t' & E & Hc); [discriminate | |].
    { intros t Ht. apply in_map_iff in Ht as ([k x] & <- & _).
      eexists; eexists; split; reflexivity. }
    rewrite E. apply starts_value_facts in Hc as (Hw & _ & H125).
    cbn [skip_ws]. rewrite Hw, H125. reflexivity.
Qed.

Lemma reads_back_all (v : value) : reads_back v.
Proof.
  induction v as [| |b|z|s|l IH|m IH] using JSON.value_ind.
  - intros H; discriminate H.
  - intros _ [|f] rest Hn _; [cbn in Hn; lia | reflexivity].
  - intros _ [|f] rest Hn _; [destruct b; cbn in Hn; lia | now destruct b].
  - apply reads_back_number.
  - apply reads_back_string.
  - now apply reads_back_array.
  - now apply reads_back_object.
Qed.

(** [JSON.parse(JSON.stringify(v))] is [v] for every value that JSON
    represents. *)
Theorem parse_stringify (v : value) :
  jsonable v = true ->
  exists t, stringify v = Some t /\ parse t = Some v.
Proof.
  intros Hj. exists (text_of v). split; [now apply jsonable_defined|].
  unfold parse.
  pose proof (reads_back_all v Hj (S (String.length (text_of v))) ""
                ltac:(lia) eq_refl) as H.
  rewrite append_nil_r in H. now rewrite H.
Qed.

(** *** The fuel of [parse] is enough

    Whatever a parser reads with some fuel it reads with the fuel [parse]
    gives it, so [parse] rejects a text only for what the text is. *)

Lemma skip_ws_length (s : string) :
  (String.length (skip_ws s) <= String.length s)%nat.
Proof.
  induction s as [|c s IH]; cbn [skip_ws]; [lia|].
  destruct (is_ws c); cbn [String.length]; lia.
Qed.

Lemma strip_prefix_length (p s r : string) :
  strip_prefix p s = Some r ->
  String.length s = (String.length p + String.length r)%nat.
Proof.
  revert s. induction p as [|a p IH]; intros [|b s]; cbn [strip_prefix];
    try discriminate.
  - now intros [= <-].
  - now intros [= <-].
  - destruct (Ascii.eqb a b); [|discriminate].
    intros H. apply IH in H. cbn [String.length]. lia.
Qed.

Lemma span_digits_length (s : string) :
  String.length s
  = (String.length (fst (span_digits s)) + String.length (snd (span_digits s)))%nat.
Proof.
  induction s as [|c s IH]; [reflexivity|].
  cbn [span_digits]. destruct (is_digit c); [|reflexivity].
  destruct (span_digits s) as [d r]. cbn [fst snd String.length] in *. lia.
Qed.

Lemma parse_nat_shorter (s : string) (n : N) (r : string) :
  parse_nat s = Some (n, r) -> (String.length r < String.length s)%nat.
Proof.
  unfold parse_nat. pose proof (span_digits_length s) as Hl.
  destruct (span_digits s) as [ds rest]. cbn [fst snd] in Hl.
  destruct ds as [|c ds]; [discriminate|].
  destruct (leading_zero (String c ds) || is_frac_or_exp rest); [discriminate|].
  destruct (NilEmpty.uint_of_string (String c ds)); [|discriminate].
  intros [= _ <-]. cbn [String.length] in Hl. lia.
Qed.

Lemma parse_literal_shorter (s : string) (v : value) (r : string) :
  parse_literal s = Some (v, r) -> (String.length r < String.length s)%nat.
Proof.
  unfold parse_literal.
  destruct (strip_prefix "null" s) as [r0|] eqn:E0.
  { intros [= _ <-]. apply strip_prefix_length in E0. cbn in E0. lia. }
  destruct (strip_prefix "true" s) as [r1|] eqn:E1.
  { intros [= _ <-]. apply strip_prefix_length in E1. cbn in E1. lia. }
  destruct (strip_prefix "false" s) as [r2|] eqn:E2.
  { intros [= _ <-]. apply strip_prefix_length in E2. cbn in E2. lia. }
  unfold parse_int. destruct s as [|c s']; [discriminate|].
  destruct (N_of_ascii c =? 45)%N.
  - destruct (parse_nat s') as [[n r']|] eqn:En; [|discriminate].
    intros [= _ <-]. apply parse_nat_shorter in En. cbn [String.length]. lia.
  - destruct (parse_nat (String c s')) as [[n r']|] eqn:En; [|discriminate].
    intros [= _ <-]. now apply parse_nat_shorter in En.
Qed.

Lemma parse_chars_shorter (s t r : string) :
  parse_chars s = Some (t, r) -> (String.length r < String.length s)%nat.
Proof.
  assert (Hn : (String.length s <= String.length s)%nat) by lia.
  revert Hn. generalize (String.length s) at 2. intros n.
  revert s t r. induction n as [|n IH]; intros s t r Hn.
  - destruct s; [discriminate | cbn in Hn; lia].
  - destruct s as [|c s1]; [discriminate|]. cbn [parse_chars String.length] in *.
    assert (Hcons : forall (x : ascii) (s' : string),
               (String.length s' <= n)%nat ->
               match parse_chars s' with
               | Some (t', rest) => Some (String x t', rest)
               | None => None
               end = Some (t, r) ->
               (String.length r < String.length s')%nat).
    { intros x s' Hs'. destruct (parse_chars s') as [[t' rest]|] eqn:E;
        [|discriminate].
      intros [= _ <-]. exact (IH s' t' rest Hs' E). }
    destruct (N_of_ascii c =? 34)%N; [intros [= _ <-]; lia|].
    destruct (N_of_ascii c =? 92)%N.
    + destruct s1 as [|e s2]; [discriminate|]. cbn [String.length] in *.
      repeat match goal with
             | |- (if ?b then _ else _) = _ -> _ =>
                 destruct b;
                 [intros H; apply Hcons in H; [lia | lia] |]
             end.
      destruct (N_of_ascii e =? 117)%N; [|discriminate].
      destruct s2 as [|h1 [|h2 [|h3 [|h4 s3]]]]; try discriminate.
      destruct (unit_of_hex h1 h2 h3 h4); [|discriminate].
      cbn [String.length] in *. intros H. apply Hcons in H; lia.
    + destruct (N_of_ascii c <? 32)%N; [discriminate|].
      intros H. apply Hcons in H; lia.
Qed.

(** A result read with some fuel is read with any fuel that covers the
    characters read. *)
Definition enough {A : Type} (f : nat -> string -> option (A * string))
  (n : nat) : Prop :=
  forall s x r, f n s = Some (x, r) ->
    (String.length r < String.length s)%nat /\
    forall m, (String.length s - String.length r <= m)%nat ->
              f m s = Some (x, r).

Lemma enough_all (n : nat) :
  enough parse_value n /\ enough parse_elems n /\ enough parse_members n.
Proof.
  induction n as [|n (IHv & IHe & IHm)].
  { repeat split; discriminate. }
  assert (Hv : enough parse_value (S n)).
  { intros s v r. rewrite parse_value_S.
    pose proof (skip_ws_length s) as Hs.
    destruct (skip_ws s) as [|c r0] eqn:Es; [discriminate|].
    cbn [String.length] in Hs. cbv zeta.
    destruct (N_of_ascii c =? 91)%N eqn:E91.
    { pose proof (skip_ws_length r0) as Hr0.
      destruct (skip_ws r0) as [|c' r'] eqn:Er0; [discriminate|].
      cbn [String.length] in Hr0.
      destruct (N_of_ascii c' =? 93)%N eqn:E93.
      - intros [= <- <-]. split; [lia|]. intros [|m] Hm; [lia|].
        rewrite parse_value_S, Es. cbv zeta. now rewrite E91, Er0, E93.
      - destruct (parse_elems n r0) as [[l r'']|] eqn:Ee; [|discriminate].
        intros [= <- <-]. destruct (IHe _ _ _ Ee) as [Hlt Hup].
        split; [lia|]. intros [|m] Hm; [lia|].
        rewrite parse_value_S, Es. cbv zeta. rewrite E91, Er0, E93.
        now rewrite (Hup m) by lia. }
    destruct (N_of_ascii c =? 123)%N eqn:E123.
    { pose proof (skip_ws_length r0) as Hr0.
      destruct (skip_ws r0) as [|c' r'] eqn:Er0; [discriminate|].
      cbn [String.length] in Hr0.
      destruct (N_of_ascii c' =? 125)%N eqn:E125.
      - intros [= <- <-]. split; [lia|]. intros [|m] Hm; [lia|].
        rewrite parse_value_S, Es. cbv zeta. now rewrite E91, E123, Er0, E125.
      - destruct (parse_members n r0) as [[l r'']|] eqn:Ee; [|discriminate].
        intros [= <- <-]. destruct (IHm _ _ _ Ee) as [Hlt Hup].
        split; [lia|]. intros [|m] Hm; [lia|].
        rewrite parse_value_S, Es. cbv zeta. rewrite E91, E123, Er0, E125.
        now rewrite (Hup m) by lia. }
    destruct (N_of_ascii c =? 34)%N eqn:E34.
    { destruct (parse_chars r0) as [[t r']|] eqn:Ec; [|discriminate].
      intros [= <- <-]. pose proof (parse_chars_shorter _ _ _ Ec) as Hc.
      split; [lia|]. intros [|m] Hm; [lia|].
      rewrite parse_value_S, Es. cbv zeta. now rewrite E91, E123, E34, Ec. }
    intros H. pose proof (parse_literal_shorter _ _ _ H) as Hlt.
    cbn [String.length] in Hlt.
    split; [lia|]. intros [|m] Hm; [lia|].
    rewrite parse_value_S, Es. cbv zeta. now rewrite E91, E123, E34. }
  assert (He : enough parse_elems (S n)).
  { intros s l r. rewrite parse_elems_S.
    destruct (parse_value n s) as [[v r1]|] eqn:Ev; [|discriminate].
    destruct (IHv _ _ _ Ev) as [Hlt1 Hup1].
    pose proof (skip_ws_length r1) as Hr1.
    destruct (skip_ws r1) as [|c r'] eqn:Er1; [discriminate|].
    cbn [String.length] in Hr1. cbv zeta.
    destruct (N_of_ascii c =? 44)%N eqn:E44.
    - destruct (parse_elems n r') as [[l' r'']|] eqn:Ee; [|discriminate].
      intros [= <- <-]. destruct (IHe _ _ _ Ee) as [Hlt2 Hup2].
      split; [lia|]. intros [|m] Hm; [lia|].
      rewrite parse_elems_S, (Hup1 m) by lia. rewrite Er1. cbv zeta.
      rewrite E44. now rewrite (Hup2 m) by lia.
    - destruct (N_of_ascii c =? 93)%N eqn:E93; [|discriminate].
      intros [= <- <-]. split; [lia|]. intros [|m] Hm; [lia|].
      rewrite parse_elems_S, (Hup1 m) by lia. rewrite Er1. cbv zeta.
      now rewrite E44, E93. }
  assert (Hm : enough parse_members (S n)).
  { intros s l r. rewrite parse_members_S.
    pose proof (skip_ws_length s) as Hs.
    destruct (skip_ws s) as [|q r0] eqn:Es; [discriminate|].
    cbn [String.length] in Hs.
    destruct (negb (N_of_ascii q =? 34)%N) eqn:Eq; [discriminate|].
    destruct (parse_chars r0) as [[k r1]|] eqn:Ek; [|discriminate].
    pose proof (parse_chars_shorter _ _ _ Ek) as Hk.
    pose proof (skip_ws_length r1) as Hr1.
    destruct (skip_ws r1) as [|c r2] eqn:Er1; [discriminate|].
    cbn [String.length] in Hr1.
    destruct (negb (N_of_ascii c =? 58)%N) eqn:Ec; [discriminate|].
    destruct (parse_value n r2) as [[v r3]|] eqn:Ev; [|discriminate].
    destruct (IHv _ _ _ Ev) as [Hlt1 Hup1].
    pose proof (skip_ws_length r3) as Hr3.
    destruct (skip_ws r3) as [|d r4] eqn:Er3; [discriminate|].
    cbn [String.length] in Hr3. cbv zeta.
    destruct (N_of_ascii d =? 44)%N eqn:E44.
    - destruct (parse_members n r4) as [[l' r5]|] eqn:Ee; [|discriminate].
      intros [= <- <-]. destruct (IHm _ _ _ Ee) as [Hlt2 Hup2].
      split; [lia|]. intros [|m] Hm; [lia|].
      rewrite parse_members_S, Es, Eq, Ek, Er1, Ec, (Hup1 m) by lia.
      rewrite Er3. cbv zeta. rewrite E44. now rewrite (Hup2 m) by lia.
    - destruct (N_of_ascii d =? 125)%N eqn:E125; [|discriminate].
      intros [= <- <-]. split; [lia|]. intros [|m] Hm; [lia|].
      rewrite parse_members_S, Es, Eq, Ek, Er1, Ec, (Hup1 m) by lia.
      rewrite Er3. cbv zeta. now rewrite E44, E125. }
  exact (conj Hv (conj He Hm)).
Qed.

(** [parse] reads every text that the parser reads to its end with some
    fuel. *)
Theorem parse_complete (n : nat) (s : string) (v : value) (r : string) :
  parse_value n s = Some (v, r) -> skip_ws r = "" -> parse s = Some v.
Proof.
  intros H Hr. destruct (enough_all n) as (Hv & _ & _).
  destruct (Hv s v r H) as [_ Hup]. unfold parse.
  rewrite (Hup (S (String.length s))) by lia. now rewrite Hr.
Qed.

End JSONFacts.

(** The two functions on sample texts. *)

Example stringify_demo :
  stringify (VObj [("id", VNum 1); ("q", VStr (String dquote "b")); ("o", VUndef);
                   ("l", VArr [VNull; VUndef; VBool true; VNum (-20)])])
  = Some ("{" ++ quote "id" ++ ":1," ++ quote "q" ++ ":"
          ++ String dquote (String "\" (String dquote ("b" ++ String dquote "")))
          ++ "," ++ quote "l" ++ ":[null,null,true,-20]}").
Proof. reflexivity. Qed.

Example parse_demo :
  parse ("{ " ++ quote "id" ++ " : 1, " ++ quote "q" ++ ":"
         ++ String dquote ("a\u0041\n" ++ String dquote "")
         ++ ", " ++ quote "l" ++ ":[null, true,-20 ], " ++ quote "id" ++ ":2}")
  = Some (VObj [("id", VNum 2); ("q", VStr ("aA" ++ String (ascii_of_N 10) ""));
                ("l", VArr [VNull; VBool true; VNum (-20)])]).
Proof. vm_compute. reflexivity. Qed.

Example parse_rejects :
  parse "{" = None /\ parse "" = None /\ parse "01" = None /\
  parse "[1,]" = None /\ parse "[] x" = None.
Proof. vm_compute. repeat split. Qed.

(** ** The statements on a provisioned store *)

Module StoreFacts.

Import DataService Run.

Definition students_def_of (mobile : bool) : table_def :=
  if mobile then DataService.students_def else Server.students_def.

Definition tests_def_of (mobile : bool) : table_def :=
  if mobile then DataService.tests_def else Server.tests_def.

Definition results_def_of (mobile : bool) : table_def :=
  if mobile then DataService.results_def else Server.results_def.

Definition tbl {R : Type} (d : table_def) (rs : list R) (n : Z) : table R :=
  {| def := d; rows := rs; seq := n |}.

(** A store with the three tables of the backend's script. *)
Definition db_of (mobile fk : bool)
  (sr : list student) (ss : Z) (tr : list test) (ts : Z)
  (rr : list result) (rs : Z) : database :=
  {| students := Some (tbl (students_def_of mobile) sr ss);
     tests := Some (tbl (tests_def_of mobile) tr ts);
     results := Some (tbl (results_def_of mobile) rr rs);
     foreign_keys := fk |}.

Definition same_key (n a c : cell) (r : student) : bool :=
  cell_eqb (s_name r) n && cell_eqb (s_age r) a && cell_eqb (s_class r) c.

Lemma select_students_db mobile fk sr ss tr ts rr rs name age className :
  select_students (db_of mobile fk sr ss tr ts rr rs)
                  (SText name) (SInt age) (SText className)
  = Ok (filter (same_key (SText name) (SInt age) (SText className)) sr).
Proof. destruct mobile; reflexivity. Qed.

Definition new_student (sr : list student) (ss : Z) (name : string) (age : Z)
  (className : string) : student :=
  {| s_id := fold_right Z.max ss (map s_id sr) + 1; s_name := SText name;
     s_age := SInt age; s_class := SText className |}.

Lemma existsb_filter_nil {A : Type} (f : A -> bool) (l : list A) :
  filter f l = [] -> existsb f l = false.
Proof.
  induction l as [|x l IH]; [reflexivity|].
  cbn [filter existsb]. destruct (f x); [discriminate|].
  intros H. now rewrite (IH H).
Qed.

Lemma existsb_pointwise {A : Type} (f g : A -> bool) (l : list A) :
  (forall x, f x = g x) -> existsb f l = existsb g l.
Proof.
  intros H. induction l as [|x l IH]; [reflexivity|].
  cbn [existsb]. now rewrite H, IH.
Qed.

Lemma unique_students (sr : list student) (new : student) :
  unique_ok student_get Server.students_def sr new
  = negb (existsb (same_key (s_name new) (s_age new) (s_class new)) sr).
Proof.
  unfold unique_ok. cbn [Server.students_def td_constraints forallb].
  rewrite andb_true_r. f_equal. apply existsb_pointwise. intros r. unfold same_key.
  change (student_get "name") with s_name.
  change (student_get "age") with s_age.
  change (student_get "class") with s_class.
  now rewrite andb_true_r, andb_assoc.
Qed.

Lemma insert_student_db mobile fk sr ss tr ts rr rs name age className :
  filter (same_key (SText name) (SInt age) (SText className)) sr = [] ->
  insert_student (db_of mobile fk sr ss tr ts rr rs)
                 (SText name) (SInt age) (SText className)
  = Ok (s_id (new_student sr ss name age className),
        db_of mobile fk (sr ++ [new_student sr ss name age className])
              (s_id (new_student sr ss name age className)) tr ts rr rs).
Proof.
  intros Hnone. destruct mobile; [reflexivity|].
  unfold insert_student, db_of, students, students_def_of, tbl, def.
  change (store Server.students_def "name" (SText name)) with (Ok (SText name)).
  change (store Server.students_def "age" (SInt age)) with (Ok (SInt age)).
  change (store Server.students_def "class" (SText className))
    with (Ok (SText className)).
  cbn [bind]. unfold check_row. cbn [def rows].
  rewrite unique_students. cbn [s_name s_age s_class].
  rewrite (existsb_filter_nil _ _ Hnone). reflexivity.
Qed.

(** The affinity of the columns that hold JSON text. *)
Definition json_affinity (mobile : bool) : affinity :=
  if mobile then AffText else AffNumeric.

Definition new_test (mobile : bool) (tr : list test) (ts : Z) (now : string)
  (sid : Z) (topic complexity concepts text : string) : test :=
  {| t_id := fold_right Z.max ts (map t_id tr) + 1;
     t_student_id := SInt sid; t_topic := SText topic;
     t_complexity := SText complexity; t_concepts := SText concepts;
     t_questions := apply_affinity (json_affinity mobile) (SText text);
     t_created_at := apply_affinity AffNumeric (SText now) |}.

(** The foreign key of a new row is checked by the server's store only. *)
Definition refused (mobile fk : bool) (key : Z) (ids : list Z) : bool :=
  negb mobile && fk && negb (existsb (Z.eqb key) ids).

Lemma existsb_ids {R : Type} (id : R -> Z) (key : Z) (l : list R) :
  existsb (cell_eqb (SInt key)) (map (fun r => SInt (id r)) l)
  = existsb (Z.eqb key) (map id l).
Proof. induction l as [|x l IH]; [reflexivity|]. cbn. now rewrite IH. Qed.

Lemma json_text_not_null (a : affinity) (t : string) :
  is_null (apply_affinity a (SText t)) = false.
Proof. destruct a; cbn; try reflexivity; now destruct (text_to_int t). Qed.

Lemma insert_test_db mobile fk sr ss tr ts rr rs now sid topic cx cc text :
  insert_test (db_of mobile fk sr ss tr ts rr rs) now (SInt sid) (SText topic)
              (SText cx) (SText cc) (SText text)
  = if refused mobile fk sid (map s_id sr) then Err ForeignKeyViolation
    else
      Ok (t_id (new_test mobile tr ts now sid topic cx cc text),
          db_of mobile fk sr ss
                (tr ++ [new_test mobile tr ts now sid topic cx cc text])
                (t_id (new_test mobile tr ts now sid topic cx cc text)) rr rs).
Proof.
  unfold refused. rewrite <- (existsb_ids s_id).
  unfold insert_test, db_of, tests, tbl, def.
  destruct mobile.
  - cbn [negb andb]. reflexivity.
  - unfold tests_def_of.
    change (store Server.tests_def "student_id" (SInt sid)) with (Ok (SInt sid)).
    change (store Server.tests_def "topic" (SText topic)) with (Ok (SText topic)).
    change (store Server.tests_def "complexity" (SText cx)) with (Ok (SText cx)).
    change (store Server.tests_def "concepts" (SText cc)) with (Ok (SText cc)).
    change (store Server.tests_def "questions" (SText text))
      with (if is_null (apply_affinity AffNumeric (SText text))
            then Err NotNullViolation
            else Ok (apply_affinity AffNumeric (SText text))).
    rewrite json_text_not_null.
    change (default Server.tests_def "created_at" now)
      with (Ok (apply_affinity AffNumeric (SText now))).
    cbn [bind]. unfold check_row.
    change (unique_ok test_get _ _ _) with true. cbv iota.
    destruct fk; [|reflexivity].
    unfold fk_check. cbn [def Server.tests_def td_constraints fold_right
                          foreign_keys negb orb test_get t_student_id is_null].
    change (test_get "student_id" ?x) with (t_student_id x).
    cbn [t_student_id is_null].
    change (column_values _ "students" "id")
      with (Some (map (fun r => SInt (s_id r)) sr)).
    cbv iota. cbn [negb andb].
    destruct (existsb (cell_eqb (SInt sid)) (map (fun r => SInt (s_id r)) sr));
      reflexivity.
Qed.

Lemma insert_test_null mobile fk sr ss tr ts rr rs now sid topic cx cc :
  insert_test (db_of mobile fk sr ss tr ts rr rs) now (SInt sid) (SText topic)
              (SText cx) (SText cc) SNull
  = Err NotNullViolation.
Proof. destruct mobile; reflexivity. Qed.


Definition new_result (mobile : bool) (rr : list result) (rs : Z) (now : string)
  (tid : Z) (answers : string) (score : Z) (feedback : string)
  (analysis : option string) : result :=
  {| r_id := fold_right Z.max rs (map r_id rr) + 1;
     r_test_id := SInt tid;
     r_answers := apply_affinity (json_affinity mobile) (SText answers);
     r_score := SInt score; r_feedback := SText feedback;
     r_analysis := apply_affinity (json_affinity mobile)
                                  (Server.text_param analysis);
     r_completed_at := apply_affinity AffNumeric (SText now) |}.

Lemma insert_result_db mobile fk sr ss tr ts rr rs now tid answers score
  feedback analysis :
  insert_result (db_of mobile fk sr ss tr ts rr rs) now (SInt tid)
                (SText answers) (SInt score) (SText feedback)
                (Server.text_param analysis)
  = if refused mobile fk tid (map t_id tr) then Err ForeignKeyViolation
    else
      Ok (r_id (new_result mobile rr rs now tid answers score feedback analysis),
          db_of mobile fk sr ss tr ts
                (rr ++ [new_result mobile rr rs now tid answers score feedback
                                   analysis])
                (r_id (new_result mobile rr rs now tid answers score feedback
                                  analysis))).
Proof.
  unfold refused. rewrite <- (existsb_ids t_id).
  unfold insert_result, db_of, results, tbl, def.
  destruct mobile.
  - cbn [negb andb]. destruct analysis; reflexivity.
  - unfold results_def_of.
    change (store Server.results_def "test_id" (SInt tid)) with (Ok (SInt tid)).
    change (store Server.results_def "answers" (SText answers))
      with (if is_null (apply_affinity AffNumeric (SText answers))
            then Err NotNullViolation
            else Ok (apply_affinity AffNumeric (SText answers))).
    rewrite json_text_not_null.
    change (store Server.results_def "score" (SInt score)) with (Ok (SInt score)).
    change (store Server.results_def "feedback" (SText feedback))
      with (Ok (SText feedback)).
    change (store Server.results_def "analysis" (Server.text_param analysis))
      with (Ok (apply_affinity AffNumeric (Server.text_param analysis))).
    change (default Server.results_def "completed_at" now)
      with (Ok (apply_affinity AffNumeric (SText now))).
    cbn [bind]. unfold check_row.
    change (unique_ok result_get _ _ _) with true. cbv iota.
    destruct fk; [|reflexivity].
    unfold fk_check. cbn [def Server.results_def td_constraints fold_right
                          foreign_keys negb orb].
    change (result_get "test_id" ?x) with (r_test_id x).
    cbn [r_test_id is_null].
    change (column_values _ "tests" "id")
      with (Some (map (fun r => SInt (t_id r)) tr)).
    cbv iota. cbn [negb andb].
    destruct (existsb (cell_eqb (SInt tid)) (map (fun r => SInt (t_id r)) tr));
      reflexivity.
Qed.

Lemma insert_result_null mobile fk sr ss tr ts rr rs now tid score feedback
  analysis :
  insert_result (db_of mobile fk sr ss tr ts rr rs) now (SInt tid)
                SNull (SInt score) (SText feedback) analysis
  = Err NotNullViolation.
Proof. destruct mobile; reflexivity. Qed.

(** The rows of the history statement for a student. *)
Definition history_rows (tr : list test) (rr : list result) (sid : Z)
  : list (test * option result) :=
  order_by_created_at_desc
    (filter (fun x => cell_eqb (t_student_id (fst x)) (SInt sid))
            (left_join tr rr)).

Lemma text_to_int_print (z : Z) : text_to_int (print_int z) = Some z.
Proof.
  assert (Hd : forall n, digits_to_N (print_nat n) = Some n).
  { intros n.
    assert (Hu : NilEmpty.uint_of_string (print_nat n) = Some (N.to_uint n))
      by apply NilEmpty.usu.
    destruct (JSONFacts.print_nat_head n) as (c & t & E & _).
    rewrite E in *. unfold digits_to_N. rewrite Hu.
    now rewrite DecimalN.Unsigned.of_to. }
  unfold print_int. destruct (z <? 0) eqn:Hz.
  - cbn [text_to_int]. change (N_of_ascii "-" =? 45)%N with true. cbv iota.
    rewrite Hd. f_equal. apply Z.ltb_lt in Hz. rewrite N2Z.inj_abs_N. lia.
  - pose proof (Hd (Z.to_N z)) as H.
    destruct (JSONFacts.print_nat_head (Z.to_N z)) as (c & t & E & Hc).
    rewrite E in *. cbn [text_to_int].
    assert (Hm : (N_of_ascii c =? 45)%N = false).
    { ascii_cases c; try reflexivity; discriminate Hc. }
    rewrite Hm, H. f_equal. apply Z.ltb_ge in Hz. now rewrite Z2N.id.
Qed.

Lemma select_history_db mobile fk sr ss tr ts rr rs sid :
  select_history (db_of mobile fk sr ss tr ts rr rs) (SInt sid)
  = Ok (history_rows tr rr sid).
Proof. destruct mobile; reflexivity. Qed.

Lemma select_history_text mobile fk sr ss tr ts rr rs sid :
  select_history (db_of mobile fk sr ss tr ts rr rs) (SText (print_int sid))
  = Ok (history_rows tr rr sid).
Proof.
  assert (E : forall x, col_eqb AffInteger x (SText (print_int sid))
                        = cell_eqb x (SInt sid)).
  { intros x. unfold col_eqb, apply_affinity. now rewrite text_to_int_print. }
  unfold history_rows.
  rewrite <- (filter_ext _ _ (fun x => E (t_student_id (fst x)))).
  destruct mobile; reflexivity.
Qed.


(** *** The order of the history *)







Lemma in_insert_desc x y l : In y (insert_desc x l) <-> y = x \/ In y l.
Proof.
  induction l as [|z l IH]; cbn [insert_desc In].
  - intuition.
  - destruct (cell_leb _ _); cbn [In]; rewrite ?IH; intuition.
Qed.

Lemma in_order y l : In y (order_by_created_at_desc l) <-> In y l.
Proof.
  induction l as [|x l IH]; [reflexivity|].
  cbn [order_by_created_at_desc fold_right In].
  rewrite in_insert_desc. fold (order_by_created_at_desc l). rewrite IH.
  intuition.
Qed.

(** *** The join *)

Definition result_of (t : test) (r : result) : bool :=
  cell_eqb (SInt (t_id t)) (r_test_id r).

Lemma in_left_join t o ts rs :
  In (t, o) (left_join ts rs) <->
  In t ts /\
  match o with
  | Some r => In r rs /\ result_of t r = true
  | None => filter (result_of t) rs = []
  end.
Proof.
  unfold left_join. rewrite in_flat_map. split.
  - intros (t' & Ht' & Hin). fold (result_of t') in Hin.
    destruct (filter (result_of t') rs) as [|r m] eqn:E.
    + destruct Hin as [Hin|[]]. injection Hin as <- <-. now split.
    + apply in_map_iff in Hin as (r' & Hr' & Hin). injection Hr' as <- <-.
      split; [exact Ht'|]. rewrite <- E in Hin.
      now apply filter_In in Hin.
  - intros (Ht & Ho). exists t. split; [exact Ht|]. fold (result_of t).
    destruct o as [r|].
    + destruct Ho as (Hr & Hm).
      assert (Hin : In r (filter (result_of t) rs)) by now apply filter_In.
      destruct (filter (result_of t) rs) as [|r0 m]; [destruct Hin|].
      apply in_map_iff. now exists r.
    + rewrite Ho. now left.
Qed.

Lemma in_history_rows x tr rr sid :
  In x (history_rows tr rr sid) <->
  In x (left_join tr rr) /\ t_student_id (fst x) = SInt sid.
Proof.
  unfold history_rows. rewrite in_order, filter_In.
  assert (E : cell_eqb (t_student_id (fst x)) (SInt sid) = true
              <-> t_student_id (fst x) = SInt sid).
  { destruct (t_student_id (fst x)); cbn; try easy.
    rewrite Z.eqb_eq. split; congruence. }
  now rewrite E.
Qed.


End StoreFacts.

(** ** The operations of the service *)

Module ServiceFacts.

Import DataService Run StoreFacts JSONFacts.

(** *** The transport *)

Definition is_defined (v : value) : bool :=
  match v with
  | VUndef => false
  | _ => true
  end.

(** The properties that [JSON.stringify] writes. *)
Definition written (m : list (string * value)) : list (string * value) :=
  filter (fun kv => is_defined (snd kv)) m.

Lemma payload_cases (v : value) :
  payload v = true -> v = VUndef \/ jsonable v = true.
Proof. destruct v; cbn; auto. Qed.

Lemma serialize_written (m : list (string * value)) :
  serialize (VObj m) = serialize (VObj (written m)).
Proof.
  set (f := fun kv : string * value =>
              match serialize (snd kv) with
              | Some t => [quote (fst kv) ++ ":" ++ t]
              | None => []
              end).
  assert (E : flat_map f m = flat_map f (written m)).
  { induction m as [|[k v] m IH]; [reflexivity|].
    cbn [written filter flat_map snd]. fold (written m).
    destruct v; cbn [is_defined flat_map]; rewrite IH; reflexivity. }
  cbn [serialize]. fold f. now rewrite E.
Qed.

Lemma existsb_written (k : string) (m : list (string * value)) :
  existsb (String.eqb k) (map fst m) = false ->
  existsb (String.eqb k) (map fst (written m)) = false.
Proof.
  induction m as [|[k' v] m IH]; [reflexivity|].
  cbn [map fst existsb written filter snd]. intros H.
  apply orb_false_iff in H as [Hk Hm]. fold (written m).
  destruct (is_defined v); cbn [map fst existsb]; [rewrite Hk|]; now apply IH.
Qed.

Lemma jsonable_written (m : list (string * value)) :
  distinct (map fst m) = true ->
  Forall (fun kv => payload (snd kv) = true) m ->
  jsonable (VObj (written m)) = true.
Proof.
  intros Hd Hp. cbn [jsonable]. apply andb_true_intro. split.
  - induction m as [|[k v] m IH]; [reflexivity|].
    cbn [map fst distinct] in Hd. apply andb_prop in Hd as [Hk Hd].
    inversion Hp as [|? ? _ Hp']; subst.
    cbn [written filter snd]. fold (written m).
    destruct (is_defined v); [|now apply IH].
    cbn [map fst distinct]. rewrite (IH Hd Hp'), andb_true_r.
    apply negb_true_iff. apply existsb_written. now apply negb_true_iff.
  - induction Hp as [|[k v] m Hv Hp IH]; [reflexivity|].
    cbn [map fst distinct] in Hd. apply andb_prop in Hd as [_ Hd].
    cbn [written filter snd]. fold (written m).
    cbn [snd] in Hv. destruct (payload_cases v Hv) as [-> | Hj].
    + cbn [is_defined]. now apply IH.
    + assert (Hdef : is_defined v = true) by (destruct v; easy).
      rewrite Hdef. cbn [forallb snd]. now rewrite Hj, (IH Hd).
Qed.

Lemma lookup_absent (k : string) (m : list (string * value)) :
  existsb (String.eqb k) (map fst m) = false -> lookup k m = VUndef.
Proof.
  induction m as [|[k' v] m IH]; [reflexivity|].
  cbn [map fst existsb lookup]. intros H.
  apply orb_false_iff in H as [Hk Hm]. rewrite Hk. now apply IH.
Qed.

Lemma lookup_written (k : string) (m : list (string * value)) :
  distinct (map fst m) = true -> lookup k (written m) = lookup k m.
Proof.
  induction m as [|[k' v] m IH]; [reflexivity|].
  cbn [map fst distinct]. intros H. apply andb_prop in H as [Hk Hd].
  cbn [written filter snd]. fold (written m).
  destruct (is_defined v) eqn:Hv.
  - cbn [lookup]. now rewrite (IH Hd).
  - cbn [lookup]. rewrite (IH Hd).
    destruct (String.eqb k k') eqn:E; [|reflexivity].
    apply String.eqb_eq in E. subst k'.
    apply negb_true_iff in Hk. rewrite (lookup_absent _ _ Hk).
    now destruct v.
Qed.

(** A handler that reads its request through its properties only. *)
Definition reads_fields
  (route : value -> database -> Server.response * database) : Prop :=
  forall a b d, (forall k, get_field k a = get_field k b) ->
                route a d = route b d.

Lemma post_login_reads : reads_fields Server.post_login.
Proof. intros a b d H. unfold Server.post_login. now rewrite !H. Qed.

Lemma post_tests_reads (now : string) : reads_fields (Server.post_tests now).
Proof. intros a b d H. unfold Server.post_tests. now rewrite !H. Qed.

Lemma post_results_reads (now : string) : reads_fields (Server.post_results now).
Proof. intros a b d H. unfold Server.post_results. now rewrite !H. Qed.

(** A request body reaches its handler as it was sent. *)
Lemma post_delivers (st : state) (m : list (string * value)) route :
  distinct (map fst m) = true ->
  Forall (fun kv => payload (snd kv) = true) m ->
  reads_fields route ->
  post st (VObj m) route
  = (res_json (fst (route (VObj m) (server st))),
     set_server st (snd (route (VObj m) (server st)))).
Proof.
  intros Hd Hp Hr. unfold post, stringify.
  rewrite serialize_written.
  destruct (parse_stringify _ (jsonable_written m Hd Hp)) as (t & Et & Ep).
  unfold stringify in Et. rewrite Et. unfold Server.with_body. rewrite Ep.
  rewrite (Hr (VObj (written m)) (VObj m)).
  - now destruct (route (VObj m) (server st)).
  - intros k. cbn [get_field]. now apply lookup_written.
Qed.

Lemma res_json_ok (code : Z) (v : value) :
  jsonable v = true -> res_json (Server.json code v) = Resolved v.
Proof.
  intros H. unfold res_json, Server.json. cbn [Server.body].
  destruct (parse_stringify v H) as (t & -> & ->). reflexivity.
Qed.

Lemma to_js_jsonable (c : cell) : jsonable (to_js c) = true.
Proof. now destruct c. Qed.

Lemma student_object_jsonable (r : student) : jsonable (student_object r) = true.
Proof.
  unfold student_object. cbn [jsonable map fst forallb snd].
  now rewrite !to_js_jsonable.
Qed.

Lemma set_server_same (st : state) : set_server st (server st) = st.
Proof. now destruct st. Qed.


(** *** login *)

Definition login_object (i : value) (name : string) (age : Z)
  (className : string) : value :=
  VObj [("id", i); ("name", VStr name); ("age", VNum age);
        ("class", VStr className)].

Definition error_object (msg : string) : value := VObj [("error", VStr msg)].

Definition id_object (i : value) : value := VObj [("id", i)].

Definition key_of (name : string) (age : Z) (className : string)
  : student -> bool :=
  same_key (SText name) (SInt age) (SText className).

Lemma login_web p st fk sr ss tr ts rr rs name age className :
  isMobile st = false ->
  server st = db_of false fk sr ss tr ts rr rs ->
  login p st name age className
  = match filter (key_of name age className) sr with
    | r :: _ => (Resolved (student_object r), st)
    | [] =>
        (Resolved (login_object
                     (VNum (s_id (new_student sr ss name age className)))
                     name age className),
         set_server st
           (db_of false fk (sr ++ [new_student sr ss name age className])
                  (s_id (new_student sr ss name age className)) tr ts rr rs))
    end.
Proof.
  intros Hm Hs. unfold login. rewrite Hm. cbn [negb].
  rewrite post_delivers;
    [| reflexivity | repeat constructor | exact post_login_reads].
  unfold Server.post_login, Server.failure.
  change (get_field "name" _) with (VStr name).
  change (get_field "age" _) with (VNum age).
  change (get_field "className" _) with (VStr className).
  cbn [Server.bind_param]. rewrite Hs, select_students_db.
  fold (key_of name age className).
  destruct (filter (key_of name age className) sr) as [|r l] eqn:E.
  - rewrite (insert_student_db _ _ _ _ _ _ _ _ _ _ _ E). cbn [fst snd].
    rewrite res_json_ok by reflexivity. reflexivity.
  - cbn [fst snd]. rewrite res_json_ok by apply student_object_jsonable.
    rewrite <- Hs, set_server_same. reflexivity.
Qed.

Lemma login_mobile p st fk sr ss tr ts rr rs name age className :
  isMobile st = true ->
  db st = Open ->
  device st = db_of true fk sr ss tr ts rr rs ->
  login p st name age className
  = match values_of p (map student_object
                           (filter (key_of name age className) sr)) with
    | Some (first :: _) => (Resolved first, st)
    | _ =>
        (Resolved (login_object
                     (last_id (changes_of p
                        (s_id (new_student sr ss name age className))))
                     name age className),
         set_device st
           (db_of true fk (sr ++ [new_student sr ss name age className])
                  (s_id (new_student sr ss name age className)) tr ts rr rs))
    end.
Proof.
  intros Hm Ho Hs. unfold login, on_device. rewrite Hm, Ho, Hs. cbn [negb].
  rewrite select_students_db. fold (key_of name age className).
  destruct (values_of p _) as [[|first l]|]; reflexivity.
Qed.

(** *** saveTest *)

Definition test_body (sid : Z) (topic cx cc : string) (q : value) : value :=
  VObj [("studentId", VNum sid); ("topic", VStr topic);
        ("complexity", VStr cx); ("concepts", VStr cc); ("questions", q)].

Lemma saveTest_web p st fk sr ss tr ts rr rs now sid topic cx cc q :
  isMobile st = false ->
  server st = db_of false fk sr ss tr ts rr rs ->
  payload q = true ->
  saveTest p st now sid topic cx cc q
  = match stringify q with
    | None => (Resolved (error_object "Failed to save test"), st)
    | Some text =>
        if refused false fk sid (map s_id sr)
        then (Resolved (error_object "Failed to save test"), st)
        else
          (Resolved (id_object
                       (VNum (t_id (new_test false tr ts now sid topic cx cc
                                             text)))),
           set_server st
             (db_of false fk sr ss
                    (tr ++ [new_test false tr ts now sid topic cx cc text])
                    (t_id (new_test false tr ts now sid topic cx cc text))
                    rr rs))
    end.
Proof.
  intros Hm Hs Hq. unfold saveTest. rewrite Hm. cbn [negb].
  rewrite post_delivers;
    [| reflexivity | repeat constructor; exact Hq | apply post_tests_reads].
  unfold Server.post_tests, Server.failure.
  change (get_field "studentId" _) with (VNum sid).
  change (get_field "topic" _) with (VStr topic).
  change (get_field "complexity" _) with (VStr cx).
  change (get_field "concepts" _) with (VStr cc).
  change (get_field "questions" _) with q.
  cbn [Server.bind_param]. rewrite Hs.
  destruct (stringify q) as [text|]; cbn [Server.text_param].
  - rewrite insert_test_db.
    destruct (refused false fk sid (map s_id sr)); cbn [fst snd];
      rewrite res_json_ok by reflexivity; [|reflexivity].
    rewrite <- Hs, set_server_same. reflexivity.
  - rewrite insert_test_null. cbn [fst snd].
    rewrite res_json_ok by reflexivity.
    rewrite <- Hs, set_server_same. reflexivity.
Qed.

Lemma saveTest_mobile p st fk sr ss tr ts rr rs now sid topic cx cc q :
  isMobile st = true ->
  db st = Open ->
  device st = db_of true fk sr ss tr ts rr rs ->
  saveTest p st now sid topic cx cc q
  = match stringify q with
    | None => (Rejected (SqlError NotNullViolation), st)
    | Some text =>
        (Resolved (id_object
                     (last_id (changes_of p
                        (t_id (new_test true tr ts now sid topic cx cc text))))),
         set_device st
           (db_of true fk sr ss
                  (tr ++ [new_test true tr ts now sid topic cx cc text])
                  (t_id (new_test true tr ts now sid topic cx cc text))
                  rr rs))
    end.
Proof.
  intros Hm Ho Hs. unfold saveTest, on_device. rewrite Hm, Ho, Hs. cbn [negb].
  destruct (stringify q) as [text|]; cbn [Server.text_param].
  - rewrite insert_test_db. reflexivity.
  - rewrite insert_test_null. reflexivity.
Qed.

(** *** saveResult *)

Lemma saveResult_web p st fk sr ss tr ts rr rs now tid answers score feedback
  analysis :
  isMobile st = false ->
  server st = db_of false fk sr ss tr ts rr rs ->
  payload answers = true ->
  payload analysis = true ->
  saveResult p st now tid answers score feedback analysis
  = match stringify answers with
    | None => (Resolved (error_object "Failed to save results"), st)
    | Some text =>
        if refused false fk tid (map t_id tr)
        then (Resolved (error_object "Failed to save results"), st)
        else
          (Resolved (id_object
                       (VNum (r_id (new_result false rr rs now tid text score
                                               feedback (stringify analysis))))),
           set_server st
             (db_of false fk sr ss tr ts
                    (rr ++ [new_result false rr rs now tid text score feedback
                                       (stringify analysis)])
                    (r_id (new_result false rr rs now tid text score feedback
                                      (stringify analysis)))))
    end.
Proof.
  intros Hm Hs Ha Hl. unfold saveResult. rewrite Hm. cbn [negb].
  rewrite post_delivers;
    [| reflexivity | repeat constructor; assumption | apply post_results_reads].
  unfold Server.post_results, Server.failure.
  change (get_field "testId" _) with (VNum tid).
  change (get_field "answers" _) with answers.
  change (get_field "score" _) with (VNum score).
  change (get_field "feedback" _) with (VStr feedback).
  change (get_field "analysis" _) with analysis.
  cbn [Server.bind_param]. rewrite Hs.
  destruct (stringify answers) as [text|]; cbn [Server.text_param].
  - rewrite insert_result_db.
    destruct (refused false fk tid (map t_id tr)); cbn [fst snd];
      rewrite res_json_ok by reflexivity; [|reflexivity].
    rewrite <- Hs, set_server_same. reflexivity.
  - rewrite insert_result_null. cbn [fst snd].
    rewrite res_json_ok by reflexivity.
    rewrite <- Hs, set_server_same. reflexivity.
Qed.

Lemma saveResult_mobile p st fk sr ss tr ts rr rs now tid answers score
  feedback analysis :
  isMobile st = true ->
  db st = Open ->
  device st = db_of true fk sr ss tr ts rr rs ->
  saveResult p st now tid answers score feedback analysis
  = match stringify answers with
    | None => (Rejected (SqlError NotNullViolation), st)
    | Some text =>
        (Resolved (id_object
                     (last_id (changes_of p
                        (r_id (new_result true rr rs now tid text score
                                          feedback (stringify analysis)))))),
         set_device st
           (db_of true fk sr ss tr ts
                  (rr ++ [new_result true rr rs now tid text score feedback
                                     (stringify analysis)])
                  (r_id (new_result true rr rs now tid text score feedback
                                    (stringify analysis)))))
    end.
Proof.
  intros Hm Ho Hs. unfold saveResult, on_device. rewrite Hm, Ho, Hs.
  cbn [negb].
  destruct (stringify answers) as [text|]; cbn [Server.text_param].
  - rewrite insert_result_db. reflexivity.
  - rewrite insert_result_null. reflexivity.
Qed.


(** *** getHistory *)

(** A column whose text parses to a value that JSON represents. *)
Definition parses (c : cell) : Prop :=
  exists v, parse_js (to_js c) = Some v /\ jsonable v = true.

Definition test_ok (t : test) : Prop := parses (t_questions t).

Definition result_ok (r : result) : Prop :=
  truthy (to_js (r_analysis r)) = true -> parses (r_analysis r).

Definition parsed (c : cell) : value :=
  match parse_js (to_js c) with
  | Some v => v
  | None => VNull
  end.

Definition column (f : result -> cell) (o : option result) : value :=
  match o with
  | Some r => to_js (f r)
  | None => VNull
  end.

Definition parsed_analysis (o : option result) : value :=
  match o with
  | Some r => if truthy (to_js (r_analysis r)) then parsed (r_analysis r)
              else VNull
  | None => VNull
  end.

(** The object that the history returns for a joined row. *)
Definition history_entry (x : test * option result) : value :=
  let t := fst x in
  VObj [("id", VNum (t_id t)); ("student_id", to_js (t_student_id t));
        ("topic", to_js (t_topic t)); ("complexity", to_js (t_complexity t));
        ("concepts", to_js (t_concepts t));
        ("questions", parsed (t_questions t));
        ("created_at", to_js (t_created_at t));
        ("score", column r_score (snd x));
        ("feedback", column r_feedback (snd x));
        ("analysis", parsed_analysis (snd x));
        ("completed_at", column r_completed_at (snd x))].

Definition row_ok (x : test * option result) : Prop :=
  test_ok (fst x) /\ forall r, snd x = Some r -> result_ok r.

Lemma parse_row_entry x :
  row_ok x -> Server.parse_row (history_object x) = Some (history_entry x).
Proof.
  intros [(q & Eq & _) Hr]. unfold Server.parse_row.
  change (get_field "questions" (history_object x))
    with (to_js (t_questions (fst x))).
  change (get_field "analysis" (history_object x))
    with (column r_analysis (snd x)).
  rewrite Eq. unfold history_entry, parsed. rewrite Eq.
  destruct x as [t [r|]]; cbn [fst snd column parsed_analysis] in *.
  - destruct (truthy (to_js (r_analysis r))) eqn:Et.
    + destruct (Hr r eq_refl Et) as (a & Ea & _). unfold parsed.
      rewrite Ea. reflexivity.
    + reflexivity.
  - reflexivity.
Qed.

Lemma parse_rows_entries l :
  Forall row_ok l ->
  Server.parse_rows (map history_object l) = Some (map history_entry l).
Proof.
  induction 1 as [|x l Hx Hl IH]; [reflexivity|].
  cbn [map Server.parse_rows]. now rewrite (parse_row_entry x Hx), IH.
Qed.

Lemma parsed_jsonable c : parses c -> jsonable (parsed c) = true.
Proof. intros (v & E & Hv). unfold parsed. now rewrite E. Qed.

Lemma history_entry_jsonable x : row_ok x -> jsonable (history_entry x) = true.
Proof.
  intros [Hq Hr]. unfold history_entry.
  cbn [jsonable map fst snd forallb].
  rewrite !to_js_jsonable, (parsed_jsonable _ Hq).
  destruct x as [t [r|]]; cbn [fst snd column parsed_analysis] in *;
    rewrite ?to_js_jsonable; [|reflexivity].
  destruct (truthy (to_js (r_analysis r))) eqn:Et; [|reflexivity].
  now rewrite (parsed_jsonable _ (Hr r eq_refl Et)).
Qed.

Lemma history_rows_ok tr rr sid :
  Forall test_ok tr -> Forall result_ok rr ->
  Forall row_ok (history_rows tr rr sid).
Proof.
  intros Ht Hr. apply Forall_forall. intros [t o] Hin.
  apply in_history_rows in Hin as [Hin _].
  apply in_left_join in Hin as [Hin Ho].
  rewrite Forall_forall in Ht, Hr. split; cbn [fst snd].
  - now apply Ht.
  - intros r ->. apply Hr. tauto.
Qed.

Definition history_of (tr : list test) (rr : list result) (sid : Z) : value :=
  VArr (map history_entry (history_rows tr rr sid)).

Lemma getHistory_web p st fk sr ss tr ts rr rs sid :
  isMobile st = false ->
  server st = db_of false fk sr ss tr ts rr rs ->
  Forall test_ok tr -> Forall result_ok rr ->
  getHistory p st sid = (Resolved (history_of tr rr sid), st).
Proof.
  intros Hm Hs Ht Hr. unfold getHistory. rewrite Hm. cbn [negb].
  unfold Server.get_history. rewrite Hs, select_history_text.
  pose proof (history_rows_ok tr rr sid Ht Hr) as Hok.
  rewrite (parse_rows_entries _ Hok). rewrite res_json_ok.
  - rewrite <- Hs, set_server_same. reflexivity.
  - cbn [jsonable]. apply forallb_forall. intros v Hv.
    apply in_map_iff in Hv as (x & <- & Hx).
    rewrite Forall_forall in Hok. now apply history_entry_jsonable, Hok.
Qed.

Lemma getHistory_mobile p st fk sr ss tr ts rr rs sid :
  isMobile st = true ->
  db st = Open ->
  device st = db_of true fk sr ss tr ts rr rs ->
  Forall test_ok tr -> Forall result_ok rr ->
  reports p ->
  getHistory p st sid = (Resolved (history_of tr rr sid), st).
Proof.
  intros Hm Ho Hs Ht Hr [Hv _]. unfold getHistory, on_device.
  rewrite Hm, Ho, Hs. cbn [negb]. rewrite select_history_db.
  pose proof (history_rows_ok tr rr sid Ht Hr) as Hok.
  unfold history_of.
  destruct (Hv (map history_object (history_rows tr rr sid)))
    as [-> | [Hnil ->]].
  - now rewrite (parse_rows_entries _ Hok).
  - apply map_eq_nil in Hnil. rewrite Hnil. reflexivity.
Qed.

Lemma getHistory_state p st sid : snd (getHistory p st sid) = st.
Proof.
  unfold getHistory. destruct (isMobile st); cbn [negb].
  - unfold on_device. destruct (db st); try reflexivity.
    destruct (select_history _ _); [|reflexivity].
    now destruct (Server.parse_rows _).
  - unfold Server.get_history.
    destruct (select_history _ _); cbn [snd]; [|apply set_server_same].
    destruct (Server.parse_rows _); apply set_server_same.
Qed.


(** *** What a run keeps true *)

Lemma text_to_int_head (c : ascii) (rest : string) :
  is_digit c = false -> (N_of_ascii c =? 45)%N = false ->
  text_to_int (String c rest) = None.
Proof.
  intros Hd Hm. unfold text_to_int. rewrite Hm. unfold digits_to_N.
  cbn [NilEmpty.uint_of_string].
  destruct (NilEmpty.uint_of_string rest); [|reflexivity].
  ascii_cases c; try discriminate Hd; reflexivity.
Qed.

Lemma numeric_text (q : value) (text : string) (z : Z) :
  stringify q = Some text -> text_to_int text = Some z -> q = VNum z.
Proof.
  unfold stringify.
  destruct q as [| |[]|z'|s|l|m]; cbn [serialize]; intros E; try discriminate;
    injection E as <-; try discriminate.
  - rewrite text_to_int_print. congruence.
  - unfold quote. now rewrite text_to_int_head.
  - cbn [append]. now rewrite text_to_int_head.
  - cbn [append]. now rewrite text_to_int_head.
Qed.

Lemma stored_json_parses (mobile : bool) (q : value) (text : string) :
  jsonable q = true -> stringify q = Some text ->
  parse_js (to_js (apply_affinity (json_affinity mobile) (SText text)))
  = Some q.
Proof.
  intros Hj Hs. destruct (parse_stringify q Hj) as (t & Et & Ep).
  assert (t = text) by congruence. subst t.
  destruct mobile; [exact Ep|].
  cbn [json_affinity apply_affinity].
  destruct (text_to_int text) as [z|] eqn:Ez; [|exact Ep].
  pose proof (numeric_text q text z Hs Ez). subst q.
  cbn [stringify serialize] in Hs. injection Hs as <-. exact Ep.
Qed.

Lemma stored_payload_parses (mobile : bool) (q : value) (text : string) :
  payload q = true -> stringify q = Some text ->
  parses (apply_affinity (json_affinity mobile) (SText text)).
Proof.
  intros Hp Hs. destruct (payload_cases q Hp) as [-> | Hj]; [discriminate|].
  exists q. split; [now apply stored_json_parses | exact Hj].
Qed.

Definition refs_ok (tr : list test) (rr : list result) : Prop :=
  forall r, In r rr -> exists t, In t tr /\ r_test_id r = SInt (t_id t).

(** The store of a run: the tables of the script, JSON columns that parse,
    and on the server every result naming a test. *)
Definition good (mobile : bool) (d : database) : Prop :=
  exists fk sr ss tr ts rr rs,
    d = db_of mobile fk sr ss tr ts rr rs /\
    Forall test_ok tr /\ Forall result_ok rr /\
    (mobile = false -> fk = true /\ refs_ok tr rr).

Definition inv (st : state) : Prop :=
  good (isMobile st) (store_of st) /\ (isMobile st = true -> db st = Open).

Lemma new_test_ok mobile tr ts now sid topic cx cc q text :
  payload q = true -> stringify q = Some text ->
  test_ok (new_test mobile tr ts now sid topic cx cc text).
Proof. intros Hp Hs. exact (stored_payload_parses mobile q text Hp Hs). Qed.

Lemma new_result_ok mobile rr rs now tid answers score feedback analysis :
  payload analysis = true ->
  result_ok (new_result mobile rr rs now tid answers score feedback
                        (stringify analysis)).
Proof.
  intros Hp. unfold result_ok, new_result. cbn [r_analysis].
  destruct (stringify analysis) as [text|] eqn:E; cbn [Server.text_param].
  - intros _. exact (stored_payload_parses mobile analysis text Hp E).
  - destruct mobile; discriminate.
Qed.

Lemma refused_false (fk : bool) (key : Z) (ids : list Z) :
  refused false fk key ids = false -> fk = true -> In key ids.
Proof.
  unfold refused. intros H ->. cbn [negb andb] in H.
  apply negb_false_iff in H. apply existsb_exists in H as (x & Hx & E).
  apply Z.eqb_eq in E. now subst x.
Qed.

Lemma inv_start (mobile fk : bool) :
  inv (snd (init NoFault (constructed mobile fk))).
Proof.
  destruct mobile.
  - split; [|reflexivity].
    exists fk, [], 0, [], 0, [], 0. repeat split; try constructor; discriminate.
  - split; [|discriminate].
    exists true, [], 0, [], 0, [], 0. repeat split; try constructor.
    intros r [].
Qed.

Lemma inv_set_device st d :
  isMobile st = true -> db st = Open -> good true d -> inv (set_device st d).
Proof.
  intros Hm Ho Hg. split; cbn [set_device isMobile db]; [|now intros _].
  unfold store_of. cbn [set_device isMobile device]. now rewrite Hm.
Qed.

Lemma inv_set_server st d :
  isMobile st = false -> good false d -> inv (set_server st d).
Proof.
  intros Hm Hg. split; cbn [set_server isMobile db]; [|congruence].
  unfold store_of. cbn [set_server isMobile server]. now rewrite Hm.
Qed.

Lemma inv_login p st name age className :
  inv st -> inv (snd (login p st name age className)).
Proof.
  intros Hinv.
  pose proof Hinv as [(fk & sr & ss & tr & ts & rr & rs & Hd & Ht & Hr & Hw) Ho].
  unfold store_of in Hd. destruct (isMobile st) eqn:Hm.
  - rewrite (login_mobile p st fk sr ss tr ts rr rs _ _ _ Hm (Ho eq_refl) Hd).
    destruct (values_of p _) as [[|first l]|]; cbn [snd]; try exact Hinv;
      (apply inv_set_device; [exact Hm | exact (Ho eq_refl) |];
       eexists fk, _, _, tr, ts, rr, rs; split; [reflexivity|];
       repeat split; eauto; discriminate).
  - rewrite (login_web p st fk sr ss tr ts rr rs _ _ _ Hm Hd).
    destruct (filter _ sr); cbn [snd]; [|exact Hinv].
    apply inv_set_server; [exact Hm|].
    destruct (Hw eq_refl) as [Hfk Hrefs].
    eexists fk, _, _, tr, ts, rr, rs. split; [reflexivity|].
    repeat split; eauto.
Qed.

Lemma refs_more_tests tr rr t : refs_ok tr rr -> refs_ok (tr ++ [t]) rr.
Proof.
  intros H r Hr. destruct (H r Hr) as (t' & Ht' & E).
  exists t'. split; [apply in_or_app; now left | exact E].
Qed.

Lemma inv_saveTest p st now sid topic cx cc q :
  inv st -> payload q = true ->
  inv (snd (saveTest p st now sid topic cx cc q)).
Proof.
  intros Hinv Hq.
  pose proof Hinv as [(fk & sr & ss & tr & ts & rr & rs & Hd & Ht & Hr & Hw) Ho].
  unfold store_of in Hd. destruct (isMobile st) eqn:Hm.
  - rewrite (saveTest_mobile p st fk sr ss tr ts rr rs _ _ _ _ _ _ Hm
               (Ho eq_refl) Hd).
    destruct (stringify q) as [text|] eqn:Es; cbn [snd]; [|exact Hinv].
    apply inv_set_device; [exact Hm | exact (Ho eq_refl) |].
    eexists fk, sr, ss, _, _, rr, rs. split; [reflexivity|].
    repeat split; eauto; try discriminate.
    apply Forall_app. split; [exact Ht|]. constructor; [|constructor].
    exact (new_test_ok true tr ts now sid topic cx cc q text Hq Es).
  - rewrite (saveTest_web p st fk sr ss tr ts rr rs _ _ _ _ _ _ Hm Hd Hq).
    destruct (stringify q) as [text|] eqn:Es; cbn [snd]; [|exact Hinv].
    destruct (refused false fk sid (map s_id sr)); cbn [snd]; [exact Hinv|].
    apply inv_set_server; [exact Hm|].
    destruct (Hw eq_refl) as [Hfk Hrefs].
    eexists fk, sr, ss, _, _, rr, rs. split; [reflexivity|].
    repeat split; eauto.
    + apply Forall_app. split; [exact Ht|]. constructor; [|constructor].
      exact (new_test_ok false tr ts now sid topic cx cc q text Hq Es).
    + now apply refs_more_tests.
Qed.

Lemma inv_saveResult p st now tid answers score feedback analysis :
  inv st -> payload answers = true -> payload analysis = true ->
  inv (snd (saveResult p st now tid answers score feedback analysis)).
Proof.
  intros Hinv Ha Hl.
  pose proof Hinv as [(fk & sr & ss & tr & ts & rr & rs & Hd & Ht & Hr & Hw) Ho].
  unfold store_of in Hd. destruct (isMobile st) eqn:Hm.
  - rewrite (saveResult_mobile p st fk sr ss tr ts rr rs _ _ _ _ _ _ Hm
               (Ho eq_refl) Hd).
    destruct (stringify answers) as [text|] eqn:Es; cbn [snd]; [|exact Hinv].
    apply inv_set_device; [exact Hm | exact (Ho eq_refl) |].
    eexists fk, sr, ss, tr, ts, _, _. split; [reflexivity|].
    repeat split; eauto; try discriminate.
    apply Forall_app. split; [exact Hr|]. constructor; [|constructor].
    now apply new_result_ok.
  - rewrite (saveResult_web p st fk sr ss tr ts rr rs _ _ _ _ _ _ Hm Hd Ha Hl).
    destruct (stringify answers) as [text|] eqn:Es; cbn [snd]; [|exact Hinv].
    destruct (refused false fk tid (map t_id tr)) eqn:Ef; cbn [snd];
      [exact Hinv|].
    apply inv_set_server; [exact Hm|].
    destruct (Hw eq_refl) as [Hfk Hrefs].
    eexists fk, sr, ss, tr, ts, _, _. split; [reflexivity|].
    repeat split; eauto.
    + apply Forall_app. split; [exact Hr|]. constructor; [|constructor].
      now apply new_result_ok.
    + intros r Hin. apply in_app_or in Hin as [Hin | [<- | []]].
      * now apply Hrefs.
      * apply (refused_false _ _ _ Ef) in Hfk.
        apply in_map_iff in Hfk as (t & Et & Hin). exists t.
        split; [exact Hin|]. cbn [new_result r_test_id]. now rewrite Et.
Qed.



Theorem reachable_inv p st : reachable p st -> inv st.
Proof.
  induction 1.
  - apply inv_start.
  - now apply inv_login.
  - now apply inv_saveTest.
  - now rewrite getHistory_state.
  - now apply inv_saveResult.
Qed.

End ServiceFacts.

(** ** Both backends at once *)

Module BackendFacts.

Import DataService Run StoreFacts JSONFacts ServiceFacts.

(** The service is ready on a store with these rows. *)
Definition bound (st : state) (fk : bool)
  (sr : list student) (ss : Z) (tr : list test) (ts : Z)
  (rr : list result) (rs : Z) : Prop :=
  store_of st = db_of (isMobile st) fk sr ss tr ts rr rs /\
  Forall test_ok tr /\ Forall result_ok rr /\
  (isMobile st = true -> db st = Open) /\
  (isMobile st = false -> fk = true /\ refs_ok tr rr).

Lemma inv_bound st :
  inv st -> exists fk sr ss tr ts rr rs, bound st fk sr ss tr ts rr rs.
Proof.
  intros [(fk & sr & ss & tr & ts & rr & rs & Hd & Ht & Hr & Hw) Ho].
  exists fk, sr, ss, tr, ts, rr, rs. repeat split; auto; now apply Hw.
Qed.

Lemma bound_inv st fk sr ss tr ts rr rs :
  bound st fk sr ss tr ts rr rs -> inv st.
Proof.
  intros (Hd & Ht & Hr & Ho & Hw). split; [|exact Ho].
  now exists fk, sr, ss, tr, ts, rr, rs.
Qed.

Lemma bound_rows st fk sr ss tr ts rr rs :
  bound st fk sr ss tr ts rr rs ->
  student_rows (store_of st) = sr /\ test_rows (store_of st) = tr /\
  result_rows (store_of st) = rr.
Proof. intros (-> & _). now repeat split. Qed.

(** The state after a write. *)
Definition with_store (st : state) (d : database) : state :=
  if isMobile st then set_device st d else set_server st d.

Lemma with_store_bound st d fk sr ss tr ts rr rs :
  d = db_of (isMobile st) fk sr ss tr ts rr rs ->
  Forall test_ok tr -> Forall result_ok rr ->
  (isMobile st = true -> db st = Open) ->
  (isMobile st = false -> fk = true /\ refs_ok tr rr) ->
  bound (with_store st d) fk sr ss tr ts rr rs.
Proof.
  intros -> Ht Hr Ho Hw. unfold bound, with_store, store_of.
  destruct (isMobile st) eqn:Hm;
    cbn [set_device set_server isMobile device server db]; rewrite Hm;
    repeat split; auto; try discriminate; now apply Hw.
Qed.

Lemma reports_first p (rows : list value) :
  reports p ->
  match values_of p rows with
  | Some (first :: _) => Some first
  | _ => None
  end = hd_error rows.
Proof.
  intros [Hv _]. destruct (Hv rows) as [-> | [-> ->]]; [|reflexivity].
  now destruct rows.
Qed.

Lemma login_bound p st fk sr ss tr ts rr rs name age className :
  bound st fk sr ss tr ts rr rs -> reports p ->
  login p st name age className
  = match filter (key_of name age className) sr with
    | r :: _ => (Resolved (student_object r), st)
    | [] =>
        (Resolved (login_object
                     (VNum (s_id (new_student sr ss name age className)))
                     name age className),
         with_store st
           (db_of (isMobile st) fk
                  (sr ++ [new_student sr ss name age className])
                  (s_id (new_student sr ss name age className)) tr ts rr rs))
    end.
Proof.
  intros (Hd & _ & _ & Ho & _) Hp. unfold store_of, with_store in *.
  destruct (isMobile st) eqn:Hm.
  - rewrite (login_mobile p st fk sr ss tr ts rr rs _ _ _ Hm (Ho eq_refl) Hd).
    pose proof (reports_first p
                  (map student_object (filter (key_of name age className) sr))
                  Hp) as Hf.
    destruct Hp as [_ Hid].
    destruct (filter (key_of name age className) sr) as [|r l];
      cbn [map hd_error] in Hf |- *.
    + rewrite Hid.
      destruct (values_of p []) as [[|x l]|]; try discriminate; reflexivity.
    + destruct (values_of p _) as [[|x l']|]; try discriminate.
      now injection Hf as ->.
  - exact (login_web p st fk sr ss tr ts rr rs _ _ _ Hm Hd).
Qed.

Lemma saveTest_bound p st fk sr ss tr ts rr rs now sid topic cx cc q text :
  bound st fk sr ss tr ts rr rs -> reports p ->
  payload q = true -> stringify q = Some text ->
  refused (isMobile st) fk sid (map s_id sr) = false ->
  saveTest p st now sid topic cx cc q
  = (Resolved (id_object
                 (VNum (t_id (new_test (isMobile st) tr ts now sid topic cx cc
                                       text)))),
     with_store st
       (db_of (isMobile st) fk sr ss
              (tr ++ [new_test (isMobile st) tr ts now sid topic cx cc text])
              (t_id (new_test (isMobile st) tr ts now sid topic cx cc text))
              rr rs)).
Proof.
  intros (Hd & _ & _ & Ho & _) [_ Hid] Hq Hs Hf.
  unfold store_of, with_store in *.
  destruct (isMobile st) eqn:Hm.
  - rewrite (saveTest_mobile p st fk sr ss tr ts rr rs _ _ _ _ _ _ Hm
               (Ho eq_refl) Hd), Hs, Hid. reflexivity.
  - rewrite (saveTest_web p st fk sr ss tr ts rr rs _ _ _ _ _ _ Hm Hd Hq),
      Hs, Hf. reflexivity.
Qed.

Lemma getHistory_bound p st fk sr ss tr ts rr rs sid :
  bound st fk sr ss tr ts rr rs -> reports p ->
  getHistory p st sid = (Resolved (history_of tr rr sid), st).
Proof.
  intros (Hd & Ht & Hr & Ho & _) Hp. unfold store_of in Hd.
  destruct (isMobile st) eqn:Hm.
  - apply (getHistory_mobile p st fk sr ss tr ts rr rs); auto.
  - now apply (getHistory_web p st fk sr ss tr ts rr rs).
Qed.

Lemma rowid_above {R : Type} (id : R -> Z) (l : list R) (n : Z) (x : R) :
  In x l -> id x <= fold_right Z.max n (map id l).
Proof.
  induction l as [|y l IH]; [intros []|].
  cbn [map fold_right]. intros [-> | H]; [lia|].
  specialize (IH H). lia.
Qed.







Lemma entry_id x : get_field "id" (history_entry x) = VNum (t_id (fst x)).
Proof. reflexivity. Qed.





Lemma cell_eqb_eq (a b : cell) : cell_eqb a b = true -> a = b.
Proof.
  destruct a, b; cbn; try discriminate.
  - intros H. apply Z.eqb_eq in H. now subst.
  - intros H. apply String.eqb_eq in H. now subst.
Qed.



End BackendFacts.

(** * The properties of the specification *)

Import DataService Run.

Section Reporting.

Import StoreFacts JSONFacts ServiceFacts BackendFacts.

(** Throughout, the plugin of the device reports the rows a statement
    selects and the rowid a statement inserts; it plays no part on the
    server backend. *)
Variable p : plugin.
Hypothesis plugin_reports : reports p.





(** C4.  Null-safe left outer join.  In every state of a run, on either
    backend, a test of the student that no result names occurs in the
    history, with [score], [feedback], [analysis] and [completed_at] all
    [null]. *)
Theorem history_keeps_unanswered_tests (st : state) (studentId : Z) (t : test) :
  reachable p st ->
  In t (test_rows (store_of st)) ->
  t_student_id t = SInt studentId ->
  (forall r, In r (result_rows (store_of st)) -> r_test_id r <> SInt (t_id t)) ->
  exists (history : list value) (h : value),
    getHistory p st studentId = (Resolved (VArr history), st) /\
    In h history /\
    get_field "id" h = VNum (t_id t) /\
    get_field "score" h = VNull /\
    get_field "feedback" h = VNull /\
    get_field "analysis" h = VNull /\
    get_field "completed_at" h = VNull.
Proof.
  intros Hreach Ht Hs Hnone.
  destruct (inv_bound st (reachable_inv p st Hreach))
    as (fk & sr & ss & tr & ts & rr & rs & Hb).
  destruct (bound_rows _ _ _ _ _ _ _ _ Hb) as (_ & Etr & Err).
  rewrite Etr in Ht. rewrite Err in Hnone.
  exists (map history_entry (history_rows tr rr studentId)),
         (history_entry (t, None)).
  split; [exact (getHistory_bound p st _ _ _ _ _ _ _ studentId Hb
                   plugin_reports)|].
  split; [|now repeat split].
  apply in_map. apply in_history_rows. split; [|exact Hs].
  apply in_left_join. split; [exact Ht|].
  destruct (filter (result_of t) rr) as [|r m] eqn:E; [reflexivity|].
  assert (Hin : In r (filter (result_of t) rr)) by (rewrite E; now left).
  apply filter_In in Hin as [Hr Hm]. unfold result_of in Hm.
  apply cell_eqb_eq in Hm. now destruct (Hnone r Hr).
Qed.


End Reporting.

(** C5.  Schema parity, as far as it holds.  The two scripts define the
    same three tables with the same columns, the same NOT NULL marks, keys
    and defaults, the device declaring TEXT where the server declares JSON;
    the server declares UNIQUE(name, age, class) and the two foreign keys,
    the device declares no constraint. *)
Theorem schemas_agree_on_columns :
  Forall2 (fun x y => td_name x = td_name y /\
                      map Schema.in_dialect (td_columns x) = td_columns y /\
                      td_constraints y = [])
          Server.schema DataService.schema /\
  map td_constraints Server.schema
  = [ [Unique ["name"; "age"; "class"]];
      [ForeignKey "student_id" "students" "id"];
      [ForeignKey "test_id" "tests" "id"] ].
Proof. split; [repeat constructor | reflexivity]. Qed.

(** The constraints of the two scripts differ: the parity of C5 fails. *)
Lemma schemas_differ_in_constraints :
  ~ Schema.parity Server.schema DataService.schema.
Proof.
  intros H. inversion H as [|x y a b (_ & _ & Hc) _]; subst.
  discriminate Hc.
Qed.

(** C6.  Idempotent schema provisioning.  On either script and from any
    database, every number [n >= 1] of runs succeeds and leaves the
    database one run leaves; the three tables exist, and every table that
    was there keeps its definition, its rows and its counter. *)
Theorem provisioning_is_idempotent (script : list table_def) (db : database)
  (n : nat) :
  script = Server.schema \/ script = DataService.schema ->
  (1 <= n)%nat ->
  exists d,
    Schema.provision script n db = Ok d /\
    exec script db = Ok d /\
    Schema.provisioned d /\
    Schema.keeps db d /\
    foreign_keys d = foreign_keys db.
Proof.
  intros Hs Hn.
  assert (Hfix : forall d0, exec script d0 = Ok d0 ->
                            forall k, Schema.provision script k d0 = Ok d0).
  { intros d0 E k. induction k as [|k IH]; [reflexivity|].
    cbn [Schema.provision]. rewrite E. exact IH. }
  destruct n as [|n]; [lia|]. cbn [Schema.provision].
  destruct db as [[s|] [t|] [r|] fk];
    destruct Hs as [-> | ->];
    (eexists; split;
     [ cbn [exec bind]; apply Hfix; reflexivity
     | split; [reflexivity|];
       split; [repeat split; discriminate|];
       split; [repeat split; intros ? E; try discriminate E; exact E
              | reflexivity] ]).
Qed.

Lemma provisioning_is_idempotent_witness :
  exists d,
    Schema.provision Server.schema 3 (empty_database true) = Ok d /\
    exec Server.schema (empty_database true) = Ok d /\
    Schema.provisioned d /\
    Schema.keeps (empty_database true) d /\
    foreign_keys d = foreign_keys (empty_database true).
Proof.
  apply (provisioning_is_idempotent Server.schema (empty_database true) 3);
    [left; reflexivity | lia].
Defined.

(** Starting the server again, or running a completed [init] again,
    changes nothing. *)
Lemma restart_changes_nothing (fk : bool) :
  Server.start server_start = Ok server_start /\
  init NoFault (snd (init NoFault (constructed true fk)))
  = init NoFault (constructed true fk).
Proof. split; reflexivity. Qed.


(** C7.  What the code does with a failure.  [init] resolves whatever goes
    wrong inside its [try]; after a failed connection the service object
    has no connection and the next call rejects with a TypeError.  On the
    server backend a statement that fails (a foreign key, a NOT NULL
    column) is answered with status 500 and an error object, which the
    operation returns as its resolved value; only on the device does the
    failure of a statement reject. *)
Theorem failures_are_swallowed :
  (forall (f : fault) (st : state), fst (init f st) = Resolved VUndef) /\
  init CreateConnectionFails (constructed true false)
  = (Resolved VUndef, constructed true false) /\
  fst (login reporting_plugin (constructed true false) "Ann" 10 "5th")
  = Rejected TypeError /\
  (let web := snd (init NoFault (constructed false false)) in
   saveTest reporting_plugin web "2024-01-01 10:00:00" 7 "Fractions" "Easy" ""
            (VArr [])
   = (Resolved (VObj [("error", VStr "Failed to save test")]), web) /\
   saveTest reporting_plugin web "2024-01-01 10:00:00" 7 "Fractions" "Easy" ""
            VUndef
   = (Resolved (VObj [("error", VStr "Failed to save test")]), web)) /\
  (let device := snd (init NoFault (constructed true false)) in
   saveTest reporting_plugin device "2024-01-01 10:00:00" 7 "Fractions" "Easy"
            "" VUndef
   = (Rejected (SqlError NotNullViolation), device)).
Proof.
  split.
  { intros f st. unfold init. destruct (isMobile st); [|reflexivity].
    cbn [negb]. now destruct (init_try f st) as [[v|e] st']. }
  repeat split; vm_compute; reflexivity.
Qed.




(** C9.  Referential integrity of results, where it holds.  On the server
    backend, in every state of a run every result row names a stored test,
    and [saveResult] for an identifier that names no test stores nothing
    and resolves with the error object of the handler. *)
Theorem server_results_reference_tests (p : plugin) (st : state) :
  reachable p st ->
  isMobile st = false ->
  results_reference_tests (store_of st) /\
  forall now testId answers score feedback analysis,
    payload answers = true -> payload analysis = true ->
    ~ In testId (map t_id (test_rows (store_of st))) ->
    saveResult p st now testId answers score feedback analysis
    = (Resolved (VObj [("error", VStr "Failed to save results")]), st).
Proof.
  intros Hreach Hm.
  destruct (BackendFacts.inv_bound st (ServiceFacts.reachable_inv p st Hreach))
    as (fk & sr & ss & tr & ts & rr & rs & Hb).
  destruct (BackendFacts.bound_rows _ _ _ _ _ _ _ _ Hb) as (_ & Etr & Err).
  destruct Hb as (Hd & _ & _ & _ & Hw). destruct (Hw Hm) as [-> Hrefs].
  unfold results_reference_tests. rewrite Etr, Err. split; [exact Hrefs|].
  intros now testId answers score feedback analysis Ha Hl Hno.
  unfold store_of in Hd. rewrite Hm in Hd.
  rewrite (ServiceFacts.saveResult_web p st true sr ss tr ts rr rs now testId
             answers score feedback analysis Hm Hd Ha Hl).
  destruct (stringify answers); [|reflexivity].
  assert (E : StoreFacts.refused false true testId (map t_id tr) = true).
  { unfold StoreFacts.refused. cbn [negb andb].
    destruct (existsb (Z.eqb testId) (map t_id tr)) eqn:Ex; [|reflexivity].
    apply existsb_exists in Ex as (x & Hx & Exx). apply Z.eqb_eq in Exx.
    subst x. contradiction. }
  now rewrite E.
Qed.

Lemma server_results_reference_tests_witness :
  let st := snd (init NoFault (constructed false false)) in
  results_reference_tests (store_of st) /\
  forall now testId answers score feedback analysis,
    payload answers = true -> payload analysis = true ->
    ~ In testId (map t_id (test_rows (store_of st))) ->
    saveResult reporting_plugin st now testId answers score feedback analysis
    = (Resolved (VObj [("error", VStr "Failed to save results")]), st).
Proof.
  apply (server_results_reference_tests reporting_plugin
           (snd (init NoFault (constructed false false))));
    [apply reach_init | reflexivity].
Defined.

(** On the device a result can name a test that does not exist. *)
Lemma device_result_without_test :
  let st := snd (init NoFault (constructed true false)) in
  let r := saveResult reporting_plugin st "2024-01-01 10:00:00" 42 (VObj [])
                      100 "Well done" VNull in
  reachable reporting_plugin (snd r) /\
  fst r = Resolved (VObj [("id", VNum 1)]) /\
  test_rows (store_of (snd r)) = [] /\
  ~ results_reference_tests (store_of (snd r)).
Proof.
  cbv zeta. split; [|split; [|split]].
  - apply reach_saveResult; [apply reach_init | reflexivity | reflexivity].
  - vm_compute. reflexivity.
  - vm_compute. reflexivity.
  - intros H.
    destruct (H {| r_id := 1; r_test_id := SInt 42; r_answers := SText "{}";
                   r_score := SInt 100; r_feedback := SText "Well done";
                   r_analysis := SText "null";
                   r_completed_at := SText "2024-01-01 10:00:00" |})
      as (t & Ht & _).
    + vm_compute. left. reflexivity.
    + vm_compute in Ht. exact Ht.
Qed.

(** C10.  On the device the identifier of a write is what the plugin
    reports, unchecked.  In every state of a run on the device, whatever
    the plugin: [saveTest] and [saveResult] whose JSON column has a text,
    and [login] when the plugin returns no row, store the new row and
    resolve with [insert.changes?.lastId] as the identifier, which is
    [undefined] when the response has no [changes] or no [lastId]. *)
Theorem device_identifier_is_unchecked (p : plugin) (st : state) :
  reachable p st ->
  isMobile st = true ->
  (forall now studentId topic complexity concepts questions text,
     stringify questions = Some text ->
     exists i st',
       saveTest p st now studentId topic complexity concepts questions
       = (Resolved (VObj [("id", last_id (changes_of p i))]), st') /\
       In i (map t_id (test_rows (store_of st')))) /\
  (forall now testId answers score feedback analysis text,
     stringify answers = Some text ->
     exists i st',
       saveResult p st now testId answers score feedback analysis
       = (Resolved (VObj [("id", last_id (changes_of p i))]), st') /\
       In i (map r_id (result_rows (store_of st')))) /\
  (forall name age className,
     (forall first rest,
        values_of p (map student_object
                         (filter (fun r => cell_eqb (s_name r) (SText name)
                                           && cell_eqb (s_age r) (SInt age)
                                           && cell_eqb (s_class r)
                                                       (SText className))
                                 (student_rows (store_of st))))
        <> Some (first :: rest)) ->
     exists i st',
       login p st name age className
       = (Resolved (VObj [("id", last_id (changes_of p i));
                          ("name", VStr name); ("age", VNum age);
                          ("class", VStr className)]), st') /\
       In i (map s_id (student_rows (store_of st')))) /\
  last_id None = VUndef /\
  (forall c, lastId c = None -> last_id (Some c) = VUndef).
Proof.
  intros Hreach Hm.
  destruct (BackendFacts.inv_bound st (ServiceFacts.reachable_inv p st Hreach))
    as (fk & sr & ss & tr & ts & rr & rs & Hb).
  destruct (BackendFacts.bound_rows _ _ _ _ _ _ _ _ Hb) as (Esr & _ & _).
  destruct Hb as (Hd & _ & _ & Ho & _). specialize (Ho Hm).
  unfold store_of in Hd. rewrite Hm in Hd.
  assert (Hrows : forall d, store_of (set_device st d) = d).
  { intros d. unfold store_of. cbn [set_device isMobile device].
    now rewrite Hm. }
  split; [|split; [|split; [|split]]].
  - intros now studentId topic complexity concepts questions text Es.
    rewrite (ServiceFacts.saveTest_mobile p st fk sr ss tr ts rr rs now
               studentId topic complexity concepts questions Hm Ho Hd), Es.
    eexists _, _. split; [reflexivity|]. rewrite Hrows.
    cbn [test_rows StoreFacts.db_of tests StoreFacts.tbl rows].
    rewrite map_app. apply in_or_app. right. now left.
  - intros now testId answers score feedback analysis text Es.
    rewrite (ServiceFacts.saveResult_mobile p st fk sr ss tr ts rr rs now
               testId answers score feedback analysis Hm Ho Hd), Es.
    eexists _, _. split; [reflexivity|]. rewrite Hrows.
    cbn [result_rows StoreFacts.db_of results StoreFacts.tbl rows].
    rewrite map_app. apply in_or_app. right. now left.
  - intros name age className Hnone. rewrite Esr in Hnone.
    rewrite (ServiceFacts.login_mobile p st fk sr ss tr ts rr rs name age
               className Hm Ho Hd).
    unfold ServiceFacts.key_of, StoreFacts.same_key.
    destruct (values_of p _) as [[|first rest]|] eqn:Ev;
      try (now destruct (Hnone first rest));
      (eexists _, _; split; [reflexivity|]; rewrite Hrows;
       cbn [student_rows StoreFacts.db_of students StoreFacts.tbl rows];
       rewrite map_app; apply in_or_app; right; now left).
  - reflexivity.
  - intros c Hc. unfold last_id. now rewrite Hc.
Qed.

Lemma device_identifier_is_unchecked_witness :
  fst (saveTest silent_plugin (snd (init NoFault (constructed true false)))
                "2024-01-01 10:00:00" 1 "Fractions" "Easy" "" (VArr []))
  = Resolved (VObj [("id", VUndef)]).
Proof.
  destruct (proj1 (device_identifier_is_unchecked silent_plugin
                     (snd (init NoFault (constructed true false)))
                     (reach_init silent_plugin true false) eq_refl)
                  "2024-01-01 10:00:00" 1 "Fractions" "Easy" "" (VArr [])
                  "[]" eq_refl) as (i & st' & E & _).
  rewrite E. reflexivity.
Defined.

(** ** The properties on a run of each backend *)

Lemma reporting_plugin_reports : reports reporting_plugin.
Proof. split; [intros rows; now left | reflexivity]. Qed.

(** A run: the service starts and Sam logs in. *)
Definition after_login (mobile : bool) : state :=
  snd (login reporting_plugin (snd (init NoFault (constructed mobile false)))
             "Sam" 9 "4th").

Lemma after_login_reachable (mobile : bool) :
  reachable reporting_plugin (after_login mobile).
Proof. apply reach_login, reach_init. Qed.

Definition fractions : Question :=
  {| id := 1; question := "1/2+1/4=?";
     options := Some ["1/4"; "3/4"; "1/2"; "1"];
     correctAnswer := "3/4"; explanation := "..." |}.

Definition open_question : Question :=
  {| id := 2; question := "Name a fraction equal to 1/2.";
     options := None; correctAnswer := "2/4"; explanation := "..." |}.

(** A run in which Sam has saved a test. *)
Definition after_test (mobile : bool) : state :=
  snd (saveTest reporting_plugin (after_login mobile) "2024-01-01 10:00:00" 1
                "Fractions" "Easy" ""
                (questions_value [fractions; open_question])).

Lemma after_test_reachable (mobile : bool) :
  reachable reporting_plugin (after_test mobile).
Proof.
  apply reach_saveTest; [apply after_login_reachable | reflexivity].
Qed.




Lemma history_keeps_unanswered_tests_witness :
  exists (history : list value) (h : value),
    getHistory reporting_plugin (after_test false) 1
    = (Resolved (VArr history), after_test false) /\
    In h history /\
    get_field "id" h = VNum 1 /\
    get_field "score" h = VNull /\
    get_field "feedback" h = VNull /\
    get_field "analysis" h = VNull /\
    get_field "completed_at" h = VNull.
Proof.
  apply (history_keeps_unanswered_tests reporting_plugin
           reporting_plugin_reports (after_test false) 1
           {| t_id := 1; t_student_id := SInt 1; t_topic := SText "Fractions";
              t_complexity := SText "Easy"; t_concepts := SText "";
              t_questions :=
                SText (match stringify (questions_value
                                          [fractions; open_question]) with
                       | Some t => t
                       | None => ""
                       end);
              t_created_at := SText "2024-01-01 10:00:00" |}).
  - apply after_test_reachable.
  - vm_compute. left. reflexivity.
  - reflexivity.
  - vm_compute. intros r [].
Defined.

(** Three tests saved at increasing times come back newest first, and the
    scenario of the specification gives the record it lists, on either
    backend. *)
Definition three_tests (mobile : bool) : state :=
  let s1 := after_login mobile in
  let s2 := snd (saveTest reporting_plugin s1 "2024-01-01 10:00:00" 1
                          "First" "Easy" "" (VArr [])) in
  let s3 := snd (saveTest reporting_plugin s2 "2024-01-01 10:00:01" 1
                          "Second" "Medium" "" (VArr [])) in
  snd (saveTest reporting_plugin s3 "2024-01-02 09:00:00" 1
                "Third" "Hard" "" (VArr [])).

Definition topics (o : outcome) : list value :=
  match o with
  | Resolved (VArr hs) => map (get_field "topic") hs
  | _ => []
  end.

Example three_tests_newest_first (mobile : bool) :
  topics (fst (getHistory reporting_plugin (three_tests mobile) 1))
  = [VStr "Third"; VStr "Second"; VStr "First"].
Proof. destruct mobile; vm_compute; reflexivity. Qed.

Definition scenario (mobile : bool) : outcome :=
  let s1 := after_test mobile in
  let s2 := snd (saveResult reporting_plugin s1 "2024-01-01 10:30:00" 1
                            (VObj [("1", VStr "3/4")]) 100 "Great job!"
                            (VObj [("strengths", VArr [VStr "fractions"]);
                                   ("weaknesses", VArr []);
                                   ("suggestions", VArr [])])) in
  fst (getHistory reporting_plugin s2 1).

Example scenario_history (mobile : bool) :
  scenario mobile
  = Resolved (VArr [VObj
      [("id", VNum 1); ("student_id", VNum 1); ("topic", VStr "Fractions");
       ("complexity", VStr "Easy"); ("concepts", VStr "");
       ("questions", questions_value [fractions; open_question]);
       ("created_at", VStr "2024-01-01 10:00:00");
       ("score", VNum 100); ("feedback", VStr "Great job!");
       ("analysis", VObj [("strengths", VArr [VStr "fractions"]);
                          ("weaknesses", VArr []); ("suggestions", VArr [])]);
       ("completed_at", VStr "2024-01-01 10:30:00")]]).
Proof. destruct mobile; vm_compute; reflexivity. Qed.

(** Ann at 10 and Ann at 11 are two students; Ann at 10 again is the
    first. *)
Definition identifiers (mobile : bool) : list value :=
  let s0 := snd (init NoFault (constructed mobile false)) in
  let (a, s1) := login reporting_plugin s0 "Ann" 10 "5th" in
  let (b, s2) := login reporting_plugin s1 "Ann" 11 "5th" in
  let (c, _) := login reporting_plugin s2 "Ann" 10 "5th" in
  map (fun o => match o with
                | Resolved v => get_field "id" v
                | Rejected _ => VUndef
                end) [a; b; c].

Example distinct_keys_distinct_identifiers (mobile : bool) :
  identifiers mobile = [VNum 1; VNum 2; VNum 1].
Proof. destruct mobile; vm_compute; reflexivity. Qed.

(** ** Writes, identifiers and what the history shows of them *)

Module WriteFacts.

Import DataService Run StoreFacts JSONFacts ServiceFacts BackendFacts.

Lemma rows_with_store st fk sr ss tr ts rr rs :
  student_rows
    (store_of (with_store st (db_of (isMobile st) fk sr ss tr ts rr rs))) = sr /\
  test_rows
    (store_of (with_store st (db_of (isMobile st) fk sr ss tr ts rr rs))) = tr /\
  result_rows
    (store_of (with_store st (db_of (isMobile st) fk sr ss tr ts rr rs))) = rr.
Proof.
  unfold with_store, store_of.
  destruct (isMobile st) eqn:Hm;
    cbn [set_device set_server isMobile device server]; rewrite Hm;
    now repeat split.
Qed.

(** The rowid of an insert is above every rowid of the table. *)
Lemma fresh_rowid {R : Type} (id : R -> Z) (l : list R) (n : Z) :
  ~ In (fold_right Z.max n (map id l) + 1) (map id l).
Proof.
  intros H. apply in_map_iff in H as (x & E & Hx).
  pose proof (rowid_above id l n x Hx). lia.
Qed.

Lemma nodup_snoc {A : Type} (l : list A) (x : A) :
  NoDup l -> ~ In x l -> NoDup (l ++ [x]).
Proof.
  intros Hl Hx. apply NoDup_app; [exact Hl | repeat constructor; intros [] |].
  intros y Hy [<- | []]. now apply Hx.
Qed.

(** *** One step of each write, whatever the plugin reports *)

Lemma login_step p st fk sr ss tr ts rr rs name age className :
  bound st fk sr ss tr ts rr rs ->
  snd (login p st name age className) = st \/
  snd (login p st name age className)
  = with_store st
      (db_of (isMobile st) fk (sr ++ [new_student sr ss name age className])
             (s_id (new_student sr ss name age className)) tr ts rr rs).
Proof.
  intros (Hd & _ & _ & Ho & _). unfold store_of, with_store in *.
  destruct (isMobile st) eqn:Hm.
  - rewrite (login_mobile p st fk sr ss tr ts rr rs _ _ _ Hm (Ho eq_refl) Hd).
    destruct (values_of p _) as [[|first l]|]; cbn [snd]; auto.
  - rewrite (login_web p st fk sr ss tr ts rr rs _ _ _ Hm Hd).
    destruct (filter _ sr); cbn [snd]; auto.
Qed.

Lemma saveTest_step p st fk sr ss tr ts rr rs now sid topic cx cc q :
  bound st fk sr ss tr ts rr rs -> payload q = true ->
  (snd (saveTest p st now sid topic cx cc q) = st /\
   forall v, fst (saveTest p st now sid topic cx cc q)
             <> Resolved (id_object v)) \/
  exists text v,
    stringify q = Some text /\
    refused (isMobile st) fk sid (map s_id sr) = false /\
    (reports p ->
     v = VNum (t_id (new_test (isMobile st) tr ts now sid topic cx cc text))) /\
    saveTest p st now sid topic cx cc q
    = (Resolved (id_object v),
       with_store st
         (db_of (isMobile st) fk sr ss
            (tr ++ [new_test (isMobile st) tr ts now sid topic cx cc text])
            (t_id (new_test (isMobile st) tr ts now sid topic cx cc text))
            rr rs)).
Proof.
  intros (Hd & _ & _ & Ho & _) Hq. unfold store_of, with_store in *.
  destruct (isMobile st) eqn:Hm.
  - rewrite (saveTest_mobile p st fk sr ss tr ts rr rs _ _ _ _ _ _ Hm
               (Ho eq_refl) Hd).
    destruct (stringify q) as [text|]; cbn [fst snd].
    + right. eexists text, _. split; [reflexivity|]. split; [reflexivity|].
      split; [|reflexivity]. intros [_ Hid]. apply Hid.
    + left. split; [reflexivity | discriminate].
  - rewrite (saveTest_web p st fk sr ss tr ts rr rs _ _ _ _ _ _ Hm Hd Hq).
    destruct (stringify q) as [text|]; cbn [fst snd].
    + destruct (refused false fk sid (map s_id sr)) eqn:Ef; cbn [fst snd].
      * left. split; [reflexivity | discriminate].
      * right. eexists text, _. split; [reflexivity|].
        split; [reflexivity|]. split; [|reflexivity]. reflexivity.
    + left. split; [reflexivity | discriminate].
Qed.

Lemma saveResult_step p st fk sr ss tr ts rr rs now tid answers score feedback
  analysis :
  bound st fk sr ss tr ts rr rs ->
  payload answers = true -> payload analysis = true ->
  (snd (saveResult p st now tid answers score feedback analysis) = st /\
   forall v, fst (saveResult p st now tid answers score feedback analysis)
             <> Resolved (id_object v)) \/
  exists text v,
    stringify answers = Some text /\
    refused (isMobile st) fk tid (map t_id tr) = false /\
    (reports p ->
     v = VNum (r_id (new_result (isMobile st) rr rs now tid text score
                                feedback (stringify analysis)))) /\
    saveResult p st now tid answers score feedback analysis
    = (Resolved (id_object v),
       with_store st
         (db_of (isMobile st) fk sr ss tr ts
            (rr ++ [new_result (isMobile st) rr rs now tid text score
                               feedback (stringify analysis)])
            (r_id (new_result (isMobile st) rr rs now tid text score
                              feedback (stringify analysis))))).
Proof.
  intros (Hd & _ & _ & Ho & _) Ha Hl. unfold store_of, with_store in *.
  destruct (isMobile st) eqn:Hm.
  - rewrite (saveResult_mobile p st fk sr ss tr ts rr rs _ _ _ _ _ _ Hm
               (Ho eq_refl) Hd).
    destruct (stringify answers) as [text|]; cbn [fst snd].
    + right. eexists text, _. split; [reflexivity|]. split; [reflexivity|].
      split; [|reflexivity]. intros [_ Hid]. apply Hid.
    + left. split; [reflexivity | discriminate].
  - rewrite (saveResult_web p st fk sr ss tr ts rr rs _ _ _ _ _ _ Hm Hd Ha Hl).
    destruct (stringify answers) as [text|]; cbn [fst snd].
    + destruct (refused false fk tid (map t_id tr)) eqn:Ef; cbn [fst snd].
      * left. split; [reflexivity | discriminate].
      * right. eexists text, _. split; [reflexivity|].
        split; [reflexivity|]. split; [|reflexivity]. reflexivity.
    + left. split; [reflexivity | discriminate].
Qed.

(** The state after a write that went through. *)
Lemma saveTest_bound_after st fk sr ss tr ts rr rs now sid topic cx cc q text :
  bound st fk sr ss tr ts rr rs ->
  payload q = true -> stringify q = Some text ->
  bound (with_store st
           (db_of (isMobile st) fk sr ss
              (tr ++ [new_test (isMobile st) tr ts now sid topic cx cc text])
              (t_id (new_test (isMobile st) tr ts now sid topic cx cc text))
              rr rs))
        fk sr ss
        (tr ++ [new_test (isMobile st) tr ts now sid topic cx cc text])
        (t_id (new_test (isMobile st) tr ts now sid topic cx cc text)) rr rs.
Proof.
  intros (Hd & Ht & Hr & Ho & Hw) Hq Hs.
  apply with_store_bound; auto.
  - apply Forall_app. split; [exact Ht|]. constructor; [|constructor].
    exact (new_test_ok _ tr ts now sid topic cx cc q text Hq Hs).
  - intros Hm. destruct (Hw Hm) as [Hfk Hrefs]. split; [exact Hfk|].
    now apply refs_more_tests.
Qed.

Lemma saveResult_bound_after st fk sr ss tr ts rr rs now tid text score
  feedback analysis :
  bound st fk sr ss tr ts rr rs ->
  payload analysis = true ->
  refused (isMobile st) fk tid (map t_id tr) = false ->
  bound (with_store st
           (db_of (isMobile st) fk sr ss tr ts
              (rr ++ [new_result (isMobile st) rr rs now tid text score
                                 feedback (stringify analysis)])
              (r_id (new_result (isMobile st) rr rs now tid text score
                                feedback (stringify analysis)))))
        fk sr ss tr ts
        (rr ++ [new_result (isMobile st) rr rs now tid text score feedback
                           (stringify analysis)])
        (r_id (new_result (isMobile st) rr rs now tid text score feedback
                          (stringify analysis))).
Proof.
  intros (Hd & Ht & Hr & Ho & Hw) Hl Hf.
  apply with_store_bound; auto.
  - apply Forall_app. split; [exact Hr|]. constructor; [|constructor].
    now apply new_result_ok.
  - intros Hm. destruct (Hw Hm) as [Hfk Hrefs]. split; [exact Hfk|].
    intros r Hin. apply in_app_or in Hin as [Hin | [<- | []]].
    + now apply Hrefs.
    + rewrite Hm in Hf. apply (refused_false _ _ _ Hf) in Hfk.
      apply in_map_iff in Hfk as (t & Et & Hin). exists t.
      split; [exact Hin|]. cbn [new_result r_test_id]. now rewrite Et.
Qed.

Lemma isMobile_with_store st d : isMobile (with_store st d) = isMobile st.
Proof. unfold with_store. destruct (isMobile st) eqn:E; exact E. Qed.

Lemma login_bound_after st fk sr ss tr ts rr rs name age className :
  bound st fk sr ss tr ts rr rs ->
  bound (with_store st
           (db_of (isMobile st) fk
                  (sr ++ [new_student sr ss name age className])
                  (s_id (new_student sr ss name age className)) tr ts rr rs))
        fk (sr ++ [new_student sr ss name age className])
        (s_id (new_student sr ss name age className)) tr ts rr rs.
Proof. intros (Hd & Ht & Hr & Ho & Hw). now apply with_store_bound. Qed.

(** *** Identifiers *)

Definition distinct_ids (d : database) : Prop :=
  NoDup (map s_id (student_rows d)) /\
  NoDup (map t_id (test_rows d)) /\
  NoDup (map r_id (result_rows d)).

Lemma ids_invariant p st : reachable p st -> distinct_ids (store_of st).
Proof.
  induction 1 as [mobile fk | st name age className Hreach IH
                 | st now sid topic cx cc q Hreach IH Hq
                 | st sid Hreach IH
                 | st now tid answers score feedback analysis Hreach IH Ha Hl].
  - destruct mobile; repeat split; constructor.
  - destruct (inv_bound st (reachable_inv p st Hreach))
      as (fk & sr & ss & tr & ts & rr & rs & Hb).
    destruct (bound_rows _ _ _ _ _ _ _ _ Hb) as (Esr & Etr & Err).
    destruct IH as (Is & It & Ir). rewrite Esr in Is.
    destruct (login_step p st fk sr ss tr ts rr rs name age className Hb)
      as [-> | ->]; [unfold distinct_ids; now rewrite Esr|].
    unfold distinct_ids.
    destruct (rows_with_store st fk (sr ++ [new_student sr ss name age className])
                (s_id (new_student sr ss name age className)) tr ts rr rs)
      as (-> & -> & ->).
    rewrite <- Etr, <- Err. split; [|now split].
    rewrite map_app. apply nodup_snoc; [exact Is | apply fresh_rowid].
  - destruct (inv_bound st (reachable_inv p st Hreach))
      as (fk & sr & ss & tr & ts & rr & rs & Hb).
    destruct (bound_rows _ _ _ _ _ _ _ _ Hb) as (Esr & Etr & Err).
    destruct IH as (Is & It & Ir). rewrite Etr in It.
    destruct (saveTest_step p st fk sr ss tr ts rr rs now sid topic cx cc q
                Hb Hq) as [[-> _] | (text & v & _ & _ & _ & ->)];
      [unfold distinct_ids; now rewrite Etr|].
    unfold distinct_ids. cbn [snd].
    destruct (rows_with_store st fk sr ss
                (tr ++ [new_test (isMobile st) tr ts now sid topic cx cc text])
                (t_id (new_test (isMobile st) tr ts now sid topic cx cc text))
                rr rs) as (-> & -> & ->).
    rewrite <- Esr, <- Err. split; [exact Is|]. split; [|exact Ir].
    rewrite map_app. apply nodup_snoc; [exact It | apply fresh_rowid].
  - now rewrite getHistory_state.
  - destruct (inv_bound st (reachable_inv p st Hreach))
      as (fk & sr & ss & tr & ts & rr & rs & Hb).
    destruct (bound_rows _ _ _ _ _ _ _ _ Hb) as (Esr & Etr & Err).
    destruct IH as (Is & It & Ir). rewrite Err in Ir.
    destruct (saveResult_step p st fk sr ss tr ts rr rs now tid answers score
                feedback analysis Hb Ha Hl)
      as [[-> _] | (text & v & _ & _ & _ & ->)];
      [unfold distinct_ids; now rewrite Err|].
    unfold distinct_ids. cbn [snd].
    destruct (rows_with_store st fk sr ss tr ts
                (rr ++ [new_result (isMobile st) rr rs now tid text score
                                   feedback (stringify analysis)])
                (r_id (new_result (isMobile st) rr rs now tid text score
                                  feedback (stringify analysis))))
      as (-> & -> & ->).
    rewrite <- Esr, <- Etr. split; [exact Is|]. split; [exact It|].
    rewrite map_app. apply nodup_snoc; [exact Ir | apply fresh_rowid].
Qed.

End WriteFacts.

(** ** Properties of the writes on both backends *)

Import StoreFacts JSONFacts ServiceFacts BackendFacts WriteFacts.

(** A write stores one whole row or nothing.  [saveTest] and [saveResult]
    either leave the store as it was and return no identifier, or return an
    identifier and append exactly one row, whose identifier no row of the
    table had and whose columns hold the arguments; the JSON columns parse
    back to the values passed.  The other tables are untouched. *)
Theorem writes_are_all_or_nothing (p : plugin) (st : state) :
  reachable p st ->
  (forall now studentId topic complexity concepts questions,
     payload questions = true ->
     let r := saveTest p st now studentId topic complexity concepts
                       questions in
     (snd r = st /\ forall v, fst r <> Resolved (VObj [("id", v)])) \/
     (exists v row,
        fst r = Resolved (VObj [("id", v)]) /\
        test_rows (store_of (snd r))
        = (test_rows (store_of st) ++ [row])%list /\
        student_rows (store_of (snd r)) = student_rows (store_of st) /\
        result_rows (store_of (snd r)) = result_rows (store_of st) /\
        ~ In (t_id row) (map t_id (test_rows (store_of st))) /\
        t_student_id row = SInt studentId /\ t_topic row = SText topic /\
        t_complexity row = SText complexity /\
        t_concepts row = SText concepts /\
        parse_js (to_js (t_questions row)) = Some questions)) /\
  (forall now testId answers score feedback analysis,
     payload answers = true -> payload analysis = true ->
     let r := saveResult p st now testId answers score feedback analysis in
     (snd r = st /\ forall v, fst r <> Resolved (VObj [("id", v)])) \/
     (exists v row,
        fst r = Resolved (VObj [("id", v)]) /\
        result_rows (store_of (snd r))
        = (result_rows (store_of st) ++ [row])%list /\
        student_rows (store_of (snd r)) = student_rows (store_of st) /\
        test_rows (store_of (snd r)) = test_rows (store_of st) /\
        ~ In (r_id row) (map r_id (result_rows (store_of st))) /\
        r_test_id row = SInt testId /\ r_score row = SInt score /\
        r_feedback row = SText feedback /\
        parse_js (to_js (r_answers row)) = Some answers)).
Proof.
  intros Hreach.
  destruct (inv_bound st (reachable_inv p st Hreach))
    as (fk & sr & ss & tr & ts & rr & rs & Hb).
  destruct (bound_rows _ _ _ _ _ _ _ _ Hb) as (Esr & Etr & Err).
  rewrite Esr, Etr, Err. split.
  - intros now sid topic cx cc q Hq r. subst r.
    destruct (saveTest_step p st fk sr ss tr ts rr rs now sid topic cx cc q
                Hb Hq) as [H | (text & v & Es & _ & _ & ->)]; [now left|].
    right. cbn [fst snd].
    destruct (rows_with_store st fk sr ss
                (tr ++ [new_test (isMobile st) tr ts now sid topic cx cc text])
                (t_id (new_test (isMobile st) tr ts now sid topic cx cc text))
                rr rs) as (-> & -> & ->).
    exists v, (new_test (isMobile st) tr ts now sid topic cx cc text).
    repeat split; try reflexivity; [apply fresh_rowid|].
    destruct (payload_cases q Hq) as [-> | Hj]; [discriminate|].
    now apply stored_json_parses.
  - intros now tid answers score feedback analysis Ha Hl r. subst r.
    destruct (saveResult_step p st fk sr ss tr ts rr rs now tid answers score
                feedback analysis Hb Ha Hl)
      as [H | (text & v & Es & _ & _ & ->)]; [now left|].
    right. cbn [fst snd].
    destruct (rows_with_store st fk sr ss tr ts
                (rr ++ [new_result (isMobile st) rr rs now tid text score
                                   feedback (stringify analysis)])
                (r_id (new_result (isMobile st) rr rs now tid text score
                                  feedback (stringify analysis))))
      as (-> & -> & ->).
    exists v, (new_result (isMobile st) rr rs now tid text score feedback
                          (stringify analysis)).
    repeat split; try reflexivity; [apply fresh_rowid|].
    destruct (payload_cases answers Ha) as [-> | Hj]; [discriminate|].
    now apply stored_json_parses.
Qed.


(** ** What the history shows of a saved result *)

Module ResultFacts.

Import StoreFacts JSONFacts ServiceFacts BackendFacts WriteFacts.

Lemma saveResult_bound p st fk sr ss tr ts rr rs now tid answers score
  feedback analysis text :
  bound st fk sr ss tr ts rr rs -> reports p ->
  payload answers = true -> payload analysis = true ->
  stringify answers = Some text ->
  refused (isMobile st) fk tid (map t_id tr) = false ->
  saveResult p st now tid answers score feedback analysis
  = (Resolved (id_object
                 (VNum (r_id (new_result (isMobile st) rr rs now tid text
                                         score feedback
                                         (stringify analysis))))),
     with_store st
       (db_of (isMobile st) fk sr ss tr ts
          (rr ++ [new_result (isMobile st) rr rs now tid text score feedback
                             (stringify analysis)])
          (r_id (new_result (isMobile st) rr rs now tid text score feedback
                            (stringify analysis))))).
Proof.
  intros (Hd & _ & _ & Ho & _) [_ Hid] Ha Hl Hs Hf.
  unfold store_of, with_store in *.
  destruct (isMobile st) eqn:Hm.
  - rewrite (saveResult_mobile p st fk sr ss tr ts rr rs _ _ _ _ _ _ Hm
               (Ho eq_refl) Hd), Hs, Hid. reflexivity.
  - rewrite (saveResult_web p st fk sr ss tr ts rr rs _ _ _ _ _ _ Hm Hd Ha Hl),
      Hs, Hf. reflexivity.
Qed.

(** The analysis of a history record, from the analysis that was saved:
    [undefined] is stored as NULL and read as [null]; the number 0 is kept
    as the text of the device's TEXT column, which is truthy, and as the
    integer of the server's JSON column, which is not. *)
Definition analysis_read_back (mobile : bool) (analysis : value) : value :=
  match analysis with
  | VUndef => VNull
  | VNum 0 => if mobile then VNum 0 else VNull
  | a => a
  end.

Lemma read_back_other (mobile : bool) (a : value) :
  a <> VUndef -> a <> VNum 0 -> analysis_read_back mobile a = a.
Proof.
  intros Hu Hz. destruct a as [| |b|z|s|l|m]; try reflexivity;
    [congruence|]. destruct z; [congruence | reflexivity | reflexivity].
Qed.

Lemma stored_text_truthy (t : string) :
  (exists c t', t = String c t') -> truthy (VStr t) = true.
Proof. intros (c & t' & ->). reflexivity. Qed.

Lemma analysis_comes_back mobile rr rs now tid text score feedback analysis :
  payload analysis = true ->
  parsed_analysis
    (Some (new_result mobile rr rs now tid text score feedback
                      (stringify analysis)))
  = analysis_read_back mobile analysis.
Proof.
  intros Hp. unfold parsed_analysis, new_result. cbn [r_analysis].
  destruct (payload_cases analysis Hp) as [-> | Hj].
  { destruct mobile; reflexivity. }
  destruct (parse_stringify analysis Hj) as (t & Et & _).
  pose proof (stored_json_parses mobile analysis t Hj Et) as Ep.
  rewrite Et. cbn [Server.text_param].
  assert (Hu : analysis <> VUndef) by (intros ->; discriminate).
  assert (Ht : truthy (VStr t) = true).
  { apply stored_text_truthy. destruct (serialize_head analysis t Et)
      as (c & t' & E & _). now exists c, t'. }
  destruct mobile.
  - cbn [json_affinity apply_affinity] in *.
    change (to_js (SText t)) with (VStr t) in *. rewrite Ht.
    unfold parsed. change (to_js (SText t)) with (VStr t). rewrite Ep.
    destruct analysis as [| |b|z|s|l|m]; try reflexivity; [congruence|].
    now destruct z.
  - cbn [json_affinity apply_affinity] in *.
    destruct (text_to_int t) as [z|] eqn:Ez.
    + pose proof (numeric_text analysis t z Et Ez). subst analysis.
      change (to_js (SInt z)) with (VNum z) in *. unfold parsed.
      change (to_js (SInt z)) with (VNum z). rewrite Ep.
      destruct z; reflexivity.
    + change (to_js (SText t)) with (VStr t) in *. rewrite Ht.
      unfold parsed. change (to_js (SText t)) with (VStr t). rewrite Ep.
      apply eq_sym, read_back_other; [exact Hu|]. intros ->.
      cbn [stringify serialize] in Et. injection Et as <-.
      now rewrite text_to_int_print in Ez.
Qed.

(** *** How often a test stands in the history *)

Definition has_id (i : Z) (h : value) : bool :=
  match get_field "id" h with
  | VNum z => z =? i
  | _ => false
  end.

Definition row_of (i : Z) (x : test * option result) : bool :=
  t_id (fst x) =? i.

Lemma filter_flat_map {A B : Type} (f : B -> bool) (g : A -> list B)
  (l : list A) :
  filter f (flat_map g l) = flat_map (fun a => filter f (g a)) l.
Proof.
  induction l as [|a l IH]; [reflexivity|].
  cbn [flat_map]. now rewrite filter_app, IH.
Qed.

Lemma filter_none {A : Type} (f : A -> bool) (l : list A) :
  (forall x, In x l -> f x = false) -> filter f l = [].
Proof.
  induction l as [|x l IH]; [reflexivity|]. intros H. cbn [filter].
  rewrite (H x (or_introl eq_refl)). apply IH. intros y Hy. apply H. now right.
Qed.

Lemma filter_all {A : Type} (f : A -> bool) (l : list A) :
  (forall x, In x l -> f x = true) -> filter f l = l.
Proof.
  induction l as [|x l IH]; [reflexivity|]. intros H. cbn [filter].
  rewrite (H x (or_introl eq_refl)). f_equal. apply IH. intros y Hy.
  apply H. now right.
Qed.

(** The rows that the join gives for one test. *)
Definition joined (t : test) (rr : list result)
  : list (test * option result) :=
  match filter (result_of t) rr with
  | [] => [(t, None)]
  | m => map (fun r => (t, Some r)) m
  end.

Lemma left_join_joined tr rr :
  left_join tr rr = flat_map (fun t => joined t rr) tr.
Proof. reflexivity. Qed.

Lemma joined_fst t rr x : In x (joined t rr) -> fst x = t.
Proof.
  unfold joined. destruct (filter (result_of t) rr) as [|r m].
  - now intros [<- | []].
  - intros H. apply in_map_iff in H as (r' & <- & _). reflexivity.
Qed.

Lemma joined_length t rr :
  List.length (joined t rr) = Nat.max 1 (List.length (filter (result_of t) rr)).
Proof.
  unfold joined. destruct (filter (result_of t) rr) as [|r m]; [reflexivity|].
  rewrite length_map. cbn [List.length]. lia.
Qed.

Lemma rows_of_test t tr rr :
  NoDup (map t_id tr) -> In t tr ->
  filter (row_of (t_id t)) (left_join tr rr) = joined t rr.
Proof.
  rewrite left_join_joined, filter_flat_map.
  induction tr as [|a tr IH]; [intros _ []|].
  cbn [map flat_map]. intros Hnd Hin. inversion Hnd as [|i ids Hni Hnd']; subst.
  destruct Hin as [-> | Hin].
  - rewrite filter_all.
    + assert (E : flat_map (fun a => filter (row_of (t_id t)) (joined a rr)) tr
                  = []).
      { clear IH Hnd Hnd'. induction tr as [|b tr IHb]; [reflexivity|].
        cbn [flat_map]. rewrite IHb.
        - rewrite List.app_nil_r. apply filter_none. intros x Hx.
          unfold row_of. rewrite (joined_fst b rr x Hx). apply Z.eqb_neq.
          intros E. apply Hni. cbn [map]. left. exact E.
        - intros H. apply Hni. cbn [map]. now right. }
      rewrite E. apply List.app_nil_r.
    + intros x Hx. unfold row_of. rewrite (joined_fst t rr x Hx).
      apply Z.eqb_refl.
  - rewrite (filter_none _ (joined a rr)).
    + cbn [app]. now apply IH.
    + intros x Hx. unfold row_of. rewrite (joined_fst a rr x Hx).
      apply Z.eqb_neq. intros E. apply Hni. rewrite E. now apply in_map.
Qed.

Lemma filter_insert_desc (f : test * option result -> bool) x l :
  List.length (filter f (insert_desc x l)) = List.length (filter f (x :: l)).
Proof.
  induction l as [|y l IH]; [reflexivity|]. cbn [insert_desc].
  destruct (cell_leb _ _); [reflexivity|].
  cbn [filter] in *. destruct (f y), (f x); cbn [List.length] in *; lia.
Qed.

Lemma filter_order (f : test * option result -> bool) l :
  List.length (filter f (order_by_created_at_desc l))
  = List.length (filter f l).
Proof.
  induction l as [|x l IH]; [reflexivity|].
  cbn [order_by_created_at_desc fold_right].
  rewrite filter_insert_desc. fold (order_by_created_at_desc l).
  cbn [filter]. destruct (f x); cbn [List.length]; now rewrite IH.
Qed.

Lemma filter_comm {A : Type} (f g : A -> bool) (l : list A) :
  filter f (filter g l) = filter g (filter f l).
Proof.
  induction l as [|x l IH]; [reflexivity|]. cbn [filter].
  destruct (f x) eqn:Ef, (g x) eqn:Eg; cbn [filter]; rewrite ?Ef, ?Eg, IH;
    reflexivity.
Qed.

Lemma filter_map_entries i l :
  filter (has_id i) (map history_entry l)
  = map history_entry (filter (row_of i) l).
Proof.
  induction l as [|x l IH]; [reflexivity|]. cbn [map filter].
  unfold has_id at 1. rewrite entry_id. fold (row_of i x).
  destruct (row_of i x); cbn [map]; now rewrite IH.
Qed.

Lemma records_of_test t tr rr sid :
  NoDup (map t_id tr) -> In t tr -> t_student_id t = SInt sid ->
  List.length (filter (has_id (t_id t))
                 (map history_entry (history_rows tr rr sid)))
  = Nat.max 1 (List.length (filter (result_of t) rr)).
Proof.
  intros Hnd Hin Hs. rewrite filter_map_entries, length_map.
  unfold history_rows. rewrite filter_order, filter_comm.
  rewrite (rows_of_test t tr rr Hnd Hin), filter_all; [apply joined_length|].
  intros x Hx. rewrite (joined_fst t rr x Hx), Hs. cbn. apply Z.eqb_refl.
Qed.

End ResultFacts.

Section SavedResults.

Import StoreFacts JSONFacts ServiceFacts BackendFacts WriteFacts ResultFacts.

Variable p : plugin.
Hypothesis plugin_reports : reports p.


(** The history holds one record of a test for each result saved for it,
    and one record without a score when there is none: a test that was
    answered twice stands in the history twice. *)
Theorem one_record_per_result (st : state) (studentId : Z) (t : test) :
  reachable p st ->
  In t (test_rows (store_of st)) ->
  t_student_id t = SInt studentId ->
  exists history : list value,
    getHistory p st studentId = (Resolved (VArr history), st) /\
    List.length (filter (has_id (t_id t)) history)
    = Nat.max 1 (List.length
                   (filter (fun r => cell_eqb (SInt (t_id t)) (r_test_id r))
                           (result_rows (store_of st)))).
Proof.
  intros Hreach Hin Hs.
  destruct (ids_invariant p st Hreach) as (_ & Hnd & _).
  destruct (inv_bound st (reachable_inv p st Hreach))
    as (fk & sr & ss & tr & ts & rr & rs & Hb).
  destruct (bound_rows _ _ _ _ _ _ _ _ Hb) as (_ & Etr & Err).
  rewrite Etr in Hin, Hnd. rewrite Err.
  eexists. split; [exact (getHistory_bound p st _ _ _ _ _ _ _ studentId Hb
                            plugin_reports)|].
  exact (records_of_test t tr rr studentId Hnd Hin Hs).
Qed.

End SavedResults.

(** ** The history of one student and the writes of another *)

Module IsolationFacts.

Import StoreFacts JSONFacts ServiceFacts BackendFacts WriteFacts ResultFacts.

Definition of_student (sid : Z) (x : test * option result) : bool :=
  cell_eqb (t_student_id (fst x)) (SInt sid).

Lemma joined_snoc t rr new :
  result_of t new = false -> joined t (rr ++ [new]) = joined t rr.
Proof.
  intros H. unfold joined. rewrite filter_app. cbn [filter]. rewrite H.
  now rewrite List.app_nil_r.
Qed.

Lemma history_rows_more_tests tr rr new sid :
  cell_eqb (t_student_id new) (SInt sid) = false ->
  history_rows (tr ++ [new]) rr sid = history_rows tr rr sid.
Proof.
  intros H. unfold history_rows. f_equal.
  rewrite !left_join_joined, flat_map_app, filter_app. cbn [flat_map].
  rewrite List.app_nil_r, (filter_none _ (joined new rr));
    [apply List.app_nil_r|].
  intros x Hx. now rewrite (joined_fst new rr x Hx).
Qed.

Lemma history_rows_more_results tr rr new sid :
  (forall t, In t tr -> result_of t new = true ->
             cell_eqb (t_student_id t) (SInt sid) = false) ->
  history_rows tr (rr ++ [new]) sid = history_rows tr rr sid.
Proof.
  intros H. unfold history_rows. f_equal. rewrite !left_join_joined.
  induction tr as [|a tr IH]; [reflexivity|].
  cbn [flat_map]. rewrite !filter_app, IH
    by (intros t Ht; apply H; now right).
  f_equal. destruct (result_of a new) eqn:E.
  - rewrite !filter_none; [reflexivity | |];
      intros x Hx; rewrite (joined_fst a _ x Hx);
      apply H; [now left | exact E | now left | exact E].
  - now rewrite joined_snoc.
Qed.

End IsolationFacts.

Section Isolation.

Import StoreFacts JSONFacts ServiceFacts BackendFacts WriteFacts ResultFacts.
Import IsolationFacts.

Variable p : plugin.
Hypothesis plugin_reports : reports p.

(** The history of a student changes only by writes for that student.  A
    login leaves every history as it is; so does a test saved for another
    student, and a result saved for a test that is not one of the
    student's. *)
Theorem histories_do_not_interfere (st : state) (studentId : Z) :
  reachable p st ->
  (forall name age className,
     fst (getHistory p (snd (login p st name age className)) studentId)
     = fst (getHistory p st studentId)) /\
  (forall now other topic complexity concepts questions,
     payload questions = true -> other <> studentId ->
     fst (getHistory p (snd (saveTest p st now other topic complexity concepts
                                      questions)) studentId)
     = fst (getHistory p st studentId)) /\
  (forall now testId answers score feedback analysis,
     payload answers = true -> payload analysis = true ->
     (forall t, In t (test_rows (store_of st)) -> t_id t = testId ->
                t_student_id t <> SInt studentId) ->
     fst (getHistory p (snd (saveResult p st now testId answers score feedback
                                        analysis)) studentId)
     = fst (getHistory p st studentId)).
Proof.
  intros Hreach.
  destruct (inv_bound st (reachable_inv p st Hreach))
    as (fk & sr & ss & tr & ts & rr & rs & Hb).
  destruct (bound_rows _ _ _ _ _ _ _ _ Hb) as (_ & Etr & _). rewrite Etr.
  pose proof (getHistory_bound p st _ _ _ _ _ _ _ studentId Hb plugin_reports)
    as Eh.
  split; [|split].
  - intros name age className.
    destruct (login_step p st fk sr ss tr ts rr rs name age className Hb)
      as [-> | ->]; [reflexivity|].
    rewrite (getHistory_bound p _ _ _ _ _ _ _ _ studentId
               (login_bound_after st fk sr ss tr ts rr rs name age className
                  Hb) plugin_reports).
    now rewrite Eh.
  - intros now other topic cx cc q Hq Hne.
    destruct (saveTest_step p st fk sr ss tr ts rr rs now other topic cx cc q
                Hb Hq) as [[-> _] | (text & v & Es & _ & _ & ->)];
      [reflexivity|].
    cbn [snd].
    rewrite (getHistory_bound p _ _ _ _ _ _ _ _ studentId
               (saveTest_bound_after st fk sr ss tr ts rr rs now other topic
                  cx cc q text Hb Hq Es) plugin_reports).
    rewrite Eh. cbn [fst]. unfold history_of.
    rewrite history_rows_more_tests; [reflexivity|].
    cbn. now apply Z.eqb_neq.
  - intros now tid answers score feedback analysis Ha Hl Hother.
    destruct (saveResult_step p st fk sr ss tr ts rr rs now tid answers score
                feedback analysis Hb Ha Hl)
      as [[-> _] | (text & v & Es & Hf & _ & ->)]; [reflexivity|].
    cbn [snd].
    rewrite (getHistory_bound p _ _ _ _ _ _ _ _ studentId
               (saveResult_bound_after st fk sr ss tr ts rr rs now tid text
                  score feedback analysis Hb Hl Hf) plugin_reports).
    rewrite Eh. cbn [fst]. unfold history_of.
    rewrite history_rows_more_results; [reflexivity|].
    intros t Ht Hr. unfold result_of, new_result in Hr. cbn in Hr.
    apply Z.eqb_eq in Hr. specialize (Hother t Ht Hr).
    destruct (t_student_id t) as [|z|s]; cbn; try reflexivity.
    apply Z.eqb_neq. congruence.
Qed.

End Isolation.

(** ** The two backends on the same calls *)

Module ParityFacts.

Import StoreFacts JSONFacts ServiceFacts BackendFacts WriteFacts ResultFacts.
Import Session.

(** Rows of the two stores that the history cannot tell apart: the JSON
    columns may differ in how the store holds the text. *)
Definition same_test (a b : test) : Prop :=
  t_id a = t_id b /\ t_student_id a = t_student_id b /\
  t_topic a = t_topic b /\ t_complexity a = t_complexity b /\
  t_concepts a = t_concepts b /\ t_created_at a = t_created_at b /\
  parsed (t_questions a) = parsed (t_questions b).

Definition same_result (a b : result) : Prop :=
  r_id a = r_id b /\ r_test_id a = r_test_id b /\ r_score a = r_score b /\
  r_feedback a = r_feedback b /\ r_completed_at a = r_completed_at b /\
  parsed_analysis (Some a) = parsed_analysis (Some b).

Definition same_joined (x y : test * option result) : Prop :=
  same_test (fst x) (fst y) /\
  match snd x, snd y with
  | Some a, Some b => same_result a b
  | None, None => True
  | _, _ => False
  end.

Lemma Forall2_filter {A B : Type} (R : A -> B -> Prop) (f : A -> bool)
  (g : B -> bool) (l : list A) (l' : list B) :
  (forall a b, R a b -> f a = g b) ->
  Forall2 R l l' -> Forall2 R (filter f l) (filter g l').
Proof.
  intros H. induction 1 as [|a b l l' Hab Hl IH]; [constructor|].
  cbn [filter]. rewrite (H a b Hab). destruct (g b); [constructor|]; assumption.
Qed.

Lemma Forall2_map_eq {A B C : Type} (R : A -> B -> Prop) (f : A -> C)
  (g : B -> C) (l : list A) (l' : list B) :
  (forall a b, R a b -> f a = g b) ->
  Forall2 R l l' -> map f l = map g l'.
Proof.
  intros H. induction 1 as [|a b l l' Hab Hl IH]; [reflexivity|].
  cbn [map]. now rewrite (H a b Hab), IH.
Qed.

Lemma same_joined_rows a b rrw rrd :
  same_test a b -> Forall2 same_result rrw rrd ->
  Forall2 same_joined (joined a rrw) (joined b rrd).
Proof.
  intros Hab Hrr. unfold joined.
  assert (Hf : Forall2 same_result (filter (result_of a) rrw)
                       (filter (result_of b) rrd)).
  { apply Forall2_filter; [|exact Hrr].
    intros r r' (_ & E & _). unfold result_of.
    destruct Hab as (-> & _). now rewrite E. }
  destruct Hf as [|r r' m m' Hr Hm].
  - constructor; [|constructor]. now split.
  - cbn [map]. constructor; [now split|].
    induction Hm as [|x y m m' Hxy Hm IH]; [constructor|].
    cbn [map]. constructor; [now split | exact IH].
Qed.

Lemma same_left_join trw trd rrw rrd :
  Forall2 same_test trw trd -> Forall2 same_result rrw rrd ->
  Forall2 same_joined (left_join trw rrw) (left_join trd rrd).
Proof.
  intros Htr Hrr. rewrite !left_join_joined.
  induction Htr as [|a b trw trd Hab Htr IH]; [constructor|].
  cbn [flat_map]. apply Forall2_app; [|exact IH].
  now apply same_joined_rows.
Qed.

Lemma same_insert_desc x y l l' :
  same_joined x y -> Forall2 same_joined l l' ->
  Forall2 same_joined (insert_desc x l) (insert_desc y l').
Proof.
  intros Hxy. induction 1 as [|a b l l' Hab Hl IH]; cbn [insert_desc].
  - constructor; [exact Hxy | constructor].
  - assert (E : cell_leb (t_created_at (fst a)) (t_created_at (fst x))
                = cell_leb (t_created_at (fst b)) (t_created_at (fst y))).
    { destruct Hxy as [(_ & _ & _ & _ & _ & -> & _) _].
      destruct Hab as [(_ & _ & _ & _ & _ & -> & _) _]. reflexivity. }
    rewrite E.
    destruct (cell_leb (t_created_at (fst b)) (t_created_at (fst y))).
    + constructor; [exact Hxy|]. now constructor.
    + now constructor.
Qed.

Lemma same_order l l' :
  Forall2 same_joined l l' ->
  Forall2 same_joined (order_by_created_at_desc l)
          (order_by_created_at_desc l').
Proof.
  induction 1 as [|x y l l' Hxy Hl IH]; [constructor|].
  cbn [order_by_created_at_desc fold_right]. now apply same_insert_desc.
Qed.

Lemma same_entry x y : same_joined x y -> history_entry x = history_entry y.
Proof.
  destruct x as [a oa], y as [b ob].
  intros [(Ei & Es & Et & Ex & Ec & Ed & Eq) Ho]. cbn [fst snd] in *.
  unfold history_entry. cbn [fst snd]. rewrite Ei, Es, Et, Ex, Ec, Ed, Eq.
  destruct oa as [ra|], ob as [rb|]; try contradiction; [|reflexivity].
  destruct Ho as (_ & _ & Esc & Ef & Eca & Ea).
  unfold column. now rewrite Esc, Ef, Eca, Ea.
Qed.

Lemma same_history trw trd rrw rrd sid :
  Forall2 same_test trw trd -> Forall2 same_result rrw rrd ->
  history_of trw rrw sid = history_of trd rrd sid.
Proof.
  intros Htr Hrr. unfold history_of, history_rows. f_equal.
  apply (Forall2_map_eq same_joined); [exact same_entry|].
  apply same_order, Forall2_filter; [|now apply same_left_join].
  intros x y [(_ & -> & _) _]. reflexivity.
Qed.

Lemma same_ids_tests trw trd :
  Forall2 same_test trw trd -> map t_id trw = map t_id trd.
Proof. apply Forall2_map_eq. now intros a b (E & _). Qed.

Lemma same_ids_results rrw rrd :
  Forall2 same_result rrw rrd -> map r_id rrw = map r_id rrd.
Proof. apply Forall2_map_eq. now intros a b (E & _). Qed.

(** The server's store and the device's store after the same calls. *)
Definition sim (sw sd : state) : Prop :=
  isMobile sw = false /\ isMobile sd = true /\
  exists fkw fkd sr ss trw trd ts rrw rrd rs,
    bound sw fkw sr ss trw ts rrw rs /\
    bound sd fkd sr ss trd ts rrd rs /\
    Forall2 same_test trw trd /\ Forall2 same_result rrw rrd.

Lemma sim_start (fk fk' : bool) : sim (started false fk) (started true fk').
Proof.
  split; [reflexivity|]. split; [reflexivity|].
  exists true, fk', [], 0, [], [], 0, [], [], 0.
  split; [|split; [|split; constructor]].
  - repeat split; try constructor; try discriminate. intros r [].
  - repeat split; try constructor; discriminate.
Qed.

Lemma failed_error (msg : string) :
  failed (Resolved (error_object msg)) = true.
Proof. reflexivity. Qed.

Lemma sim_step p sw sd c :
  reports p -> sim sw sd -> comparable c = true ->
  failed (fst (perform p sw c)) = false ->
  fst (perform p sd c) = fst (perform p sw c) /\
  sim (snd (perform p sw c)) (snd (perform p sd c)).
Proof.
  intros Hp (Hmw & Hmd & fkw & fkd & sr & ss & trw & trd & ts & rrw & rrd & rs
             & Hbw & Hbd & Htr & Hrr) Hc Hok.
  destruct c as [name age className | now sid topic cx cc q | sid
                | now tid answers score feedback analysis];
    cbn [perform] in *.
  - rewrite (login_bound p sw _ _ _ _ _ _ _ name age className Hbw Hp).
    rewrite (login_bound p sd _ _ _ _ _ _ _ name age className Hbd Hp).
    destruct (filter (key_of name age className) sr) as [|r l]; cbn [fst snd].
    + split; [reflexivity|].
      split; [now rewrite isMobile_with_store|].
      split; [now rewrite isMobile_with_store|].
      eexists fkw, fkd, _, _, trw, trd, ts, rrw, rrd, rs.
      split; [now apply login_bound_after|].
      split; [now apply login_bound_after|]. now split.
    + split; [reflexivity|]. split; [exact Hmw|]. split; [exact Hmd|].
      now exists fkw, fkd, sr, ss, trw, trd, ts, rrw, rrd, rs.
  - unfold comparable in Hc. cbn [well_typed] in Hc.
    rewrite andb_true_r in Hc.
    pose proof Hbw as (Hdw & _). unfold store_of in Hdw. rewrite Hmw in Hdw.
    rewrite (saveTest_web p sw _ _ _ _ _ _ _ now sid topic cx cc q Hmw Hdw Hc)
      in Hok |- *.
    destruct (stringify q) as [text|] eqn:Es;
      [|discriminate Hok].
    destruct (refused false fkw sid (map s_id sr)) eqn:Ef;
      [discriminate Hok|].
    assert (Hfd : refused (isMobile sd) fkd sid (map s_id sr) = false)
      by now rewrite Hmd.
    rewrite (saveTest_bound p sd _ _ _ _ _ _ _ now sid topic cx cc q text Hbd
               Hp Hc Es Hfd).
    cbn [fst snd]. rewrite Hmd.
    assert (Eid : t_id (new_test true trd ts now sid topic cx cc text)
                  = t_id (new_test false trw ts now sid topic cx cc text)).
    { unfold new_test. cbn [t_id]. now rewrite (same_ids_tests trw trd Htr). }
    split; [now rewrite Eid|].
    split; [exact Hmw|].
    split; [now rewrite isMobile_with_store|].
    exists fkw, fkd, sr, ss,
      (trw ++ [new_test false trw ts now sid topic cx cc text])%list,
      (trd ++ [new_test true trd ts now sid topic cx cc text])%list,
      (t_id (new_test false trw ts now sid topic cx cc text)), rrw, rrd, rs.
    split.
    { pose proof (saveTest_bound_after sw fkw sr ss trw ts rrw rs now sid
                    topic cx cc q text Hbw Hc Es) as H.
      unfold with_store in H. now rewrite Hmw in H. }
    split.
    { pose proof (saveTest_bound_after sd fkd sr ss trd ts rrd rs now sid
                    topic cx cc q text Hbd Hc Es) as H.
      unfold with_store in H |- *. rewrite Hmd in H |- *. now rewrite <- Eid. }
    split; [|exact Hrr].
    apply Forall2_app; [exact Htr|]. constructor; [|constructor].
    destruct (payload_cases q Hc) as [-> | Hj]; [discriminate|].
    repeat split; try reflexivity; [now apply eq_sym|].
    unfold parsed, new_test. cbn [t_questions].
    now rewrite (stored_json_parses false q text Hj Es),
      (stored_json_parses true q text Hj Es).
  - rewrite (getHistory_bound p sw _ _ _ _ _ _ _ sid Hbw Hp).
    rewrite (getHistory_bound p sd _ _ _ _ _ _ _ sid Hbd Hp).
    cbn [fst snd]. split; [now rewrite (same_history trw trd rrw rrd sid)|].
    split; [exact Hmw|]. split; [exact Hmd|].
    now exists fkw, fkd, sr, ss, trw, trd, ts, rrw, rrd, rs.
  - unfold comparable in Hc. cbn [well_typed] in Hc.
    apply andb_prop in Hc as [Hc Hz]. apply andb_prop in Hc as [Ha Hl].
    pose proof Hbw as (Hdw & _). unfold store_of in Hdw. rewrite Hmw in Hdw.
    rewrite (saveResult_web p sw _ _ _ _ _ _ _ now tid answers score feedback
               analysis Hmw Hdw Ha Hl) in Hok |- *.
    destruct (stringify answers) as [text|] eqn:Es;
      [|discriminate Hok].
    destruct (refused false fkw tid (map t_id trw)) eqn:Ef;
      [discriminate Hok|].
    assert (Hfd : refused (isMobile sd) fkd tid (map t_id trd) = false)
      by now rewrite Hmd.
    assert (Hfw : refused (isMobile sw) fkw tid (map t_id trw) = false)
      by now rewrite Hmw.
    rewrite (saveResult_bound p sd _ _ _ _ _ _ _ now tid answers score
               feedback analysis text Hbd Hp Ha Hl Es Hfd).
    cbn [fst snd]. rewrite Hmd.
    assert (Eid : r_id (new_result true rrd rs now tid text score feedback
                                   (stringify analysis))
                  = r_id (new_result false rrw rs now tid text score feedback
                                     (stringify analysis))).
    { unfold new_result. cbn [r_id].
      now rewrite (same_ids_results rrw rrd Hrr). }
    split; [now rewrite Eid|].
    split; [exact Hmw|].
    split; [now rewrite isMobile_with_store|].
    exists fkw, fkd, sr, ss, trw, trd, ts,
      (rrw ++ [new_result false rrw rs now tid text score feedback
                          (stringify analysis)])%list,
      (rrd ++ [new_result true rrd rs now tid text score feedback
                          (stringify analysis)])%list,
      (r_id (new_result false rrw rs now tid text score feedback
                        (stringify analysis))).
    split.
    { pose proof (saveResult_bound_after sw fkw sr ss trw ts rrw rs now tid
                    text score feedback analysis Hbw Hl Hfw) as H.
      unfold with_store in H. now rewrite Hmw in H. }
    split.
    { pose proof (saveResult_bound_after sd fkd sr ss trd ts rrd rs now tid
                    text score feedback analysis Hbd Hl Hfd) as H.
      unfold with_store in H |- *. rewrite Hmd in H |- *. now rewrite <- Eid. }
    split; [exact Htr|].
    apply Forall2_app; [exact Hrr|]. constructor; [|constructor].
    repeat split; try reflexivity; [now apply eq_sym|].
    rewrite !analysis_comes_back by exact Hl.
    destruct analysis as [| |b|z|s|l|m]; try reflexivity.
    destruct z; [discriminate Hz | reflexivity | reflexivity].
Qed.

Lemma sim_run p cs : forall sw sd,
  reports p -> sim sw sd -> forallb comparable cs = true ->
  existsb failed (run p sw cs) = false ->
  run p sd cs = run p sw cs.
Proof.
  induction cs as [|c cs IH]; intros sw sd Hp Hs Hc Hok; [reflexivity|].
  cbn [forallb] in Hc. apply andb_prop in Hc as [Hc Hcs].
  cbn [run] in *.
  destruct (perform p sw c) as [ow sw'] eqn:Ew.
  destruct (perform p sd c) as [od sd'] eqn:Ed.
  cbn [existsb] in Hok. apply orb_false_elim in Hok as [Ho Hok].
  pose proof (sim_step p sw sd c Hp Hs Hc) as H.
  rewrite Ew, Ed in H. cbn [fst snd] in H. destruct (H Ho) as [-> Hs'].
  f_equal. now apply IH.
Qed.

End ParityFacts.

(** The two backends answer alike.  Take any sequence of calls in which
    the arguments typed [any] are what the controller passes and no
    analysis is the number 0.  If the server backend reports no failure on
    it, the device backend, with a plugin that reports rows and rowids,
    returns the same outcomes call by call. *)
Theorem backends_agree (p : plugin) (fk fk' : bool) (cs : list Session.call) :
  reports p ->
  forallb Session.comparable cs = true ->
  existsb Session.failed (Session.run p (Session.started false fk) cs) = false ->
  Session.run p (Session.started true fk') cs
  = Session.run p (Session.started false fk) cs.
Proof.
  intros Hp Hc Hok.
  exact (ParityFacts.sim_run p cs _ _ Hp (ParityFacts.sim_start fk fk') Hc Hok).
Qed.

(** ** The history of a store that was written from outside, a failed
       [init], and a restart *)

Module HistoryFacts.

Import StoreFacts JSONFacts ServiceFacts BackendFacts.






End HistoryFacts.


(** A failed [init] is silent and leaves the service unusable: whichever
    step fails, [init] resolves, nothing is stored, and every operation
    called afterwards rejects and changes nothing; after a failed
    connection the error is the TypeError of a call on [null]. *)
Theorem failed_init_blocks_every_operation (p : plugin) (fk : bool)
  (f : fault) :
  f <> NoFault ->
  let st := snd (init f (constructed true fk)) in
  fst (init f (constructed true fk)) = Resolved VUndef /\
  store_of st = empty_database fk /\
  (f = CreateConnectionFails ->
   forall name age className,
     login p st name age className = (Rejected TypeError, st)) /\
  (forall name age className,
     exists e, login p st name age className = (Rejected e, st)) /\
  (forall now studentId topic complexity concepts questions,
     exists e, saveTest p st now studentId topic complexity concepts questions
               = (Rejected e, st)) /\
  (forall studentId, exists e, getHistory p st studentId = (Rejected e, st)) /\
  (forall now testId answers score feedback analysis,
     exists e, saveResult p st now testId answers score feedback analysis
               = (Rejected e, st)).
Proof.
  intros Hf. destruct f; [congruence | | |];
    (split; [reflexivity|]; split; [reflexivity|];
     split; [intros E; try discriminate E; reflexivity|];
     repeat split; intros; eexists; reflexivity).
Qed.

(** The data of a run survives a restart.  On the server the start-up
    script leaves the store of a run as it is; on the device a service
    constructed again on the same file is, after [init], in the state the
    run had reached. *)
Theorem data_survives_restart (p : plugin) (st : state) :
  reachable p st ->
  (isMobile st = false -> Server.start (server st) = Ok (server st)) /\
  (isMobile st = true ->
   init NoFault (set_db st Null) = (Resolved VUndef, st)).
Proof.
  intros Hreach.
  destruct (ServiceFacts.reachable_inv p st Hreach)
    as [(fk & sr & ss & tr & ts & rr & rs & Hd & _ & _ & Hw) Ho].
  unfold store_of in Hd. split; intros Hm; rewrite Hm in Hd.
  - destruct (Hw Hm) as [-> _]. rewrite Hd. reflexivity.
  - specialize (Ho Hm). unfold init, init_try.
    cbn [set_db isMobile device negb]. rewrite Hm, Hd. cbn [negb].
    change (exec DataService.schema (StoreFacts.db_of true fk sr ss tr ts rr rs))
      with (Ok (StoreFacts.db_of true fk sr ss tr ts rr rs)).
    cbv iota. f_equal. destruct st as [m c dv sv]. cbn in *. now subst.
Qed.


(** ** The profile statistics *)

Module StatsFacts.

Import App.

Lemma in_add (x s : string) (set : list string) :
  In x (add s set) <-> x = s \/ In x set.
Proof.
  unfold add. destruct (existsb (String.eqb s) set) eqn:E.
  - split; [now right|]. intros [-> | H]; [|exact H].
    apply existsb_exists in E as (y & Hy & Ey).
    apply String.eqb_eq in Ey. now subst y.
  - rewrite in_app_iff. cbn [In]. intuition.
Qed.

Lemma nodup_add (s : string) (set : list string) :
  NoDup set -> NoDup (add s set).
Proof.
  intros H. unfold add. destruct (existsb (String.eqb s) set) eqn:E;
    [exact H|].
  apply NoDup_app; [exact H | repeat constructor; intros [] |].
  intros y Hy [<- | []].
  assert (Ex : existsb (String.eqb s) set = true).
  { apply existsb_exists. exists s. split; [exact Hy | apply String.eqb_refl]. }
  congruence.
Qed.

Lemma in_add_list (x : string) (l set : list string) :
  In x (fold_left (fun acc s => add s acc) l set) <-> In x l \/ In x set.
Proof.
  revert set. induction l as [|s l IH]; intros set; cbn [fold_left In].
  - intuition.
  - rewrite IH, in_add. intuition.
Qed.

Lemma nodup_add_list (l set : list string) :
  NoDup set -> NoDup (fold_left (fun acc s => add s acc) l set).
Proof.
  revert set. induction l as [|s l IH]; intros set H; [exact H|].
  cbn [fold_left]. now apply IH, nodup_add.
Qed.

(** The strings that the tests of [hs] list under [field]. *)
Definition listed (field : Analysis -> list string) (hs : list Test)
  (x : string) : Prop :=
  exists h a, In h hs /\ analysis h = Some a /\ In x (field a).

Lemma in_add_all field (x : string) (hs : list Test) (set : list string) :
  In x (fold_left (add_all field) hs set) <-> In x set \/ listed field hs x.
Proof.
  revert set. induction hs as [|h hs IH]; intros set; cbn [fold_left].
  - split; [now left|]. intros [H | (h & a & [] & _)]. exact H.
  - rewrite IH. unfold add_all. split.
    + intros [H | (h' & a & Hin & Ea & Hx)].
      * destruct (analysis h) as [a|] eqn:Ea; [|now left].
        apply in_add_list in H as [H | H]; [|now left].
        right. exists h, a. split; [now left | now split].
      * right. exists h', a. split; [now right | now split].
    + intros [H | (h' & a & [<- | Hin] & Ea & Hx)].
      * left. destruct (analysis h); [|exact H].
        apply in_add_list. now right.
      * left. rewrite Ea. apply in_add_list. now left.
      * right. now exists h', a.
Qed.

Lemma nodup_add_all field (hs : list Test) (set : list string) :
  NoDup set -> NoDup (fold_left (add_all field) hs set).
Proof.
  revert set. induction hs as [|h hs IH]; intros set H; [exact H|].
  cbn [fold_left]. apply IH. unfold add_all.
  destruct (analysis h); [now apply nodup_add_list | exact H].
Qed.

Lemma in_firstn {A : Type} (n : nat) (l : list A) (x : A) :
  In x (firstn n l) -> In x l.
Proof.
  revert l. induction n as [|n IH]; intros [|y l]; cbn [firstn In]; try easy.
  intros [-> | H]; [now left | right; now apply IH].
Qed.

Lemma nodup_firstn {A : Type} (n : nat) (l : list A) :
  NoDup l -> NoDup (firstn n l).
Proof.
  revert l. induction n as [|n IH]; intros [|y l] H; cbn [firstn];
    try constructor.
  - inversion H as [|? ? Hy Hl]; subst. intros Hin. apply Hy.
    now apply in_firstn in Hin.
  - inversion H; subst. now apply IH.
Qed.

Lemma firstn_or_full {A : Type} (n : nat) (l : list A) (x : A) :
  In x l -> In x (firstn n l) \/ List.length (firstn n l) = n.
Proof.
  intros H. destruct (Nat.le_gt_cases (List.length l) n) as [Hle | Hgt].
  - left. now rewrite firstn_all2.
  - right. rewrite length_firstn. lia.
Qed.

Lemma completed_filter (hs : list Test) (h : Test) :
  In h (filter is_completed hs) <-> In h hs /\ score h <> None.
Proof.
  rewrite filter_In. unfold is_completed.
  destruct (score h); intuition congruence.
Qed.

Lemma no_completed (hs : list Test) :
  filter is_completed hs = [] <-> forall h, In h hs -> score h = None.
Proof.
  split.
  - intros E h Hin. destruct (score h) eqn:Es; [|reflexivity].
    assert (H : In h (filter is_completed hs)).
    { apply completed_filter. split; [exact Hin | congruence]. }
    rewrite E in H. destruct H.
  - intros H. destruct (filter is_completed hs) as [|h l] eqn:E;
      [reflexivity|].
    assert (Hin : In h (filter is_completed hs)) by (rewrite E; now left).
    apply completed_filter in Hin as [Hin Hs]. now destruct (Hs (H h Hin)).
Qed.

(** [top] is a choice of at most three of the strings that the tests with
    a score list under [field]: no string twice, none from elsewhere, and
    none left out unless [top] is full. *)
Definition chosen_from (field : Analysis -> list string) (history : list Test)
  (top : list string) : Prop :=
  NoDup top /\ (List.length top <= 3)%nat /\
  (forall x, In x top ->
             exists h a, In h history /\ score h <> None /\
                         analysis h = Some a /\ In x (field a)) /\
  (forall h a x, In h history -> score h <> None ->
                 analysis h = Some a -> In x (field a) ->
                 In x top \/ List.length top = 3%nat).

Lemma chosen_from_completed field (history : list Test) :
  chosen_from field history
    (firstn 3 (fold_left (add_all field) (filter is_completed history) [])).
Proof.
  split; [|split; [|split]].
  - apply nodup_firstn, nodup_add_all. constructor.
  - rewrite length_firstn. lia.
  - intros x Hx. apply in_firstn, in_add_all in Hx
      as [[] | (h & a & Hin & Ea & Hx)].
    apply completed_filter in Hin as [Hin Hs]. now exists h, a.
  - intros h a x Hin Hs Ea Hx. apply firstn_or_full, in_add_all. right.
    exists h, a. split; [now apply completed_filter | now split].
Qed.

End StatsFacts.

Section ProfileStatsFacts.

Import App StatsFacts.

Variable round_quotient : Z -> Z -> Z.

(** [getProfileStats] returns [null] exactly when no test of the history
    has a score; the empty history is the first case of it. *)
Theorem profile_needs_a_completed_test (history : list Test) :
  getProfileStats round_quotient history = None <->
  forall h, In h history -> score h = None.
Proof.
  unfold getProfileStats. rewrite <- no_completed.
  destruct history as [|h hs]; [now split|].
  cbn [List.length Nat.eqb].
  destruct (filter is_completed (h :: hs)) as [|c cs]; [now split|].
  cbn [List.length Nat.eqb]. split; discriminate.
Qed.

(** When there are statistics, between one and all of the tests are
    counted as completed; each of the two lists holds at most three
    strings, all different, each taken from the analysis of a test that has
    a score; and a string of such an analysis is left out only when the
    list is full. *)
Theorem profile_lists_are_bounded (history : list Test) (s : Stats) :
  getProfileStats round_quotient history = Some s ->
  totalTests s = Z.of_nat (List.length history) /\
  1 <= completedTests s <= totalTests s /\
  chosen_from strengths history (top_strengths s) /\
  chosen_from weaknesses history (top_weaknesses s).
Proof.
  unfold getProfileStats.
  destruct (List.length history =? 0)%nat; [discriminate|].
  destruct (List.length (filter is_completed history) =? 0)%nat eqn:En;
    [discriminate|].
  intros E. injection E as <-. cbn [totalTests completedTests top_strengths
                                    top_weaknesses].
  apply Nat.eqb_neq in En.
  pose proof (filter_length_le is_completed history) as Hle.
  split; [reflexivity|]. split; [lia|].
  split; apply chosen_from_completed.
Qed.

End ProfileStatsFacts.

(** ** The further properties on a run *)

(** The row of the test that Sam saved, as the device holds it. *)
Definition sams_test : test :=
  {| t_id := 1; t_student_id := SInt 1; t_topic := SText "Fractions";
     t_complexity := SText "Easy"; t_concepts := SText "";
     t_questions :=
       SText (match stringify (questions_value [fractions; open_question]) with
              | Some t => t
              | None => ""
              end);
     t_created_at := SText "2024-01-01 10:00:00" |}.

Definition sams_answers : value :=
  VObj [("1", VStr "3/4"); ("2", VStr "2/4")].

Definition sams_analysis : value :=
  VObj [("strengths", VArr [VStr "fractions"]); ("weaknesses", VArr []);
        ("suggestions", VArr [VStr "practise"])].

Lemma writes_are_all_or_nothing_witness :
  (snd (saveTest reporting_plugin (after_login false) "2024-01-01 10:00:00" 5
                 "Fractions" "Easy" "" (VArr []))
   = after_login false /\
   forall v, fst (saveTest reporting_plugin (after_login false)
                           "2024-01-01 10:00:00" 5 "Fractions" "Easy" ""
                           (VArr []))
             <> Resolved (VObj [("id", v)])) \/
  (exists v row,
     fst (saveTest reporting_plugin (after_login false) "2024-01-01 10:00:00"
                   5 "Fractions" "Easy" "" (VArr []))
     = Resolved (VObj [("id", v)]) /\
     test_rows (store_of (snd (saveTest reporting_plugin (after_login false)
                                        "2024-01-01 10:00:00" 5 "Fractions"
                                        "Easy" "" (VArr []))))
     = (test_rows (store_of (after_login false)) ++ [row])%list /\
     student_rows (store_of (snd (saveTest reporting_plugin
                                           (after_login false)
                                           "2024-01-01 10:00:00" 5
                                           "Fractions" "Easy" "" (VArr []))))
     = student_rows (store_of (after_login false)) /\
     result_rows (store_of (snd (saveTest reporting_plugin (after_login false)
                                          "2024-01-01 10:00:00" 5 "Fractions"
                                          "Easy" "" (VArr []))))
     = result_rows (store_of (after_login false)) /\
     ~ In (t_id row) (map t_id (test_rows (store_of (after_login false)))) /\
     t_student_id row = SInt 5 /\ t_topic row = SText "Fractions" /\
     t_complexity row = SText "Easy" /\ t_concepts row = SText "" /\
     parse_js (to_js (t_questions row)) = Some (VArr [])).
Proof.
  exact (proj1 (writes_are_all_or_nothing reporting_plugin (after_login false)
                  (after_login_reachable false))
               "2024-01-01 10:00:00" 5 "Fractions" "Easy" "" (VArr [])
               eq_refl).
Defined.





(** Sam answers the same test twice. *)
Definition answered_twice (mobile : bool) : state :=
  let s1 := snd (saveResult reporting_plugin (after_test mobile)
                            "2024-01-01 10:30:00" 1 sams_answers 50 "Half"
                            sams_analysis) in
  snd (saveResult reporting_plugin s1 "2024-01-01 11:30:00" 1 sams_answers 100
                  "All" sams_analysis).

Lemma answered_twice_reachable (mobile : bool) :
  reachable reporting_plugin (answered_twice mobile).
Proof.
  repeat (apply reach_saveResult; try reflexivity).
  apply after_test_reachable.
Qed.

Lemma one_record_per_result_witness :
  exists history : list value,
    getHistory reporting_plugin (answered_twice true) 1
    = (Resolved (VArr history), answered_twice true) /\
    List.length (filter (ResultFacts.has_id 1) history) = 2%nat.
Proof.
  exact (one_record_per_result reporting_plugin reporting_plugin_reports
           (answered_twice true) 1 sams_test (answered_twice_reachable true)
           (or_introl eq_refl) eq_refl).
Defined.

(** A session: Sam logs in, saves a test, answers it and reads the
    history. *)
Definition session : list Session.call :=
  [Session.Login "Sam" 9 "4th";
   Session.SaveTest "2024-01-01 10:00:00" 1 "Fractions" "Easy" ""
     (questions_value [fractions; open_question]);
   Session.GetHistory 1;
   Session.SaveResult "2024-01-01 10:30:00" 1 sams_answers 100 "Great job!"
     sams_analysis;
   Session.GetHistory 1].

Lemma backends_agree_witness :
  Session.run reporting_plugin (Session.started true false) session
  = Session.run reporting_plugin (Session.started false false) session.
Proof.
  exact (backends_agree reporting_plugin false false session
           reporting_plugin_reports eq_refl eq_refl).
Defined.

(** The hypothesis on the analysis is needed: the number 0 comes back as 0
    from the device and as null from the server. *)
Example analysis_zero_differs :
  let calls := [Session.Login "Sam" 9 "4th";
                Session.SaveTest "2024-01-01 10:00:00" 1 "Fractions" "Easy" ""
                  (VArr []);
                Session.SaveResult "2024-01-01 10:30:00" 1 sams_answers 0 ""
                  (VNum 0);
                Session.GetHistory 1] in
  map (fun o => match o with
                | Resolved (VArr [h]) => get_field "analysis" h
                | _ => VUndef
                end)
      [last (Session.run reporting_plugin (Session.started true false) calls)
            (Rejected TypeError);
       last (Session.run reporting_plugin (Session.started false false) calls)
            (Rejected TypeError)]
  = [VNum 0; VNull].
Proof. vm_compute. reflexivity. Qed.



Lemma failed_init_blocks_every_operation_witness :
  fst (init OpenFails (constructed true false)) = Resolved VUndef /\
  exists e, getHistory reporting_plugin
              (snd (init OpenFails (constructed true false))) 1
            = (Rejected e, snd (init OpenFails (constructed true false))).
Proof.
  destruct (failed_init_blocks_every_operation reporting_plugin false
              OpenFails ltac:(discriminate))
    as (Hi & _ & _ & _ & _ & Hh & _).
  exact (conj Hi (Hh 1)).
Defined.

Lemma data_survives_restart_witness :
  init NoFault (set_db (after_test true) Null)
  = (Resolved VUndef, after_test true).
Proof.
  exact (proj2 (data_survives_restart reporting_plugin (after_test true)
                  (after_test_reachable true)) eq_refl).
Defined.

(** Three tests of a history: two with a score, one without. *)
Definition analysed (l1 l2 : list string) : option App.Analysis :=
  Some {| App.strengths := l1; App.weaknesses := l2; App.suggestions := [] |}.

Definition entry (i : Z) (s : option Z) (a : option App.Analysis) : App.Test :=
  {| App.id := i; App.student_id := 1; App.topic := "Fractions";
     App.complexity := "Easy"; App.concepts := ""; App.questions := [];
     App.created_at := "2024-01-01 10:00:00"; App.score := s;
     App.feedback := None; App.analysis := a; App.completed_at := None |}.

Definition sams_history : list App.Test :=
  [entry 3 None (analysed ["ignored"] []);
   entry 2 (Some 100) (analysed ["adding"; "halves"; "adding"] ["speed"]);
   entry 1 (Some 50) (analysed ["halves"; "thirds"; "tenths"] [])].

(** The mean rounded half up, on integers. *)
Definition half_up (sum count : Z) : Z := (2 * sum + count) / (2 * count).

Definition sams_stats : App.Stats :=
  {| App.avgScore := 75; App.totalTests := 3; App.completedTests := 2;
     App.top_strengths := ["adding"; "halves"; "thirds"];
     App.top_weaknesses := ["speed"] |}.

Lemma profile_lists_are_bounded_witness :
  App.totalTests sams_stats = Z.of_nat (List.length sams_history) /\
  1 <= App.completedTests sams_stats <= App.totalTests sams_stats /\
  StatsFacts.chosen_from App.strengths sams_history
    (App.top_strengths sams_stats) /\
  StatsFacts.chosen_from App.weaknesses sams_history
    (App.top_weaknesses sams_stats).
Proof.
  exact (profile_lists_are_bounded half_up sams_history sams_stats eq_refl).
Defined.

Lemma histories_do_not_interfere_witness :
  fst (getHistory reporting_plugin
         (snd (saveTest reporting_plugin (after_test true)
                        "2024-01-03 08:00:00" 2 "Decimals" "Easy" ""
                        (VArr [])))
         1)
  = fst (getHistory reporting_plugin (after_test true) 1).
Proof.
  exact (proj1 (proj2 (histories_do_not_interfere reporting_plugin
                         reporting_plugin_reports (after_test true) 1
                         (after_test_reachable true)))
               "2024-01-03 08:00:00" 2 "Decimals" "Easy" "" (VArr []) eq_refl
               ltac:(discriminate)).
Defined.

